(** * Valleytainment website widgets: chatbot, image generator, security manager

    A shallow embedding of the client-side JavaScript of the site
    (js/advanced-chatbot.js, the image generator, the legacy image
    history helpers and the security manager) together with the
    properties its specification states about them.

    JavaScript strings are sequences of UTF-16 code units, exceptions
    are explicit completions, [localStorage] is a finite map, and an
    [async] function is cut at its [await] into the part that runs
    before it and the part that resumes after it. *)

From Stdlib Require Import NArith String Ascii Lia.
From stdpp Require Import base list gmap.

(** ** The JavaScript built-ins the widgets rely on *)

Module JS.

(** A string value: its UTF-16 code units. *)
Abbreviation jsstring := (list N).

(** *** String literals

    Literals of the source are UTF-8 text; [lit] decodes them into code
    units (code points above U+FFFF become a surrogate pair). *)

Definition bytes_of (s : string) : list N :=
  map N_of_ascii (list_ascii_of_string s).

Definition cont (b : N) : N := (b - 128)%N.

Fixpoint utf8_decode (bs : list N) : list N :=
  match bs with
  | [] => []
  | b :: r =>
    if (b <? 128)%N then b :: utf8_decode r
    else if (b <? 224)%N then
      match r with
      | c1 :: r1 => ((b - 192) * 64 + cont c1)%N :: utf8_decode r1
      | [] => [65533%N]
      end
    else if (b <? 240)%N then
      match r with
      | c1 :: c2 :: r2 =>
        ((b - 224) * 4096 + cont c1 * 64 + cont c2)%N :: utf8_decode r2
      | _ => [65533%N]
      end
    else
      match r with
      | c1 :: c2 :: c3 :: r3 =>
        ((b - 240) * 262144 + cont c1 * 4096 + cont c2 * 64 + cont c3)%N
          :: utf8_decode r3
      | _ => [65533%N]
      end
  end.

Definition utf16_units (cp : N) : list N :=
  if (cp <? 65536)%N then [cp]
  else [(55296 + (cp - 65536) / 1024)%N; (56320 + (cp - 65536) mod 1024)%N].

Definition lit (s : string) : jsstring :=
  concat (map utf16_units (utf8_decode (bytes_of s))).

Definition dq : jsstring := [34%N].
Definition nl : jsstring := [10%N].

(** *** Completions: a call returns normally or throws *)

Inductive jserror : Type :=
  | Error (message : jsstring)
  | URIError
  | SyntaxError
  | TypeError.

Inductive completion (A : Type) : Type :=
  | Normal (a : A)
  | Throw (e : jserror).
Arguments Normal {A} a.
Arguments Throw {A} e.

#[global] Instance completion_ret : MRet completion := @Normal.
#[global] Instance completion_bind : MBind completion := fun A B k c =>
  match c with
  | Normal a => k a
  | Throw e => Throw e
  end.

(** [try { body } catch (error) { handler }] *)
Definition try_catch {A} (body : completion A) (handler : jserror -> completion A)
  : completion A :=
  match body with
  | Normal a => Normal a
  | Throw e => handler e
  end.

(** *** String.prototype.includes *)

Fixpoint startsWith (s key : jsstring) : bool :=
  match key, s with
  | [], _ => true
  | _ :: _, [] => false
  | k :: key', c :: s' => (k =? c)%N && startsWith s' key'
  end.

Fixpoint includes (s key : jsstring) : bool :=
  startsWith s key ||
  match s with
  | [] => false
  | _ :: s' => includes s' key
  end.

(** *** String.prototype.trim

    White space and line terminators of ECMA-262. *)

Definition isWhiteSpace (c : N) : bool :=
  ((9 <=? c) && (c <=? 13) || (c =? 32) || (c =? 160) || (c =? 5760)
   || (8192 <=? c) && (c <=? 8202) || (c =? 8232) || (c =? 8233)
   || (c =? 8239) || (c =? 8287) || (c =? 12288) || (c =? 65279))%N.

Fixpoint trimStart (s : jsstring) : jsstring :=
  match s with
  | c :: s' => if isWhiteSpace c then trimStart s' else s
  | [] => []
  end.

Definition trim (s : jsstring) : jsstring :=
  rev (trimStart (rev (trimStart s))).

(** Truthiness of a string: every string but the empty one. *)
Definition truthy (s : jsstring) : bool :=
  match s with [] => false | _ :: _ => true end.

(** *** Decimal digits of a non-negative integer *)

Fixpoint uint_units (d : Decimal.uint) : jsstring :=
  match d with
  | Decimal.Nil => []
  | Decimal.D0 d' => 48%N :: uint_units d'
  | Decimal.D1 d' => 49%N :: uint_units d'
  | Decimal.D2 d' => 50%N :: uint_units d'
  | Decimal.D3 d' => 51%N :: uint_units d'
  | Decimal.D4 d' => 52%N :: uint_units d'
  | Decimal.D5 d' => 53%N :: uint_units d'
  | Decimal.D6 d' => 54%N :: uint_units d'
  | Decimal.D7 d' => 55%N :: uint_units d'
  | Decimal.D8 d' => 56%N :: uint_units d'
  | Decimal.D9 d' => 57%N :: uint_units d'
  end.

(** What a template literal prints for an integer below 10^21. From
    there on JavaScript switches to exponent notation, so the widgets
    below take the conversion of a number to a string as a parameter
    and the sample pages use [decimal] for it. *)
Definition decimal (n : N) : jsstring := uint_units (N.to_uint n).

(** *** encodeURIComponent (ECMA-262, Encode with the unreserved set) *)

Definition isUnescaped (c : N) : bool :=
  ((65 <=? c) && (c <=? 90) || (97 <=? c) && (c <=? 122)
   || (48 <=? c) && (c <=? 57)
   || (c =? 45) || (c =? 95) || (c =? 46) || (c =? 33) || (c =? 126)
   || (c =? 42) || (c =? 39) || (c =? 40) || (c =? 41))%N.

Definition isLeadSurrogate (c : N) : bool := ((55296 <=? c) && (c <=? 56319))%N.
Definition isTrailSurrogate (c : N) : bool := ((56320 <=? c) && (c <=? 57343))%N.

Definition utf8_octets (cp : N) : list N :=
  if (cp <? 128)%N then [cp]
  else if (cp <? 2048)%N then [(192 + cp / 64)%N; (128 + cp mod 64)%N]
  else if (cp <? 65536)%N then
    [(224 + cp / 4096)%N; (128 + (cp / 64) mod 64)%N; (128 + cp mod 64)%N]
  else
    [(240 + cp / 262144)%N; (128 + (cp / 4096) mod 64)%N;
     (128 + (cp / 64) mod 64)%N; (128 + cp mod 64)%N].

Definition hexDigit (d : N) : N :=
  if (d <? 10)%N then (48 + d)%N else (55 + d)%N.

Definition percent (octet : N) : jsstring :=
  [37%N; hexDigit (octet / 16); hexDigit (octet mod 16)].

Definition escape_octets (octets : list N) : jsstring :=
  concat (map percent octets).

Fixpoint encodeURIComponent (s : jsstring) : completion jsstring :=
  match s with
  | [] => Normal []
  | c :: r =>
    if isUnescaped c then
      rest ← encodeURIComponent r; Normal (c :: rest)
    else if isLeadSurrogate c then
      match r with
      | d :: r' =>
        if isTrailSurrogate d then
          rest ← encodeURIComponent r';
          Normal (escape_octets
                    (utf8_octets (65536 + (c - 55296) * 1024 + (d - 56320))%N)
                  ++ rest)
        else Throw URIError
      | [] => Throw URIError
      end
    else if isTrailSurrogate c then Throw URIError
    else
      rest ← encodeURIComponent r;
      Normal (escape_octets (utf8_octets c) ++ rest)
  end.

(** *** Array.prototype.sort with a numeric comparator (stable) *)

Section Sort.
Context {A : Type} (key : A -> N).

Fixpoint insert_sorted (x : A) (l : list A) : list A :=
  match l with
  | [] => [x]
  | y :: l' => if (key y <? key x)%N then y :: insert_sorted x l' else x :: l
  end.

(** Elements of equal key keep their order, as the stable sort does. *)
Definition sort_by (l : list A) : list A := foldr insert_sorted [] l.

End Sort.

(** *** Array.prototype.slice, as the widgets call it *)

(** [a.slice(-n)]: the last [n] items; [-0] is [0], so [slice(-0)] is the
    whole array. *)
Definition slice_from_end {A} (n : nat) (a : list A) : list A :=
  match n with
  | O => a
  | S _ => drop (length a - n) a
  end.

(** [a.slice(0, n)]: the first [n] items. *)
Definition slice_to {A} (n : nat) (a : list A) : list A := take n a.

(** The last [n] items of a list, all of it when it is shorter. *)
Definition keep_last {A} (n : nat) (l : list A) : list A := drop (length l - n) l.

(** *** String.prototype.toLowerCase

    The full Unicode mapping is a parameter of the widgets below; on
    strings of ASCII characters it is this function. *)
Definition asciiLower (s : jsstring) : jsstring :=
  map (fun c => if ((65 <=? c) && (c <=? 90))%N then (c + 32)%N else c) s.

(** *** A plain object used as a table of counts

    A value of such an object: a count, or the NaN that incrementing a
    value that is not a number leaves. *)
Inductive Count : Type := NaN | Num (n : N).

(** The property names every object inherits from Object.prototype
    other than [__proto__]; reading one of them on a plain object gives
    a function, which is truthy. *)
Definition inheritedNames : list jsstring :=
  [ lit "constructor"; lit "hasOwnProperty"; lit "isPrototypeOf";
    lit "propertyIsEnumerable"; lit "toLocaleString"; lit "toString"; lit "valueOf";
    lit "__defineGetter__"; lit "__defineSetter__"; lit "__lookupGetter__";
    lit "__lookupSetter__" ].

(** [if (counts[key]) counts[key]++; else counts[key] = 1;] on a plain
    object: an own count goes up, an own zero or NaN becomes 1, an
    inherited function becomes an own NaN, and [__proto__], whose
    setter ignores numbers, leaves the object as it is. *)
Definition countUp (key : jsstring) (counts : gmap jsstring Count) : gmap jsstring Count :=
  match counts !! key with
  | Some (Num n) =>
    if (n =? 0)%N then <[key := Num 1]> counts else <[key := Num (n + 1)]> counts
  | Some NaN => <[key := Num 1]> counts
  | None =>
    if bool_decide (key = lit "__proto__") then counts
    else if bool_decide (key ∈ inheritedNames) then <[key := NaN]> counts
    else <[key := Num 1]> counts
  end.

End JS.

(** ** The chat widget (js/advanced-chatbot.js) *)

Module Chatbot.
Import JS.

Record Endpoint : Type := {
  name : jsstring;
  url : jsstring;
  priority : N
}.

(** The fields of CHATBOT_CONFIG that the modelled methods read. *)
Record Config : Type := {
  emoji : bool;
  maxHistoryItems : nat;
  useLocalFallback : bool;
  endpoints : list Endpoint
}.

Definition CHATBOT_CONFIG : Config := {|
  emoji := true;
  maxHistoryItems := 50;
  useLocalFallback := true;
  endpoints :=
    [ {| name := lit "huggingface";
         url := lit "https://api-inference.huggingface.co/models/mistralai/Mixtral-8x7B-Instruct-v0.1";
         priority := 1 |}
    ; {| name := lit "openai-compatible";
         url := lit "https://api.together.xyz/v1/chat/completions";
         priority := 2 |}
    ; {| name := lit "local";
         url := lit "/api/chat";
         priority := 3 |} ]
|}.

Inductive Role : Type := user | assistant.

(** An item of [chatHistory]. [timestamp] is the instant of [new Date()]
    in milliseconds; the source stores its ISO rendering. *)
Record ChatMessage : Type := {
  role : Role;
  content : jsstring;
  timestamp : N
}.

(** The widget and the part of the page it touches: the messages and
    typing indicators appended to the main chat element, and
    localStorage. *)
Record ValleyBot : Type := {
  chatHistory : list ChatMessage;
  chatMessages : list (Role * jsstring);
  typingIndicators : nat;
  localStorage : gmap jsstring jsstring
}.

(** What the page holds once [init] has looked up its elements and
    filled the popup: whether there is a main chat element
    ([#chat-messages]), and whether the popup holds a chat element
    ([.chat-messages]). The popup itself and the controls that [init]
    attaches its listeners to are taken to exist. *)
Record Page : Type := {
  mainChat : bool;
  popupChat : bool
}.

Definition historyKey : jsstring := lit "valleybot_chat_history".

(** The object literal [responses] of getLocalResponse, in the order of
    [Object.entries] (insertion order: no key is an array index). *)
Definition responses : list (jsstring * jsstring) :=
  [ (lit "hello",
     lit "Hey there! How can I help you with Valleytainment Productions today? üëã")
  ; (lit "hi",
     lit "Hello! What can I do for you today? üòä")
  ; (lit "who are you",
     lit "I'm ValleyBot 2.0, your AI assistant for all things Valleytainment. I can help with information about our services, team, and upcoming events. ü§ñ")
  ; (lit "tell me about valleytainment",
     lit "Valleytainment Productions is a cutting-edge entertainment company specializing in content creation, talent management, and music production with an edgy, vibrant urban aesthetic. Founded in 2018, we've grown from a small collective of creatives to a full-service production company with a global reach. üé¨üéµ")
  ; (lit "what services do you offer",
     lit "We offer a wide range of services including content creation, music production, talent management, event production, creative direction, and digital marketing. Each service is tailored to help artists and brands stand out in today's competitive landscape. üé≠üé§")
  ; (lit "how can i collaborate",
     lit "We're always looking for talented individuals and brands to collaborate with! You can submit your idea through our " ++ dq ++ lit "Submit Idea" ++ dq ++ lit " form, or contact us directly at info@valleytainment.com to discuss potential collaborations. ü§ù")
  ; (lit "latest music releases",
     lit "Our latest release is " ++ dq ++ lit "Neon Dreams" ++ dq ++ lit " by Maya Johnson, which dropped last week. We also have upcoming releases from Neon Pulse and DJ Vertex scheduled for next month. Stay tuned to our social media for announcements! üéµüî•")
  ; (lit "merchandise",
     lit "Check out our merchandise section for the latest Valleytainment apparel and accessories. We have everything from t-shirts and hoodies to limited edition posters and collectibles. üëïüß¢")
  ; (lit "events",
     lit "We have several upcoming events including the Summer Neon Festival in July and our monthly Underground Sessions at Club Vertex. Visit our events page for tickets and more information. üéâ")
  ; (lit "contact",
     lit "You can reach us at info@valleytainment.com or call us at +1 (555) 123-4567. Our office is located at 123 Urban Avenue, Suite 456, Los Angeles, CA 90001. üìû")
  ; (lit "social media",
     lit "Follow us on Instagram, YouTube, TikTok, and Twitter @valleytainment for the latest updates, behind-the-scenes content, and exclusive announcements. üì±")
  ].

Definition localDefault : jsstring :=
  lit "I'm not sure how to respond to that. Can you try asking something about Valleytainment Productions, our services, or upcoming events? ü§î".

(** The object literal [enhancedResponses] of getEnhancedResponse. *)
Definition enhancedResponses : list (jsstring * jsstring) :=
  [ (lit "hello",
     lit "Hey there! üëã Welcome to the Valleytainment vibe! I'm ValleyBot 2.0, your digital guide to everything we've got going on. How can I help you dive into our creative universe today?")
  ; (lit "hi",
     lit "What's up! üòé Great to connect with you. I'm ValleyBot 2.0, here to help you navigate the Valleytainment world. Whether you're looking for info on our latest drops, upcoming events, or collaboration opportunities, I've got you covered!")
  ; (lit "who are you",
     lit "I'm ValleyBot 2.0, the digital brain behind Valleytainment Productions! ü§ñ‚ú® I'm here to connect you with our edgy urban universe of content creation, music production, and talent management. Think of me as your backstage pass to everything Valleytainment. What would you like to know about our creative collective?")
  ; (lit "tell me about valleytainment",
     lit "Valleytainment Productions is where creativity meets urban edge! üî• Born in 2018 from a collective of visionary artists, we've evolved into a powerhouse entertainment company specializing in cutting-edge content creation, music production, and talent management." ++ nl ++ nl ++ lit "Our signature style blends vibrant urban aesthetics with innovative digital techniques, creating content that resonates with today's culture while pushing creative boundaries. From music videos that tell compelling stories to immersive events that bring communities together, we're all about authentic expression and next-level production value." ++ nl ++ nl ++ lit "What aspect of Valleytainment would you like to explore further?")
  ; (lit "what services do you offer",
     lit "We've got a full spectrum of creative services to elevate your vision! üöÄ" ++ nl ++ nl ++ lit "‚Ä¢ Content Creation: Music videos, short films, documentaries, and digital content with our signature urban aesthetic" ++ nl ++ lit "‚Ä¢ Music Production: Full-service studio facilities with award-winning producers and engineers" ++ nl ++ lit "‚Ä¢ Talent Management: Career development for artists, producers, and creatives" ++ nl ++ lit "‚Ä¢ Event Production: From intimate showcases to major festivals with immersive experiences" ++ nl ++ lit "‚Ä¢ Creative Direction: Brand identity, visual storytelling, and campaign development" ++ nl ++ lit "‚Ä¢ Digital Marketing: Strategic promotion across platforms to maximize your reach" ++ nl ++ nl ++ lit "Each service is customized to amplify your unique voice while maintaining that distinctive Valleytainment edge. What project are you looking to bring to life?")
  ; (lit "how can i collaborate",
     lit "We're always on the lookout for fresh talent and innovative ideas to join the Valleytainment universe! üåü Here's how you can get connected:" ++ nl ++ nl ++ lit "1. Submit your concept through our " ++ dq ++ lit "Submit Idea" ++ dq ++ lit " form on the website - we review every submission" ++ nl ++ lit "2. Email your portfolio/demo to collabs@valleytainment.com with a brief intro" ++ nl ++ lit "3. Attend our monthly " ++ dq ++ lit "Open Studio" ++ dq ++ lit " sessions where you can network with our team (check the Events page for dates)" ++ nl ++ lit "4. Follow and engage with us on social media - we often discover collaborators through authentic interactions" ++ nl ++ nl ++ lit "We're particularly interested in creators who bring unique perspectives and aren't afraid to push boundaries. What kind of collaboration did you have in mind?")
  ; (lit "latest music releases",
     lit "Our studio has been on fire lately! üéµüî• Here's what's fresh from the Valleytainment sound lab:" ++ nl ++ nl ++ lit "‚Ä¢ " ++ dq ++ lit "Neon Dreams" ++ dq ++ lit " by Maya Johnson - Released last week, this EP blends neo-soul with electronic elements for a hypnotic vibe" ++ nl ++ lit "‚Ä¢ " ++ dq ++ lit "Urban Pulse" ++ dq ++ lit " compilation - A showcase of our roster's diverse talents across hip-hop, R&B, and experimental genres" ++ nl ++ lit "‚Ä¢ Coming Soon: Neon Pulse's debut album " ++ dq ++ lit "Digital Heartbeat" ++ dq ++ lit " drops next month" ++ nl ++ lit "‚Ä¢ Coming Soon: DJ Vertex's " ++ dq ++ lit "Late Night Frequencies" ++ dq ++ lit " mixtape featuring exclusive collaborations" ++ nl ++ nl ++ lit "All releases are available on major streaming platforms. The " ++ dq ++ lit "Neon Dreams" ++ dq ++ lit " vinyl limited edition is also available in our merch store. Which sound are you vibing with?")
  ; (lit "merchandise",
     lit "Our merch game is strong right now! üëïüß¢ The current collection features:" ++ nl ++ nl ++ lit "‚Ä¢ " ++ dq ++ lit "Urban Glow" ++ dq ++ lit " tees and hoodies with reflective neon prints" ++ nl ++ lit "‚Ä¢ Limited edition artist collaboration pieces with original artwork" ++ nl ++ lit "‚Ä¢ Accessories including caps, beanies, and phone cases with our signature aesthetic" ++ nl ++ lit "‚Ä¢ Collector's items like vinyl records, art prints, and exclusive box sets" ++ nl ++ nl ++ lit "Everything is produced in limited quantities with sustainable materials where possible. The online store offers worldwide shipping, or you can check out our pop-up shop at monthly events. Members of our Valley Club get early access and exclusive drops not available to the general public. Want me to send you the link to our latest collection?")
  ; (lit "events",
     lit "We've got a packed calendar of events coming up! üéâ" ++ nl ++ nl ++ lit "‚Ä¢ Summer Neon Festival (July 15-17) - Our annual three-day celebration of music, art, and culture at Riverside Park" ++ nl ++ lit "‚Ä¢ Underground Sessions (Last Friday monthly) - Intimate showcases at Club Vertex featuring emerging artists" ++ nl ++ lit "‚Ä¢ Producer Workshop Series (Every second Saturday) - Hands-on production masterclasses with our in-house team" ++ nl ++ lit "‚Ä¢ " ++ dq ++ lit "Visual Beats" ++ dq ++ lit " Exhibition (August 5-20) - A multimedia installation exploring the intersection of music and visual art" ++ nl ++ nl ++ lit "Tickets for all events are available on our website, with early bird pricing ending two weeks before each event. The Underground Sessions tend to sell out quickly, so I'd recommend grabbing those tickets early! Which event catches your interest?")
  ; (lit "contact",
     lit "Ready to connect with the Valleytainment team? Here's how to reach us:" ++ nl ++ nl ++ lit "üìß General Inquiries: info@valleytainment.com" ++ nl ++ lit "üìß Collaboration Requests: collabs@valleytainment.com" ++ nl ++ lit "üìß Press & Media: press@valleytainment.com" ++ nl ++ lit "üìû Office: +1 (555) 123-4567" ++ nl ++ lit "üìç Studio & Office: 123 Urban Avenue, Suite 456, Los Angeles, CA 90001" ++ nl ++ nl ++ lit "Our office hours are Monday-Friday, 10am-6pm PT. The best way to get a quick response is via email, but feel free to call for urgent matters. If you're looking to visit the studio, appointments are required and can be scheduled through our website. Anything specific you'd like to reach out about?")
  ; (lit "social media",
     lit "Stay connected with all things Valleytainment across our social platforms! üì±‚ú®" ++ nl ++ nl ++ lit "‚Ä¢ Instagram (@valleytainment): Daily content, behind-the-scenes, and artist spotlights" ++ nl ++ lit "‚Ä¢ YouTube (Valleytainment Official): Music videos, interviews, and studio sessions" ++ nl ++ lit "‚Ä¢ TikTok (@valleytainment): Trending challenges, quick tips, and viral moments" ++ nl ++ lit "‚Ä¢ Twitter (@valleytainment): Real-time updates, announcements, and community engagement" ++ nl ++ lit "‚Ä¢ Discord (Valleytainment Community): Our most active platform for direct interaction with the team" ++ nl ++ nl ++ lit "We post exclusive content on each platform, so it's worth following us everywhere! Our Discord server hosts weekly AMAs with team members and artists. Which platform do you prefer to connect on?")
  ].

Definition pricingKeywords : list jsstring :=
  [ lit "price"; lit "cost"; lit "how much" ].

Definition pricingResponse : jsstring :=
  lit "Our pricing varies based on project scope and requirements. For content creation, we offer packages starting at $2,500 for basic video production, while full-scale music production typically ranges from $5,000-15,000 depending on complexity. For detailed pricing on specific services, I'd recommend reaching out to our team at info@valleytainment.com with your project details so we can provide an accurate quote tailored to your needs. üí∞".

Definition locationKeywords : list jsstring :=
  [ lit "location"; lit "where are you"; lit "where is" ].

Definition locationResponse : jsstring :=
  lit "Valleytainment Productions is headquartered in Los Angeles, California. Our main studio and office space is located at 123 Urban Avenue in downtown LA, with satellite locations in Atlanta and New York. We work with clients and collaborators worldwide, with much of our team able to work remotely when needed. Are you looking to visit one of our locations? üåé".

Definition teamKeywords : list jsstring :=
  [ lit "team"; lit "staff"; lit "who works" ].

Definition teamResponse : jsstring :=
  lit "The Valleytainment team is a diverse collective of creative professionals! üåü Our core team includes:" ++ nl ++ nl ++ lit "‚Ä¢ Alex Rivera - Founder & Creative Director" ++ nl ++ lit "‚Ä¢ Maya Johnson - Head of Music Production" ++ nl ++ lit "‚Ä¢ Jamal Williams - Director of Visual Content" ++ nl ++ lit "‚Ä¢ Sophia Chen - Talent Manager" ++ nl ++ lit "‚Ä¢ Marcus Lee - Events Coordinator" ++ nl ++ lit "‚Ä¢ Taylor Kim - Digital Marketing Strategist" ++ nl ++ nl ++ lit "We also work with a network of freelance specialists including videographers, photographers, sound engineers, graphic designers, and more. Each team member brings their unique perspective and expertise to create our signature Valleytainment style. Is there a particular department you'd like to know more about?".

Definition historyKeywords : list jsstring :=
  [ lit "history"; lit "started"; lit "founded" ].

Definition historyResponse : jsstring :=
  lit "Valleytainment's story began in 2018 when founder Alex Rivera, then a music video director, joined forces with producer Maya Johnson to create content that truly represented urban culture with authenticity and artistic vision. üöÄ" ++ nl ++ nl ++ lit "What started as a two-person operation in a converted garage studio quickly gained attention for its distinctive visual style and sound. By 2020, they had expanded to a full team and moved into our current studio space in downtown LA." ++ nl ++ nl ++ lit "Key milestones include our breakthrough project with indie artist Neon Pulse in 2021, launching our talent management division in 2022, and our first Summer Neon Festival in 2023, which has now become our signature annual event. Throughout our growth, we've maintained our commitment to pushing creative boundaries while amplifying diverse voices in entertainment.".

Definition enhancedDefault : jsstring :=
  lit "Thanks for reaching out to Valleytainment Productions! üåü I'm not quite sure what you're asking about, but I'd be happy to tell you about our creative services, upcoming events, artist collaborations, or merchandise. You can also check out our portfolio of work or learn how to submit your ideas for potential collaboration. What aspect of Valleytainment are you most interested in exploring?".

Section Widget.

(** Built-ins taken as parameters: the Unicode lower-casing and
    JSON.stringify / JSON.parse at the type of the history, the latter
    throwing SyntaxError on text that is not JSON. *)
Variable toLowerCase : jsstring -> jsstring.
Variable JSON_stringify : list ChatMessage -> jsstring.
Variable JSON_parse : jsstring -> completion (list ChatMessage).

(** [for (const [key, value] of Object.entries(table))
       if (lowerMessage.includes(key)) return value;] *)
Fixpoint scanEntries (lowerMessage : jsstring) (entries : list (jsstring * jsstring))
  : option jsstring :=
  match entries with
  | [] => None
  | (key, value) :: rest =>
    if includes lowerMessage key then Some value
    else scanEntries lowerMessage rest
  end.

Definition getLocalResponse (message : jsstring) : jsstring :=
  let lowerMessage := toLowerCase message in
  match scanEntries lowerMessage responses with
  | Some value => value
  | None => localDefault
  end.

Definition getEnhancedResponse (message : jsstring) : jsstring :=
  let lowerMessage := toLowerCase message in
  match scanEntries lowerMessage enhancedResponses with
  | Some value => value
  | None =>
    if includes lowerMessage (lit "price") || includes lowerMessage (lit "cost")
       || includes lowerMessage (lit "how much")
    then pricingResponse
    else if includes lowerMessage (lit "location")
            || includes lowerMessage (lit "where are you")
            || includes lowerMessage (lit "where is")
    then locationResponse
    else if includes lowerMessage (lit "team") || includes lowerMessage (lit "staff")
            || includes lowerMessage (lit "who works")
    then teamResponse
    else if includes lowerMessage (lit "history") || includes lowerMessage (lit "started")
            || includes lowerMessage (lit "founded")
    then historyResponse
    else enhancedDefault
  end.

(** The loop of fetchAIResponse over the sorted endpoints: each
    iteration waits, then returns the simulated response from inside
    its [try]; the [catch] moves on to the next endpoint. *)
Fixpoint tryEndpoints (message : jsstring) (sorted : list Endpoint)
  : completion jsstring :=
  match sorted with
  | [] => Throw (Error (lit "All API endpoints failed"))
  | endpoint :: rest =>
    try_catch (Normal (getEnhancedResponse message))
              (fun error => tryEndpoints message rest)
  end.

Definition fetchAIResponse (cfg : Config) (message : jsstring) : completion jsstring :=
  tryEndpoints message (sort_by priority (endpoints cfg)).

Definition saveChatHistory (cfg : Config) (bot : ValleyBot) : ValleyBot :=
  let history :=
    if decide (maxHistoryItems cfg < length (chatHistory bot))
    then slice_from_end (maxHistoryItems cfg) (chatHistory bot)
    else chatHistory bot in
  {| chatHistory := history;
     chatMessages := chatMessages bot;
     typingIndicators := typingIndicators bot;
     localStorage := <[historyKey := JSON_stringify history]> (localStorage bot) |}.

Definition loadChatHistory (bot : ValleyBot) : completion ValleyBot :=
  match localStorage bot !! historyKey with
  | Some savedHistory =>
    if truthy savedHistory then
      try_catch
        (parsed ← JSON_parse savedHistory;
         Normal {| chatHistory := parsed;
                   chatMessages := chatMessages bot;
                   typingIndicators := typingIndicators bot;
                   localStorage := localStorage bot |})
        (fun error =>
         Normal {| chatHistory := [];
                   chatMessages := chatMessages bot;
                   typingIndicators := typingIndicators bot;
                   localStorage := localStorage bot |})
    else Normal bot
  | None => Normal bot
  end.

(** The constructor, on a page whose localStorage is [storage]. *)
Definition initialState (storage : gmap jsstring jsstring) : ValleyBot :=
  {| chatHistory := [];
     chatMessages := [];
     typingIndicators := 0;
     localStorage := storage |}.

Definition new_ValleyBot (storage : gmap jsstring jsstring) : completion ValleyBot :=
  loadChatHistory (initialState storage).

(** processMessageText, as far as it completes. With emojis enabled
    its loop over emojiMap starts with [new RegExp(':)', 'g')], which
    throws a SyntaxError whatever the text is. The text it returns
    otherwise is not modelled: a chat element is modelled by the
    messages rendered in it. *)
Definition processMessageText (cfg : Config) (text : jsstring) : completion unit :=
  if emoji cfg then Throw SyntaxError else Normal tt.

(** addMessageToChat: nothing without the main chat element; otherwise
    addMessageToElement, which processes the text before it touches the
    element. *)
Definition addMessageToChat (cfg : Config) (page : Page) (sender : Role)
  (message : jsstring) (bot : ValleyBot) : completion ValleyBot :=
  if negb (mainChat page) then Normal bot
  else
    match processMessageText cfg message with
    | Normal _ =>
      Normal {| chatHistory := chatHistory bot;
                chatMessages := chatMessages bot ++ [ (sender, message) ];
                typingIndicators := typingIndicators bot;
                localStorage := localStorage bot |}
    | Throw error => Throw error
    end.

(** The copy of the message for the popup, when the popup holds a chat
    element; what the popup shows is left out. *)
Definition addMessageToPopup (cfg : Config) (page : Page) (message : jsstring)
  : completion unit :=
  if popupChat page then processMessageText cfg message else Normal tt.

(** What addUserMessage and addBotMessage end with: the message is
    pushed on the history, and the history is saved. *)
Definition storeMessage (cfg : Config) (sender : Role) (message : jsstring) (now : N)
  (bot : ValleyBot) : ValleyBot :=
  saveChatHistory cfg
    {| chatHistory :=
         chatHistory bot ++ [ {| role := sender; content := message; timestamp := now |} ];
       chatMessages := chatMessages bot;
       typingIndicators := typingIndicators bot;
       localStorage := localStorage bot |}.

(** addUserMessage and addBotMessage: the message is rendered in the
    main chat element and in the popup, then stored. A throw comes from
    processMessageText, before anything was written: the widget is
    then as it was before the call. The suggestion chips that
    addBotMessage updates are left out. *)
Definition addUserMessage (cfg : Config) (page : Page) (now : N) (message : jsstring)
  (bot : ValleyBot) : completion ValleyBot :=
  match addMessageToChat cfg page user message bot with
  | Normal bot =>
    match addMessageToPopup cfg page message with
    | Normal _ => Normal (storeMessage cfg user message now bot)
    | Throw error => Throw error
    end
  | Throw error => Throw error
  end.

Definition addBotMessage (cfg : Config) (page : Page) (now : N) (message : jsstring)
  (bot : ValleyBot) : completion ValleyBot :=
  match addMessageToChat cfg page assistant message bot with
  | Normal bot =>
    match addMessageToPopup cfg page message with
    | Normal _ => Normal (storeMessage cfg assistant message now bot)
    | Throw error => Throw error
    end
  | Throw error => Throw error
  end.

(** showTypingIndicator appends the indicator to the main chat element
    when there is one; hideTypingIndicator removes the element of that
    id from the document when there is one. *)
Definition showTypingIndicator (page : Page) (bot : ValleyBot) : ValleyBot :=
  {| chatHistory := chatHistory bot;
     chatMessages := chatMessages bot;
     typingIndicators :=
       if mainChat page then S (typingIndicators bot) else typingIndicators bot;
     localStorage := localStorage bot |}.

Definition hideTypingIndicator (bot : ValleyBot) : ValleyBot :=
  {| chatHistory := chatHistory bot;
     chatMessages := chatMessages bot;
     typingIndicators := pred (typingIndicators bot);
     localStorage := localStorage bot |}.

(** getBotResponse is [async]: it shows the typing indicator and
    suspends on [await this.fetchAIResponse(message)]. *)
Definition getBotResponse_begin (page : Page) (bot : ValleyBot) : ValleyBot :=
  showTypingIndicator page bot.

(** The block of getBotResponse that ran last. *)
Inductive Block : Type := TryBlock | CatchBlock.

(** How a call of getBotResponse ends: the widget afterwards, the
    block that ran last, what getLocalResponse returned if it was
    called, and whether the promise is fulfilled or rejected. *)
Record Outcome : Type := {
  after : ValleyBot;
  block : Block;
  fallbackResponse : option jsstring;
  settled : completion unit
}.

(** The [catch] block, entered with the widget as the [try] block left
    it. A throw of its own addBotMessage rejects the promise. *)
Definition catchBlock (cfg : Config) (page : Page) (now : N) (message : jsstring)
  (bot : ValleyBot) : Outcome :=
  let bot := hideTypingIndicator bot in
  let called := if useLocalFallback cfg then Some (getLocalResponse message) else None in
  let reply :=
    match called with
    | Some fallbackResponse => fallbackResponse
    | None => lit "Sorry, I'm having trouble connecting right now. Please try again later."
    end in
  match addBotMessage cfg page now reply bot with
  | Normal bot' =>
    {| after := bot'; block := CatchBlock; fallbackResponse := called;
       settled := Normal tt |}
  | Throw error =>
    {| after := bot; block := CatchBlock; fallbackResponse := called;
       settled := Throw error |}
  end.

(** The rest of getBotResponse, run when the awaited promise settles.
    Both the awaited call and addBotMessage are inside the [try]. *)
Definition getBotResponse_resume (cfg : Config) (page : Page) (now : N)
  (message : jsstring) (bot : ValleyBot) : Outcome :=
  match fetchAIResponse cfg message with
  | Normal response =>
    let bot := hideTypingIndicator bot in
    match addBotMessage cfg page now response bot with
    | Normal bot' =>
      {| after := bot'; block := TryBlock; fallbackResponse := None;
         settled := Normal tt |}
    | Throw error => catchBlock cfg page now message bot
    end
  | Throw error => catchBlock cfg page now message bot
  end.

(** *** The reply as the specification words it

    A fixed ordered table of (substring, response) pairs, scanned for
    the first pair whose substring the lower-cased input contains. *)

Definition firstMatch (table : list (jsstring * jsstring)) (default lowerMessage : jsstring)
  : jsstring :=
  match List.find (fun entry => includes lowerMessage (fst entry)) table with
  | Some entry => snd entry
  | None => default
  end.

(** The pairs getEnhancedResponse goes through, in its order: the
    entries of [enhancedResponses], then the keywords of the four later
    tests, each with the response of its test. *)
Definition enhancedTable : list (jsstring * jsstring) :=
  enhancedResponses ++
  [ (lit "price", pricingResponse); (lit "cost", pricingResponse);
    (lit "how much", pricingResponse);
    (lit "location", locationResponse); (lit "where are you", locationResponse);
    (lit "where is", locationResponse);
    (lit "team", teamResponse); (lit "staff", teamResponse);
    (lit "who works", teamResponse);
    (lit "history", historyResponse); (lit "started", historyResponse);
    (lit "founded", historyResponse) ].

(** *** Sequences of insertions into the chat history

    An insertion that completes, as far as the history goes: the push
    and the save that addUserMessage and addBotMessage end with. *)

Definition insertMessage (cfg : Config) (bot : ValleyBot) (m : ChatMessage) : ValleyBot :=
  storeMessage cfg (role m) (content m) (timestamp m) bot.

Definition insertMessages (cfg : Config) (bot : ValleyBot) (ms : list ChatMessage)
  : ValleyBot :=
  foldl (insertMessage cfg) bot ms.

End Widget.

End Chatbot.

(** ** The image generator widget (class ValleyImageGenerator) *)

Module ImageGenerator.
Import JS.

Record EndpointParams : Type := {
  params_width : N;
  params_height : N;
  nologo : bool
}.

Record Endpoint : Type := {
  name : jsstring;
  url : jsstring;
  priority : N;
  params : option EndpointParams
}.

Record Style : Type := {
  id : jsstring;
  promptModifier : jsstring
}.

(** The fields of IMAGE_GENERATOR_CONFIG that the modelled methods read. *)
Record Config : Type := {
  defaultWidth : N;
  defaultHeight : N;
  maxPromptLength : nat;
  defaultStyle : jsstring;
  defaultNegativePrompt : jsstring;
  promptPrefix : jsstring;
  maxHistoryItems : nat;
  showLoadingAnimation : bool;
  errorText : jsstring;
  useLocalFallback : bool;
  endpoints : list Endpoint;
  styles : list Style;
  analytics_enabled : bool;
  trackPrompts : bool;
  trackStyles : bool;
  storageKey : jsstring
}.

Definition IMAGE_GENERATOR_CONFIG : Config := {|
  defaultWidth := 512;
  defaultHeight := 512;
  maxPromptLength := 1000;
  defaultStyle := lit "neon-urban";
  defaultNegativePrompt :=
    lit "blurry, low quality, distorted, deformed, ugly, bad anatomy";
  promptPrefix := lit "Valleytainment style, high quality, detailed";
  maxHistoryItems := 10;
  showLoadingAnimation := true;
  errorText := lit "Unable to generate image. Please try again.";
  useLocalFallback := true;
  endpoints :=
    [ {| name := lit "pollinations";
         url := lit "https://image.pollinations.ai/prompt/";
         priority := 1;
         params := Some {| params_width := 512; params_height := 512; nologo := true |} |}
    ; {| name := lit "stability";
         url := lit "https://api.stability.ai/v1/generation/stable-diffusion-xl-1024-v1-0/text-to-image";
         priority := 2;
         params := None |}
    ; {| name := lit "huggingface";
         url := lit "https://api-inference.huggingface.co/models/stabilityai/stable-diffusion-xl-base-1.0";
         priority := 3;
         params := None |} ];
  styles :=
    [ {| id := lit "neon-urban";
         promptModifier := lit "neon lights, urban aesthetic, vibrant colors, city nightlife, cyberpunk influence" |}
    ; {| id := lit "retro-wave";
         promptModifier := lit "retrowave, synthwave, 80s aesthetic, purple and blue gradient, grid patterns, sunset" |}
    ; {| id := lit "graffiti";
         promptModifier := lit "graffiti art, street art, spray paint, urban walls, bold colors, tags and murals" |}
    ; {| id := lit "glitch";
         promptModifier := lit "digital glitch, distortion, vaporwave, data moshing, RGB split, corrupted data aesthetic" |}
    ; {| id := lit "minimalist";
         promptModifier := lit "minimalist design, clean lines, limited color palette, negative space, bold typography" |}
    ; {| id := lit "abstract";
         promptModifier := lit "abstract art, geometric shapes, non-representational, bold colors, dynamic composition" |}
    ; {| id := lit "photorealistic";
         promptModifier := lit "photorealistic, highly detailed, professional photography, 8k, sharp focus, realistic lighting" |}
    ; {| id := lit "anime";
         promptModifier := lit "anime style, manga illustration, cel shaded, vibrant colors, expressive characters" |}
    ; {| id := lit "3d-render";
         promptModifier := lit "3D render, octane render, blender, cinema 4D, volumetric lighting, ray tracing, subsurface scattering" |}
    ; {| id := lit "pop-art";
         promptModifier := lit "pop art, Roy Lichtenstein, Andy Warhol, bold colors, comic book style, halftone dots, ben-day dots" |} ];
  analytics_enabled := true;
  trackPrompts := true;
  trackStyles := true;
  storageKey := lit "valleytainment_image_generator_analytics"
|}.

Definition historyKey : jsstring := lit "valleytainment_image_history".

(** An item of [generationHistory]; [timestamp] as in the chat widget. *)
Record HistoryItem : Type := {
  prompt : jsstring;
  imageUrl : jsstring;
  style : jsstring;
  timestamp : N
}.

Record Analytics : Type := {
  totalGenerations : N;
  popularPrompts : gmap jsstring Count;
  popularStyles : gmap jsstring Count;
  sessionStartTime : N;
  lastGenerationTime : option N
}.

Record Dimensions : Type := {
  width : N;
  height : N
}.

(** The form controls generateImage reads; [None] is a missing element. *)
Record Inputs : Type := {
  promptInput : option jsstring;
  negativePromptInput : option jsstring;
  widthInput : option jsstring;
  heightInput : option jsstring
}.

(** #generated-image: its [src] and [alt]. *)
Record Image : Type := {
  src : jsstring;
  alt : jsstring
}.

(** #image-error-message: its [style.display] and [textContent]. *)
Record ErrorElement : Type := {
  error_display : jsstring;
  textContent : jsstring
}.

(** The widget and the part of the page it writes: the elements (absent
    when [None]; for the loading indicator and the save button the value
    is [style.display]), the delays of the pending timeouts that hide
    the error message, and localStorage. *)
Record ValleyImageGenerator : Type := {
  isGenerating : bool;
  selectedStyle : jsstring;
  generationHistory : list HistoryItem;
  analytics : Analytics;
  imageOutput : option Image;
  loadingIndicator : option jsstring;
  errorMessage : option ErrorElement;
  saveImageButton : option jsstring;
  errorTimers : list N;
  localStorage : gmap jsstring jsstring
}.

Definition set_isGenerating (b : bool) (g : ValleyImageGenerator) : ValleyImageGenerator :=
  {| isGenerating := b; selectedStyle := selectedStyle g;
     generationHistory := generationHistory g; analytics := analytics g;
     imageOutput := imageOutput g; loadingIndicator := loadingIndicator g;
     errorMessage := errorMessage g; saveImageButton := saveImageButton g;
     errorTimers := errorTimers g; localStorage := localStorage g |}.

Definition set_generationHistory (h : list HistoryItem) (g : ValleyImageGenerator)
  : ValleyImageGenerator :=
  {| isGenerating := isGenerating g; selectedStyle := selectedStyle g;
     generationHistory := h; analytics := analytics g;
     imageOutput := imageOutput g; loadingIndicator := loadingIndicator g;
     errorMessage := errorMessage g; saveImageButton := saveImageButton g;
     errorTimers := errorTimers g; localStorage := localStorage g |}.

Definition set_analytics (a : Analytics) (g : ValleyImageGenerator) : ValleyImageGenerator :=
  {| isGenerating := isGenerating g; selectedStyle := selectedStyle g;
     generationHistory := generationHistory g; analytics := a;
     imageOutput := imageOutput g; loadingIndicator := loadingIndicator g;
     errorMessage := errorMessage g; saveImageButton := saveImageButton g;
     errorTimers := errorTimers g; localStorage := localStorage g |}.

Definition set_imageOutput (i : option Image) (g : ValleyImageGenerator)
  : ValleyImageGenerator :=
  {| isGenerating := isGenerating g; selectedStyle := selectedStyle g;
     generationHistory := generationHistory g; analytics := analytics g;
     imageOutput := i; loadingIndicator := loadingIndicator g;
     errorMessage := errorMessage g; saveImageButton := saveImageButton g;
     errorTimers := errorTimers g; localStorage := localStorage g |}.

Definition set_loadingIndicator (d : option jsstring) (g : ValleyImageGenerator)
  : ValleyImageGenerator :=
  {| isGenerating := isGenerating g; selectedStyle := selectedStyle g;
     generationHistory := generationHistory g; analytics := analytics g;
     imageOutput := imageOutput g; loadingIndicator := d;
     errorMessage := errorMessage g; saveImageButton := saveImageButton g;
     errorTimers := errorTimers g; localStorage := localStorage g |}.

Definition set_errorMessage (e : option ErrorElement) (g : ValleyImageGenerator)
  : ValleyImageGenerator :=
  {| isGenerating := isGenerating g; selectedStyle := selectedStyle g;
     generationHistory := generationHistory g; analytics := analytics g;
     imageOutput := imageOutput g; loadingIndicator := loadingIndicator g;
     errorMessage := e; saveImageButton := saveImageButton g;
     errorTimers := errorTimers g; localStorage := localStorage g |}.

Definition set_saveImageButton (d : option jsstring) (g : ValleyImageGenerator)
  : ValleyImageGenerator :=
  {| isGenerating := isGenerating g; selectedStyle := selectedStyle g;
     generationHistory := generationHistory g; analytics := analytics g;
     imageOutput := imageOutput g; loadingIndicator := loadingIndicator g;
     errorMessage := errorMessage g; saveImageButton := d;
     errorTimers := errorTimers g; localStorage := localStorage g |}.

Definition set_errorTimers (t : list N) (g : ValleyImageGenerator) : ValleyImageGenerator :=
  {| isGenerating := isGenerating g; selectedStyle := selectedStyle g;
     generationHistory := generationHistory g; analytics := analytics g;
     imageOutput := imageOutput g; loadingIndicator := loadingIndicator g;
     errorMessage := errorMessage g; saveImageButton := saveImageButton g;
     errorTimers := t; localStorage := localStorage g |}.

Definition set_localStorage (s : gmap jsstring jsstring) (g : ValleyImageGenerator)
  : ValleyImageGenerator :=
  {| isGenerating := isGenerating g; selectedStyle := selectedStyle g;
     generationHistory := generationHistory g; analytics := analytics g;
     imageOutput := imageOutput g; loadingIndicator := loadingIndicator g;
     errorMessage := errorMessage g; saveImageButton := saveImageButton g;
     errorTimers := errorTimers g; localStorage := s |}.

Section Widget.

(** Built-ins and browser services taken as parameters: the Unicode
    lower-casing; the string a template literal prints for a number
    (the numbers here are non-negative integers); [parseInt] ([None] is
    NaN); whether
    [ctx.measureText(line).width] is above a maximum; the data URL of
    the canvas on which the placeholder was drawn with given lines; and
    JSON.stringify / JSON.parse at the types stored. *)
Variable toLowerCase : jsstring -> jsstring.
Variable Number_toString : N -> jsstring.
Variable parseInt : jsstring -> option Z.
Variable exceeds : jsstring -> Z -> bool.
Variable toDataURL : Dimensions -> list jsstring -> jsstring.
Variable JSON_stringify_history : list HistoryItem -> jsstring.
Variable JSON_parse_history : jsstring -> completion (list HistoryItem).
Variable JSON_stringify_analytics : Analytics -> jsstring.
Variable JSON_parse_analytics : jsstring -> completion Analytics.

(** showLoading; the text inside the indicator is left out. *)
Definition showLoading (cfg : Config) (g : ValleyImageGenerator) : ValleyImageGenerator :=
  match loadingIndicator g with
  | None => g
  | Some _ =>
    if negb (showLoadingAnimation cfg) then g
    else
      let g := set_loadingIndicator (Some (lit "flex")) g in
      match errorMessage g with
      | Some e =>
        set_errorMessage
          (Some {| error_display := lit "none"; textContent := textContent e |}) g
      | None => g
      end
  end.

Definition hideLoading (g : ValleyImageGenerator) : ValleyImageGenerator :=
  match loadingIndicator g with
  | None => g
  | Some _ => set_loadingIndicator (Some (lit "none")) g
  end.

Definition showError (cfg : Config) (message : jsstring) (g : ValleyImageGenerator)
  : ValleyImageGenerator :=
  match errorMessage g with
  | None => g
  | Some _ =>
    set_errorTimers (errorTimers g ++ [5000%N])
      (set_errorMessage
         (Some {| error_display := lit "block";
                  textContent := if truthy message then message else errorText cfg |})
         g)
  end.

Definition enhancePrompt (cfg : Config) (g : ValleyImageGenerator) (prompt : jsstring)
  : jsstring :=
  let selectedStyleObj :=
    find (fun style => bool_decide (id style = selectedStyle g)) (styles cfg) in
  let enhancedPrompt :=
    match selectedStyleObj with
    | Some style =>
      if truthy (promptModifier style)
      then prompt ++ lit ", " ++ promptModifier style
      else prompt
    | None => prompt
    end in
  if truthy (promptPrefix cfg)
  then promptPrefix cfg ++ lit ", " ++ enhancedPrompt
  else enhancedPrompt.

Definition getNegativePrompt (cfg : Config) (inp : Inputs) : jsstring :=
  match negativePromptInput inp with
  | Some value => if truthy (trim value) then trim value else defaultNegativePrompt cfg
  | None => defaultNegativePrompt cfg
  end.

Definition dimensionOf (input : option jsstring) (default : N) : N :=
  match input with
  | Some value =>
    if truthy value then
      match parseInt value with
      | Some parsed => if (0 <? parsed)%Z then Z.to_N parsed else default
      | None => default
      end
    else default
  | None => default
  end.

Definition getImageDimensions (cfg : Config) (inp : Inputs) : Dimensions :=
  {| width := dimensionOf (widthInput inp) (defaultWidth cfg);
     height := dimensionOf (heightInput inp) (defaultHeight cfg) |}.

(** [prompt.split(' ')] *)
Fixpoint split_on (sep : N) (s : jsstring) : list jsstring :=
  match s with
  | [] => [ [] ]
  | c :: s' =>
    if (c =? sep)%N then [] :: split_on sep s'
    else
      match split_on sep s' with
      | w :: ws => (c :: w) :: ws
      | [] => [ [c] ]
      end
  end.

(** The word-wrapping loop of generateLocalImage, at index [i], followed
    by the final [lines.push(line)]. *)
Fixpoint wrapWords (maxWidth : Z) (i : nat) (line : jsstring) (lines : list jsstring)
  (words : list jsstring) : list jsstring :=
  match words with
  | [] => lines ++ [line]
  | word :: rest =>
    let testLine := line ++ word ++ lit " " in
    if exceeds testLine maxWidth && bool_decide (0 < i)
    then wrapWords maxWidth (S i) (word ++ lit " ") (lines ++ [line]) rest
    else wrapWords maxWidth (S i) testLine lines rest
  end.

(** generateLocalImage: the promise it returns resolves, after a delay,
    to the data URL of the placeholder. *)
Definition generateLocalImage (prompt : jsstring) (dimensions : Dimensions) : jsstring :=
  let maxWidth := (Z.of_N (width dimensions) - 40)%Z in
  let lines := wrapWords maxWidth 0 [] [] (split_on 32 prompt) in
  let lines :=
    if decide (5 < length lines) then slice_to 4 lines ++ [lit "..."] else lines in
  toDataURL dimensions lines.

(** The branch of fetchGeneratedImage for the endpoint named pollinations. *)
Definition pollinationsUrl (endpoint : Endpoint) (prompt : jsstring)
  (dimensions : Dimensions) (now : N) : completion jsstring :=
  encodedPrompt ← encodeURIComponent prompt;
  let url := url endpoint ++ encodedPrompt in
  let url :=
    if negb (width dimensions =? 0)%N && negb (height dimensions =? 0)%N
    then url ++ lit "?width=" ++ Number_toString (width dimensions)
             ++ lit "&height=" ++ Number_toString (height dimensions)
    else url in
  let url :=
    match params endpoint with
    | Some p =>
      if nologo p
      then url ++ (if includes url (lit "?") then lit "&nologo=true" else lit "?nologo=true")
      else url
    | None => url
    end in
  let url :=
    url ++ (if includes url (lit "?")
            then lit "&t=" ++ Number_toString now
            else lit "?t=" ++ Number_toString now) in
  Normal url.

(** One iteration of the loop of fetchGeneratedImage, inside its [try]:
    [Some] is a [return], [None] falls out of the body. *)
Definition tryEndpoint (cfg : Config) (endpoint : Endpoint) (prompt : jsstring)
  (dimensions : Dimensions) (now : N) : completion (option jsstring) :=
  if bool_decide (name endpoint = lit "pollinations") then
    url ← pollinationsUrl endpoint prompt dimensions now; Normal (Some url)
  else if bool_decide (name endpoint = lit "local") && useLocalFallback cfg then
    Normal (Some (generateLocalImage prompt dimensions))
  else Normal None.

Fixpoint tryEndpoints (cfg : Config) (prompt : jsstring) (dimensions : Dimensions)
  (now : N) (sorted : list Endpoint) : completion jsstring :=
  match sorted with
  | [] => Throw (Error (lit "All image generation endpoints failed"))
  | endpoint :: rest =>
    match tryEndpoint cfg endpoint prompt dimensions now with
    | Normal (Some url) => Normal url
    | Normal None => tryEndpoints cfg prompt dimensions now rest
    | Throw error => tryEndpoints cfg prompt dimensions now rest
    end
  end.

(** fetchGeneratedImage: how the promise it returns settles. The
    negative prompt is accepted and not used. *)
Definition fetchGeneratedImage (cfg : Config) (prompt negativePrompt : jsstring)
  (dimensions : Dimensions) (now : N) : completion jsstring :=
  tryEndpoints cfg prompt dimensions now (sort_by priority (endpoints cfg)).

Definition saveGenerationHistory (g : ValleyImageGenerator) : ValleyImageGenerator :=
  set_localStorage
    (<[historyKey := JSON_stringify_history (generationHistory g)]> (localStorage g)) g.

(** addToHistory; the re-rendering of the history panel is left out. *)
Definition addToHistory (cfg : Config) (now : N) (prompt imageUrl : jsstring)
  (g : ValleyImageGenerator) : ValleyImageGenerator :=
  let historyItem :=
    {| prompt := prompt; imageUrl := imageUrl;
       style := selectedStyle g; timestamp := now |} in
  (* unshift *)
  let history := historyItem :: generationHistory g in
  let history :=
    if decide (maxHistoryItems cfg < length history)
    then slice_to (maxHistoryItems cfg) history
    else history in
  saveGenerationHistory (set_generationHistory history g).

Definition loadGenerationHistory (g : ValleyImageGenerator)
  : completion ValleyImageGenerator :=
  match localStorage g !! historyKey with
  | Some savedHistory =>
    if truthy savedHistory then
      try_catch
        (parsed ← JSON_parse_history savedHistory;
         Normal (set_generationHistory parsed g))
        (fun error => Normal (set_generationHistory [] g))
    else Normal (set_generationHistory [] g)
  | None => Normal (set_generationHistory [] g)
  end.

Definition saveAnalytics (cfg : Config) (g : ValleyImageGenerator) : ValleyImageGenerator :=
  if negb (analytics_enabled cfg) then g
  else
    set_localStorage
      (<[storageKey cfg := JSON_stringify_analytics (analytics g)]> (localStorage g)) g.

Definition loadAnalytics (cfg : Config) (now : N) (g : ValleyImageGenerator)
  : completion ValleyImageGenerator :=
  if negb (analytics_enabled cfg) then Normal g
  else
    match localStorage g !! storageKey cfg with
    | Some savedAnalytics =>
      if truthy savedAnalytics then
        try_catch
          (parsed ← JSON_parse_analytics savedAnalytics;
           Normal (set_analytics
                     {| totalGenerations := totalGenerations parsed;
                        popularPrompts := popularPrompts parsed;
                        popularStyles := popularStyles parsed;
                        sessionStartTime := now;
                        lastGenerationTime := lastGenerationTime parsed |} g))
          (fun error => Normal g)
      else Normal g
    | None => Normal g
    end.

Definition trackGeneration (cfg : Config) (now : N) (prompt : jsstring)
  (g : ValleyImageGenerator) : ValleyImageGenerator :=
  let a := analytics g in
  let tracked :=
    {| totalGenerations := (totalGenerations a + 1)%N;
       popularPrompts :=
         if trackPrompts cfg
         then countUp (trim (toLowerCase prompt)) (popularPrompts a)
         else popularPrompts a;
       popularStyles :=
         if trackStyles cfg
         then countUp (selectedStyle g) (popularStyles a)
         else popularStyles a;
       sessionStartTime := sessionStartTime a;
       lastGenerationTime := Some now |} in
  saveAnalytics cfg (set_analytics tracked g).

(** The constructor, on a page whose localStorage is [storage]; the
    elements are looked up later, by [init]. *)
Definition initialState (cfg : Config) (now : N) (storage : gmap jsstring jsstring)
  : ValleyImageGenerator :=
  {| isGenerating := false;
     selectedStyle := defaultStyle cfg;
     generationHistory := [];
     analytics := {| totalGenerations := 0; popularPrompts := ∅;
                     popularStyles := ∅; sessionStartTime := now;
                     lastGenerationTime := None |};
     imageOutput := None; loadingIndicator := None;
     errorMessage := None; saveImageButton := None;
     errorTimers := []; localStorage := storage |}.

Definition new_ValleyImageGenerator (cfg : Config) (now : N)
  (storage : gmap jsstring jsstring) : completion ValleyImageGenerator :=
  g ← loadGenerationHistory (initialState cfg now storage);
  if analytics_enabled cfg then loadAnalytics cfg now g else Normal g.

(** initializeUI, run by [init] on a page that has every element of the
    widget: the placeholder image is shown and the loading indicator,
    the error message and the save button are hidden. *)
Definition initializeUI (g : ValleyImageGenerator) : ValleyImageGenerator :=
  set_saveImageButton (Some (lit "none"))
    (set_errorMessage (Some {| error_display := lit "none"; textContent := [] |})
       (set_loadingIndicator (Some (lit "none"))
          (set_imageOutput
             (Some {| src := lit "images/image-placeholder.jpg";
                      alt := lit "Generate an image by entering a prompt" |})
             g))).

(** generateImage is [async]. A call either returns before its [try]
    block, or sets the flag, starts a generation and suspends on
    [await this.fetchGeneratedImage(...)], holding the prompt and the
    way the awaited promise settles. *)
Inductive Started : Type :=
  | Returned
  | Awaiting (prompt : jsstring) (settled : completion jsstring).

(** [this.promptInput ? this.promptInput.value.trim() : ''] *)
Definition readPrompt (inp : Inputs) : jsstring :=
  match promptInput inp with
  | Some value => trim value
  | None => []
  end.

Definition generateImage_begin (cfg : Config) (inp : Inputs) (now : N)
  (g : ValleyImageGenerator) : ValleyImageGenerator * Started :=
  let prompt := readPrompt inp in
  if negb (truthy prompt) then
    (showError cfg (lit "Please enter a prompt to generate an image.") g, Returned)
  else if decide (maxPromptLength cfg < length prompt) then
    (showError cfg
       (lit "Prompt is too long. Maximum length is "
        ++ Number_toString (N.of_nat (maxPromptLength cfg)) ++ lit " characters.") g,
     Returned)
  else if isGenerating g then (g, Returned)
  else
    let g := set_isGenerating true (showLoading cfg g) in
    let enhancedPrompt := enhancePrompt cfg g prompt in
    let negativePrompt := getNegativePrompt cfg inp in
    let dimensions := getImageDimensions cfg inp in
    (g, Awaiting prompt (fetchGeneratedImage cfg enhancedPrompt negativePrompt dimensions now)).

(** The rest of generateImage, run when the awaited promise settles:
    the remainder of the [try] block or the [catch] block, then
    [finally]. *)
Definition generateImage_resume (cfg : Config) (now : N) (prompt : jsstring)
  (settled : completion jsstring) (g : ValleyImageGenerator) : ValleyImageGenerator :=
  let g :=
    match settled with
    | Normal imageUrl =>
      let g := hideLoading g in
      let g :=
        match imageOutput g with
        | Some _ =>
          set_imageOutput
            (Some {| src := imageUrl; alt := lit "Generated image: " ++ prompt |}) g
        | None => g
        end in
      let g :=
        match saveImageButton g with
        | Some _ => set_saveImageButton (Some (lit "block")) g
        | None => g
        end in
      let g := addToHistory cfg now prompt imageUrl g in
      if analytics_enabled cfg then trackGeneration cfg now prompt g else g
    | Throw error =>
      showError cfg (lit "Failed to generate image. Please try again.") (hideLoading g)
    end in
  set_isGenerating false g.

(** *** Sequences of insertions into the generation history *)

(** The item addToHistory stores for a request: its style is the
    selected one. *)
Definition entered (style : jsstring) (i : HistoryItem) : HistoryItem :=
  {| prompt := prompt i; imageUrl := imageUrl i; style := style; timestamp := timestamp i |}.

Definition insertItem (cfg : Config) (g : ValleyImageGenerator) (i : HistoryItem)
  : ValleyImageGenerator :=
  addToHistory cfg (timestamp i) (prompt i) (imageUrl i) g.

Definition insertItems (cfg : Config) (g : ValleyImageGenerator) (items : list HistoryItem)
  : ValleyImageGenerator :=
  foldl (insertItem cfg) g items.

End Widget.

End ImageGenerator.

(** ** The image history of the function-style image generator script *)

Module ImageHistory.
Import JS.

Record HistoryItem : Type := {
  imageUrl : jsstring;
  prompt : jsstring;
  style : jsstring;
  size : jsstring;
  timestamp : N
}.

(** [imageGeneratorConfig.maxHistory] *)
Definition maxHistory : nat := 10.

Definition historyKey : jsstring := lit "valleytainment_image_history".

(** The module-scope array [imageHistory] and the page's localStorage. *)
Record Script : Type := {
  imageHistory : list HistoryItem;
  localStorage : gmap jsstring jsstring
}.

Section Script.

Variable JSON_stringify : list HistoryItem -> jsstring.
Variable JSON_parse : jsstring -> completion (list HistoryItem).

Definition saveImageHistory (s : Script) : Script :=
  {| imageHistory := imageHistory s;
     localStorage := <[historyKey := JSON_stringify (imageHistory s)]> (localStorage s) |}.

(** [unshift] the new item, then a single [pop] when over the limit. *)
Definition addToImageHistory (now : N) (imageUrl prompt style size : jsstring)
  (s : Script) : Script :=
  let historyItem :=
    {| imageUrl := imageUrl; prompt := prompt; style := style;
       size := size; timestamp := now |} in
  let history := historyItem :: imageHistory s in
  let history :=
    if decide (maxHistory < length history) then removelast history else history in
  saveImageHistory {| imageHistory := history; localStorage := localStorage s |}.

Definition loadImageHistory (s : Script) : Script :=
  match localStorage s !! historyKey with
  | Some savedHistory =>
    if truthy savedHistory then
      match JSON_parse savedHistory with
      | Normal parsed => {| imageHistory := parsed; localStorage := localStorage s |}
      | Throw error => {| imageHistory := []; localStorage := localStorage s |}
      end
    else s
  | None => s
  end.

(** *** Sequences of insertions *)

Definition insertItem (s : Script) (i : HistoryItem) : Script :=
  addToImageHistory (timestamp i) (imageUrl i) (prompt i) (style i) (size i) s.

Definition insertItems (s : Script) (items : list HistoryItem) : Script :=
  foldl insertItem s items.

End Script.

End ImageHistory.

(** ** The security manager (class SecurityManager) *)

Module Security.
Import JS.

(** The fields of SECURITY_CONFIG that the modelled methods read. *)
Record Config : Type := {
  csrf_enabled : bool;
  activityMonitoring_enabled : bool;
  trackRapidRequests : bool;
  maxRequestsPerMinute : N;
  maxFailedAttempts : N;
  blockThreshold : nat;
  blockDuration : N
}.

Definition SECURITY_CONFIG : Config := {|
  csrf_enabled := true;
  activityMonitoring_enabled := true;
  trackRapidRequests := true;
  maxRequestsPerMinute := 60;
  maxFailedAttempts := 5;
  blockThreshold := 10;
  blockDuration := 300
|}.

Definition blockKey : jsstring := lit "valleytainment_security_block".

(** An activity record; the page URL and the user agent it also carries
    are left out. *)
Record Activity : Type := {
  type : jsstring;
  details : jsstring;
  timestamp : N
}.

(** The manager and the part of the page it writes: the number of block
    overlays in the document, the delays of the pending unblock
    timeouts, and localStorage. Dates are instants in milliseconds. *)
Record SecurityManager : Type := {
  csrfToken : option jsstring;
  suspiciousActivities : list Activity;
  isBlocked : bool;
  blockExpiry : option N;
  requestCount : N;
  requestCountResetTimer : bool;
  failedAttempts : N;
  blockMessages : nat;
  unblockTimers : list N;
  localStorage : gmap jsstring jsstring
}.

Section Manager.

(** [Date.prototype.toISOString] and the string a template literal
    prints for a count, as parameters. *)
Variable toISOString : N -> jsstring.
Variable Number_toString : N -> jsstring.

(** [date.setSeconds(date.getSeconds() + seconds)] on a date of the
    instant [now]: the instant at which the local clock shows [seconds]
    seconds more. It depends on the time zone of the visitor (where the
    clock is put back or forward in between, it is not [seconds]
    seconds later), so it is a parameter. *)
Variable addLocalSeconds : N -> N -> N.

(** The constructor, on a page whose localStorage is [storage]. *)
Definition new_SecurityManager (storage : gmap jsstring jsstring) : SecurityManager :=
  {| csrfToken := None;
     suspiciousActivities := [];
     isBlocked := false;
     blockExpiry := None;
     requestCount := 0;
     requestCountResetTimer := false;
     failedAttempts := 0;
     blockMessages := 0;
     unblockTimers := [];
     localStorage := storage |}.

(** [init], as far as it writes the manager: the CSRF token ([token] is
    what generateCsrfToken draws) and the interval that resets the
    request count. The meta tags, the listeners and the wrappers it
    installs do not touch the fields above. *)
Definition init (cfg : Config) (token : jsstring) (m : SecurityManager) : SecurityManager :=
  {| csrfToken := if csrf_enabled cfg then Some token else csrfToken m;
     suspiciousActivities := suspiciousActivities m;
     isBlocked := isBlocked m;
     blockExpiry := blockExpiry m;
     requestCount := requestCount m;
     requestCountResetTimer :=
       if activityMonitoring_enabled cfg && trackRapidRequests cfg then true
       else requestCountResetTimer m;
     failedAttempts := failedAttempts m;
     blockMessages := blockMessages m;
     unblockTimers := unblockTimers m;
     localStorage := localStorage m |}.

Definition logSuspiciousActivity (now : N) (type details : jsstring) (m : SecurityManager)
  : SecurityManager :=
  {| csrfToken := csrfToken m;
     suspiciousActivities :=
       suspiciousActivities m ++ [ {| type := type; details := details; timestamp := now |} ];
     isBlocked := isBlocked m;
     blockExpiry := blockExpiry m;
     requestCount := requestCount m;
     requestCountResetTimer := requestCountResetTimer m;
     failedAttempts := failedAttempts m;
     blockMessages := blockMessages m;
     unblockTimers := unblockTimers m;
     localStorage := localStorage m |}.

(** [JSON.stringify({ blocked: true, expiry: ... })] *)
Definition blockRecord (expiry : N) : jsstring :=
  lit "{" ++ dq ++ lit "blocked" ++ dq ++ lit ":true," ++ dq ++ lit "expiry" ++ dq
  ++ lit ":" ++ dq ++ toISOString expiry ++ dq ++ lit "}".

Definition blockUser (cfg : Config) (now : N) (m : SecurityManager) : SecurityManager :=
  let expiryTime := addLocalSeconds now (blockDuration cfg) in
  {| csrfToken := csrfToken m;
     suspiciousActivities := suspiciousActivities m;
     isBlocked := true;
     blockExpiry := Some expiryTime;
     requestCount := requestCount m;
     requestCountResetTimer := requestCountResetTimer m;
     failedAttempts := failedAttempts m;
     blockMessages := S (blockMessages m);
     unblockTimers := unblockTimers m ++ [ (blockDuration cfg * 1000)%N ];
     localStorage := <[blockKey := blockRecord expiryTime]> (localStorage m) |}.

Definition unblockUser (m : SecurityManager) : SecurityManager :=
  {| csrfToken := csrfToken m;
     suspiciousActivities := suspiciousActivities m;
     isBlocked := false;
     blockExpiry := None;
     requestCount := requestCount m;
     requestCountResetTimer := requestCountResetTimer m;
     failedAttempts := failedAttempts m;
     blockMessages := pred (blockMessages m);
     unblockTimers := unblockTimers m;
     localStorage := delete blockKey (localStorage m) |}.

Definition checkRequestRate (cfg : Config) (now : N) (m : SecurityManager)
  : SecurityManager :=
  if (maxRequestsPerMinute cfg <? requestCount m)%N then
    let m :=
      logSuspiciousActivity now (lit "Excessive request rate")
        (Number_toString (requestCount m) ++ lit " requests in one minute") m in
    if decide (blockThreshold cfg <= length (suspiciousActivities m))
    then blockUser cfg now m
    else m
  else m.

Definition set_failedAttempts (n : N) (m : SecurityManager) : SecurityManager :=
  {| csrfToken := csrfToken m;
     suspiciousActivities := suspiciousActivities m;
     isBlocked := isBlocked m;
     blockExpiry := blockExpiry m;
     requestCount := requestCount m;
     requestCountResetTimer := requestCountResetTimer m;
     failedAttempts := n;
     blockMessages := blockMessages m;
     unblockTimers := unblockTimers m;
     localStorage := localStorage m |}.

Definition checkFailedAttempts (cfg : Config) (now : N) (m : SecurityManager)
  : SecurityManager :=
  if (maxFailedAttempts cfg <=? failedAttempts m)%N then
    let m :=
      logSuspiciousActivity now (lit "Excessive failed attempts")
        (Number_toString (failedAttempts m) ++ lit " failed attempts") m in
    let m :=
      if decide (blockThreshold cfg <= length (suspiciousActivities m))
      then blockUser cfg now m
      else m in
    set_failedAttempts 0 m
  else m.

(** The click and submit listeners installed by initActivityMonitoring. *)
Definition onRequest (cfg : Config) (now : N) (m : SecurityManager) : SecurityManager :=
  checkRequestRate cfg now
    {| csrfToken := csrfToken m;
       suspiciousActivities := suspiciousActivities m;
       isBlocked := isBlocked m;
       blockExpiry := blockExpiry m;
       requestCount := (requestCount m + 1)%N;
       requestCountResetTimer := requestCountResetTimer m;
       failedAttempts := failedAttempts m;
       blockMessages := blockMessages m;
       unblockTimers := unblockTimers m;
       localStorage := localStorage m |}.

(** A page load: the DOMContentLoaded handler constructs a manager over
    the stored data and initialises it. *)
Definition pageLoad (cfg : Config) (token : jsstring) (storage : gmap jsstring jsstring)
  : SecurityManager :=
  init cfg token (new_SecurityManager storage).

End Manager.

End Security.

(** ** Sample pages

    Concrete values for the parameters and small pages on which the
    properties below are run. *)

Module Sample.
Import JS.

(** A [JSON.parse] for a page whose stored text is never valid JSON. *)
Definition parse {A} (text : jsstring) : completion A := Throw SyntaxError.

(** A [JSON.stringify] that writes every value as the text of an empty
    array; the properties below do not read what was written. *)
Definition stringify {A} (value : A) : jsstring := lit "[]".

Definition parseInt (text : jsstring) : option Z := None.
Definition exceeds (line : jsstring) (maxWidth : Z) : bool := false.
Definition toDataURL (dimensions : ImageGenerator.Dimensions) (lines : list jsstring)
  : jsstring := lit "data:image/png;base64,".

(** A [toISOString] that prints the instant in milliseconds. *)
Definition toISOString (instant : N) : jsstring := decimal instant.

(** The local clock of a zone whose clock is never changed. *)
Definition addLocalSeconds (now seconds : N) : N := (now + seconds * 1000)%N.

(** A manager one request away from both limits: 60 requests in the
    minute and 9 suspicious activities logged. *)
Definition suspect : Security.SecurityManager :=
  {| Security.csrfToken := Some (lit "00");
     Security.suspiciousActivities :=
       map (fun k => {| Security.type := lit "Excessive request rate";
                        Security.details := decimal (N.of_nat k);
                        Security.timestamp := N.of_nat k |}) (seq 1 9);
     Security.isBlocked := false;
     Security.blockExpiry := None;
     Security.requestCount := 60;
     Security.requestCountResetTimer := true;
     Security.failedAttempts := 0;
     Security.blockMessages := 0;
     Security.unblockTimers := [];
     Security.localStorage := ∅ |}.

(** A page with the chat element in the page and in the popup, and a
    page without a chat element. *)
Definition chatPage : Chatbot.Page :=
  {| Chatbot.mainChat := true; Chatbot.popupChat := true |}.

Definition barePage : Chatbot.Page :=
  {| Chatbot.mainChat := false; Chatbot.popupChat := false |}.

(** A page whose two history keys hold text that is not JSON. *)
Definition malformed : jsstring := lit "{not json".

Definition brokenStorage : gmap jsstring jsstring :=
  <[Chatbot.historyKey := malformed]> (<[ImageGenerator.historyKey := malformed]> ∅).

(** The widget after the constructor and [init], on a first visit. *)
Definition generator : ImageGenerator.ValleyImageGenerator :=
  ImageGenerator.initializeUI
    (ImageGenerator.initialState ImageGenerator.IMAGE_GENERATOR_CONFIG 0 ∅).

Definition typed (text : jsstring) : ImageGenerator.Inputs :=
  {| ImageGenerator.promptInput := Some text;
     ImageGenerator.negativePromptInput := None;
     ImageGenerator.widthInput := None;
     ImageGenerator.heightInput := None |}.

(** The messages, requests and images numbered 1 to [n]. *)
Definition messages (n : nat) : list Chatbot.ChatMessage :=
  map (fun k => {| Chatbot.role := Chatbot.user;
                   Chatbot.content := decimal (N.of_nat k);
                   Chatbot.timestamp := N.of_nat k |}) (seq 1 n).

Definition requests (n : nat) : list ImageGenerator.HistoryItem :=
  map (fun k => {| ImageGenerator.prompt := decimal (N.of_nat k);
                   ImageGenerator.imageUrl := lit "https://image.pollinations.ai/prompt/";
                   ImageGenerator.style := lit "neon-urban";
                   ImageGenerator.timestamp := N.of_nat k |}) (seq 1 n).

Definition images (n : nat) : list ImageHistory.HistoryItem :=
  map (fun k => {| ImageHistory.imageUrl := lit "https://image.pollinations.ai/prompt/";
                   ImageHistory.prompt := decimal (N.of_nat k);
                   ImageHistory.style := lit "realistic";
                   ImageHistory.size := lit "medium";
                   ImageHistory.timestamp := N.of_nat k |}) (seq 1 n).

Definition older : ImageGenerator.HistoryItem :=
  {| ImageGenerator.prompt := lit "first";
     ImageGenerator.imageUrl := lit "https://image.pollinations.ai/prompt/first";
     ImageGenerator.style := lit "neon-urban";
     ImageGenerator.timestamp := 1 |}.

Definition newer : ImageGenerator.HistoryItem :=
  {| ImageGenerator.prompt := lit "second";
     ImageGenerator.imageUrl := lit "https://image.pollinations.ai/prompt/second";
     ImageGenerator.style := lit "neon-urban";
     ImageGenerator.timestamp := 2 |}.

End Sample.

(** ** Further built-ins *)

Module Text.
Import JS.

(** [String.prototype.isWellFormed]: no surrogate stands unpaired. *)
Fixpoint isWellFormed (s : jsstring) : bool :=
  match s with
  | [] => true
  | c :: r =>
    if isLeadSurrogate c then
      match r with
      | d :: r' => isTrailSurrogate d && isWellFormed r'
      | [] => false
      end
    else negb (isTrailSurrogate c) && isWellFormed r
  end.

(** The characters that delimit the parts of a URL: # & / = ? *)
Definition isDelimiter (c : N) : bool :=
  ((c =? 35) || (c =? 38) || (c =? 47) || (c =? 61) || (c =? 63))%N.

Definition isSurrogate (c : N) : bool := isLeadSurrogate c || isTrailSurrogate c.

(** [text.substring(0, n)] *)
Definition substring_to (n : nat) (text : jsstring) : jsstring := take n text.

End Text.

(** ** The image generator widget: the remaining methods *)

Module ImageGeneratorMore.
Import JS Text ImageGenerator.

(** truncateText *)
Definition truncateText (text : jsstring) (maxLength : nat) : jsstring :=
  if decide (length text <= maxLength) then text
  else substring_to maxLength text ++ lit "...".

(** clearGenerationHistory; the re-rendering of the history panel is
    left out. *)
Definition clearGenerationHistory (g : ValleyImageGenerator) : ValleyImageGenerator :=
  set_localStorage (delete historyKey (localStorage g)) (set_generationHistory [] g).

Section Widget.

Variable toLowerCase : jsstring -> jsstring.
Variable Number_toString : N -> jsstring.
Variable parseInt : jsstring -> option Z.
Variable exceeds : jsstring -> Z -> bool.
Variable toDataURL : Dimensions -> list jsstring -> jsstring.
Variable JSON_stringify_history : list HistoryItem -> jsstring.
Variable JSON_stringify_analytics : Analytics -> jsstring.

(** The lines generateLocalImage draws on the canvas: the wrapped
    prompt, cut to four lines and an ellipsis when there are more than
    five. *)
Definition placeholderLines (prompt : jsstring) (dimensions : Dimensions) : list jsstring :=
  let maxWidth := (Z.of_N (width dimensions) - 40)%Z in
  let lines := wrapWords exceeds maxWidth 0 [] [] (split_on 32 prompt) in
  if decide (5 < length lines) then slice_to 4 lines ++ [lit "..."] else lines.

(** A line fits the width, or holds a single word of the text. *)
Definition fitsOrSingle (maxWidth : Z) (words : list jsstring) (line : jsstring) : Prop :=
  exceeds line maxWidth = false \/ exists word, In word words /\ line = word ++ lit " ".

(** A whole run of generateImage when nothing else happens between its
    start and the settling of the awaited promise: [nowStart] is the
    clock at the call, [nowEnd] when it resumes. *)
Definition generateImage (cfg : Config) (inp : Inputs) (nowStart nowEnd : N)
  (g : ValleyImageGenerator) : ValleyImageGenerator :=
  match generateImage_begin Number_toString parseInt exceeds toDataURL cfg inp nowStart g with
  | (g', Returned) => g'
  | (g', Awaiting prompt settled) =>
    generateImage_resume toLowerCase JSON_stringify_history JSON_stringify_analytics
      cfg nowEnd prompt settled g'
  end.

End Widget.

End ImageGeneratorMore.

(** ** The chat widget: sending, welcome, suggestions, analytics *)

Module ChatSession.
Import JS Chatbot.

(** The analytics and personality fields of CHATBOT_CONFIG. *)
Record AnalyticsConfig : Type := {
  enabled : bool;
  trackQuestions : bool;
  storageKey : jsstring
}.

Definition CHATBOT_ANALYTICS : AnalyticsConfig := {|
  enabled := true;
  trackQuestions := true;
  storageKey := lit "valleybot_analytics"
|}.

Definition personality_name : jsstring := lit "ValleyBot 2.0".

(** [config.ui.suggestionChips] *)
Definition suggestionChips : list jsstring :=
  [ lit "Tell me about Valleytainment"; lit "What services do you offer?";
    lit "How can I collaborate?"; lit "Latest music releases"; lit "Upcoming events" ].

Record Analytics : Type := {
  totalInteractions : N;
  popularQuestions : gmap jsstring Count;
  sessionStartTime : N;
  lastInteractionTime : option N
}.

(** The widget together with its analytics and the text in the input
    field. *)
Record Session : Type := {
  bot : ValleyBot;
  analytics : Analytics;
  chatInput : jsstring
}.

(** The update of [popularQuestions] in trackInteraction. *)
Definition countQuestion (key : jsstring) (counts : gmap jsstring Count)
  : gmap jsstring Count :=
  countUp key counts.

(** getWelcomeMessage, at the hour of the day [getHours] gives. *)
Definition getWelcomeMessage (hour : N) : jsstring :=
  let greeting :=
    if (hour <? 12)%N then lit "Good morning"
    else if (hour <? 18)%N then lit "Good afternoon"
    else lit "Good evening" in
  greeting ++ lit "! üëã I'm " ++ personality_name
  ++ lit ", your AI assistant for Valleytainment Productions. How can I help you today? Feel free to ask about our services, upcoming events, or collaboration opportunities.".

(** The follow-up suggestions of one message, if it touches a topic. *)
Definition topicSuggestions (content : jsstring) : option (list jsstring) :=
  if includes content (lit "music") || includes content (lit "release") then
    Some [ lit "Latest releases"; lit "Upcoming albums"; lit "Studio facilities";
           lit "Music producers" ]
  else if includes content (lit "event") || includes content (lit "festival") then
    Some [ lit "Event tickets"; lit "Festival lineup"; lit "Venue details";
           lit "Past events" ]
  else if includes content (lit "collaborate") || includes content (lit "submission") then
    Some [ lit "Submission process"; lit "Portfolio requirements";
           lit "Collaboration types"; lit "Success stories" ]
  else if includes content (lit "merchandise") || includes content (lit "merch") then
    Some [ lit "Limited editions"; lit "Shipping info"; lit "Size guide";
           lit "New arrivals" ]
  else None.

Section Widget.

Variable toLowerCase : jsstring -> jsstring.
Variable JSON_stringify : list ChatMessage -> jsstring.
Variable JSON_parse : jsstring -> completion (list ChatMessage).
Variable JSON_stringify_analytics : Analytics -> jsstring.

(** The loop of updateSuggestionChips over the recent messages: the
    first one that touches a topic decides. *)
Fixpoint firstTopic (recentMessages : list ChatMessage) : option (list jsstring) :=
  match recentMessages with
  | [] => None
  | message :: rest =>
    match topicSuggestions (toLowerCase (content message)) with
    | Some suggestions => Some suggestions
    | None => firstTopic rest
    end
  end.

(** The suggestions updateSuggestionChips puts in the chips. *)
Definition suggestionsFor (history : list ChatMessage) : list jsstring :=
  if decide (0 < length history) then
    match firstTopic (slice_from_end 3 history) with
    | Some suggestions => suggestions
    | None => suggestionChips
    end
  else suggestionChips.

(** [init], as far as it writes the widget: the welcome message. *)
Definition init (cfg : Config) (page : Page) (now hour : N) (b : ValleyBot)
  : completion ValleyBot :=
  addBotMessage JSON_stringify cfg page now (getWelcomeMessage hour) b.

(** A page load: the constructor over the stored data, then [init].
    The result is the widget that the listeners of [init] hold, and how
    the call of [init] ended. *)
Definition pageLoad (cfg : Config) (page : Page) (now hour : N)
  (storage : gmap jsstring jsstring) : completion (ValleyBot * completion unit) :=
  b ← new_ValleyBot JSON_parse storage;
  Normal match init cfg page now hour b with
         | Normal b' => (b', Normal tt)
         | Throw error => (b, Throw error)
         end.

(** clearChatHistory: the widget afterwards, and how the call ended.
    The history, its key and the chat elements are cleared before
    addBotMessage is called. *)
Definition clearChatHistory (cfg : Config) (page : Page) (now hour : N) (b : ValleyBot)
  : ValleyBot * completion unit :=
  let cleared :=
    {| chatHistory := [];
       chatMessages := if mainChat page then [] else chatMessages b;
       typingIndicators := if mainChat page then 0 else typingIndicators b;
       localStorage := delete historyKey (localStorage b) |} in
  match addBotMessage JSON_stringify cfg page now (getWelcomeMessage hour) cleared with
  | Normal b' => (b', Normal tt)
  | Throw error => (cleared, Throw error)
  end.

Definition saveAnalytics (acfg : AnalyticsConfig) (s : Session) : Session :=
  if negb (enabled acfg) then s
  else
    {| bot :=
         {| chatHistory := chatHistory (bot s);
            chatMessages := chatMessages (bot s);
            typingIndicators := typingIndicators (bot s);
            localStorage :=
              <[storageKey acfg := JSON_stringify_analytics (analytics s)]>
                (localStorage (bot s)) |};
       analytics := analytics s;
       chatInput := chatInput s |}.

Definition trackInteraction (acfg : AnalyticsConfig) (now : N) (message : jsstring)
  (s : Session) : Session :=
  let a := analytics s in
  saveAnalytics acfg
    {| bot := bot s;
       analytics :=
         {| totalInteractions := (totalInteractions a + 1)%N;
            popularQuestions :=
              if trackQuestions acfg
              then countQuestion (trim (toLowerCase message)) (popularQuestions a)
              else popularQuestions a;
            sessionStartTime := sessionStartTime a;
            lastInteractionTime := Some now |};
       chatInput := chatInput s |}.

(** sendMessage: the session afterwards, and the message whose reply
    is pending, or the error thrown. With a message to send it adds
    it, clears the input, starts getBotResponse, which suspends, and
    tracks the interaction. When addUserMessage throws, nothing of this
    has happened yet. *)
Definition sendMessage (cfg : Config) (acfg : AnalyticsConfig) (page : Page) (now : N)
  (s : Session) : Session * completion (option jsstring) :=
  let message := trim (chatInput s) in
  if negb (truthy message) then (s, Normal None)
  else
    match addUserMessage JSON_stringify cfg page now message (bot s) with
    | Normal b =>
      let s :=
        {| bot := getBotResponse_begin page b;
           analytics := analytics s;
           chatInput := [] |} in
      (if enabled acfg then trackInteraction acfg now message s else s,
       Normal (Some message))
    | Throw error => (s, Throw error)
    end.

(** The pending reply arrives. *)
Definition receiveReply (cfg : Config) (page : Page) (now : N) (message : jsstring)
  (s : Session) : Session :=
  {| bot :=
       after (getBotResponse_resume toLowerCase JSON_stringify cfg page now message (bot s));
     analytics := analytics s;
     chatInput := chatInput s |}.

End Widget.

End ChatSession.

(** ** A codec for sample pages

    Values are written as a text of one number, their code as a
    countable type, and read back from it; any other text is rejected
    as JSON.parse rejects text that is not JSON. *)

Module Codec.
Import JS.

Section Generic.

Context {A : Type} `{Countable A}.

Definition stringify (value : A) : jsstring := [Npos (encode value)].

Definition parse (text : jsstring) : completion A :=
  match text with
  | [Npos p] =>
    match decode p with
    | Some value => Normal value
    | None => Throw SyntaxError
    end
  | _ => Throw SyntaxError
  end.

End Generic.

#[global] Instance Role_eq_dec : EqDecision Chatbot.Role.
Proof. solve_decision. Defined.

#[global] Instance Role_countable : Countable Chatbot.Role.
Proof.
  refine (inj_countable'
            (fun r => match r with Chatbot.user => true | Chatbot.assistant => false end)
            (fun b : bool => if b then Chatbot.user else Chatbot.assistant) _).
  intros []; reflexivity.
Defined.

#[global] Instance ChatMessage_eq_dec : EqDecision Chatbot.ChatMessage.
Proof. solve_decision. Defined.

#[global] Instance ChatMessage_countable : Countable Chatbot.ChatMessage.
Proof.
  refine (inj_countable'
            (fun m => (Chatbot.role m, Chatbot.content m, Chatbot.timestamp m))
            (fun t => match t with
                      | (r, c, t) =>
                        {| Chatbot.role := r; Chatbot.content := c; Chatbot.timestamp := t |}
                      end) _).
  intros []; reflexivity.
Defined.

#[global] Instance HistoryItem_eq_dec : EqDecision ImageGenerator.HistoryItem.
Proof. solve_decision. Defined.

#[global] Instance HistoryItem_countable : Countable ImageGenerator.HistoryItem.
Proof.
  refine (inj_countable'
            (fun i => (ImageGenerator.prompt i, ImageGenerator.imageUrl i,
                       ImageGenerator.style i, ImageGenerator.timestamp i))
            (fun t => match t with
                      | (p, u, s, t) =>
                        {| ImageGenerator.prompt := p; ImageGenerator.imageUrl := u;
                           ImageGenerator.style := s; ImageGenerator.timestamp := t |}
                      end) _).
  intros []; reflexivity.
Defined.

End Codec.

(** ** Regular expressions

    The patterns of the security manager use literals, the classes
    [\s], [\w], [\d], [\D], the dot, ranges, and the quantifiers [*]
    and [+]. They are matched by derivatives. *)

Module RegExp.
Import JS.

(** An item of a character class. [EitherCase c], for a lower-case
    ASCII letter [c], is that letter under the i flag: it matches the
    letter in both cases and nothing else. *)
Inductive Atom : Type :=
  | Exactly (c : N)
  | EitherCase (c : N)
  | Range (lo hi : N)
  | Space
  | Digit
  | Word.

Inductive CharSet : Type :=
  | Dot
  | OneOf (atoms : list Atom)
  | NoneOf (atoms : list Atom).

Inductive Regex : Type :=
  | Eps
  | Void
  | Chr (set : CharSet)
  | Seq (r1 r2 : Regex)
  | Alt (r1 r2 : Regex)
  | Star (r : Regex).

Definition isDigit (x : N) : bool := ((48 <=? x) && (x <=? 57))%N.
Definition isUpper (x : N) : bool := ((65 <=? x) && (x <=? 90))%N.
Definition isLower (x : N) : bool := ((97 <=? x) && (x <=? 122))%N.
Definition isWord (x : N) : bool := isUpper x || isLower x || isDigit x || (x =? 95)%N.
Definition isLineTerminator (x : N) : bool :=
  ((x =? 10) || (x =? 13) || (x =? 8232) || (x =? 8233))%N.

Definition inAtom (x : N) (a : Atom) : bool :=
  match a with
  | Exactly c => (x =? c)%N
  | EitherCase c => ((x =? c) || (x =? c - 32))%N
  | Range lo hi => ((lo <=? x) && (x <=? hi))%N
  | Space => isWhiteSpace x
  | Digit => isDigit x
  | Word => isWord x
  end.

Definition inSet (x : N) (set : CharSet) : bool :=
  match set with
  | Dot => negb (isLineTerminator x)
  | OneOf atoms => existsb (inAtom x) atoms
  | NoneOf atoms => negb (existsb (inAtom x) atoms)
  end.

Fixpoint nullable (r : Regex) : bool :=
  match r with
  | Eps => true
  | Void => false
  | Chr _ => false
  | Seq r1 r2 => nullable r1 && nullable r2
  | Alt r1 r2 => nullable r1 || nullable r2
  | Star _ => true
  end.

(** What remains to be matched after the code unit [x]. *)
Fixpoint deriv (x : N) (r : Regex) : Regex :=
  match r with
  | Eps => Void
  | Void => Void
  | Chr set => if inSet x set then Eps else Void
  | Seq r1 r2 =>
    if nullable r1 then Alt (Seq (deriv x r1) r2) (deriv x r2)
    else Seq (deriv x r1) r2
  | Alt r1 r2 => Alt (deriv x r1) (deriv x r2)
  | Star r1 => Seq (deriv x r1) (Star r1)
  end.

(** The whole of [s] matches [r]: a pattern between [^] and [$]. *)
Fixpoint fullMatch (r : Regex) (s : jsstring) : bool :=
  match s with
  | [] => nullable r
  | x :: s' => fullMatch (deriv x r) s'
  end.

(** Some prefix of [s] matches [r]. *)
Fixpoint matchesPrefix (r : Regex) (s : jsstring) : bool :=
  nullable r ||
  match s with
  | [] => false
  | x :: s' => matchesPrefix (deriv x r) s'
  end.

(** [r.test(s)] for a pattern without anchors: a match starts somewhere. *)
Fixpoint test (r : Regex) (s : jsstring) : bool :=
  matchesPrefix r s ||
  match s with
  | [] => false
  | _ :: s' => test r s'
  end.

(** *** Writing patterns *)

Definition space : Regex := Chr (OneOf [Space]).
Definition word : Regex := Chr (OneOf [Word]).
Definition digit : Regex := Chr (OneOf [Digit]).
Definition any : Regex := Chr Dot.
Definition star (r : Regex) : Regex := Star r.
Definition plus (r : Regex) : Regex := Seq r (Star r).
Definition seq (rs : list Regex) : Regex := foldr Seq Eps rs.

(** A literal character under the i flag. *)
Definition letter (c : N) : Atom :=
  if isUpper c then EitherCase (c + 32)
  else if isLower c then EitherCase c
  else Exactly c.

(** A literal text under the i flag. *)
Definition ci (text : string) : Regex :=
  seq (map (fun c => Chr (OneOf [letter c])) (lit text)).

(** *** What a pattern matches

    The language of a pattern, against which the matcher is checked. *)
Inductive Matches : Regex -> jsstring -> Prop :=
  | MEps : Matches Eps []
  | MChr set x : inSet x set = true -> Matches (Chr set) [x]
  | MSeq r1 r2 w1 w2 : Matches r1 w1 -> Matches r2 w2 -> Matches (Seq r1 r2) (w1 ++ w2)
  | MAltL r1 r2 w : Matches r1 w -> Matches (Alt r1 r2) w
  | MAltR r1 r2 w : Matches r2 w -> Matches (Alt r1 r2) w
  | MStarNil r : Matches (Star r) []
  | MStarCons r w1 w2 :
    Matches r w1 -> Matches (Star r) w2 -> Matches (Star r) (w1 ++ w2).

(** A sufficient check that every match of [r] holds one of [chars]. *)
Definition atomAmong (chars : list N) (a : Atom) : bool :=
  match a with
  | Exactly c => existsb (N.eqb c) chars
  | _ => false
  end.

Fixpoint mustContain (chars : list N) (r : Regex) : bool :=
  match r with
  | Eps => false
  | Void => true
  | Chr (OneOf atoms) => forallb (atomAmong chars) atoms
  | Chr _ => false
  | Seq r1 r2 => mustContain chars r1 || mustContain chars r2
  | Alt r1 r2 => mustContain chars r1 && mustContain chars r2
  | Star _ => false
  end.

(** The lower-case form of a code unit, as asciiLower takes it. *)
Definition lowerUnit (x : N) : N := if ((65 <=? x) && (x <=? 90))%N then (x + 32)%N else x.

(** A sufficient check that [r] cannot tell an ASCII letter from the
    same letter in the other case. *)
Definition caseBlindAtom (a : Atom) : bool :=
  match a with
  | Exactly c => negb (isUpper c || isLower c)
  | EitherCase c => isLower c
  | Range _ _ => false
  | Space | Digit | Word => true
  end.

Definition caseBlindSet (set : CharSet) : bool :=
  match set with
  | Dot => true
  | OneOf atoms | NoneOf atoms => forallb caseBlindAtom atoms
  end.

Fixpoint caseBlind (r : Regex) : bool :=
  match r with
  | Eps | Void => true
  | Chr set => caseBlindSet set
  | Seq r1 r2 | Alt r1 r2 => caseBlind r1 && caseBlind r2
  | Star r1 => caseBlind r1
  end.

End RegExp.

(** ** The security manager: tokens, input checks, events *)

Module SecurityMore.
Import JS RegExp Security.

(** The further fields of SECURITY_CONFIG that the methods below read. *)
Record Policy : Type := {
  xss_enabled : bool;
  sanitizeInputs : bool;
  blockXssPatterns : bool;
  blockSqlInjection : bool;
  blockCommonAttackPatterns : bool;
  trackInvalidInputs : bool
}.

Definition SECURITY_POLICY : Policy := {|
  xss_enabled := true;
  sanitizeInputs := true;
  blockXssPatterns := true;
  blockSqlInjection := true;
  blockCommonAttackPatterns := true;
  trackInvalidInputs := true
|}.

(** *** generateCsrfToken *)

Definition hexChar (d : N) : N := if (d <? 10)%N then (48 + d)%N else (87 + d)%N.

(** The digits 0-9 and a-f. *)
Definition isLowerHex (c : N) : bool :=
  ((48 <=? c) && (c <=? 57) || (97 <=? c) && (c <=? 102))%N.

(** [b.toString(16)] for an element of a Uint8Array. *)
Definition toString16 (b : N) : jsstring :=
  if (b <? 16)%N then [hexChar b] else [hexChar (b / 16); hexChar (b mod 16)].

(** [text.padStart(n, '0')] *)
Definition padStart0 (n : nat) (text : jsstring) : jsstring :=
  replicate (n - length text) 48%N ++ text.

(** generateCsrfToken, on the 32 values getRandomValues put in the array. *)
Definition generateCsrfToken (array : list N) : jsstring :=
  concat (map (fun b => padStart0 2 (toString16 b)) array).

(** *** sanitizeInput and the detectors *)

(** [text.replace(/c/g, replacement)] for a single character [c] and a
    replacement without dollar signs. *)
Definition replaceAll (c : N) (replacement : jsstring) (text : jsstring) : jsstring :=
  concat (map (fun x => if (x =? c)%N then replacement else [x]) text).

(** The chain of replacements of sanitizeInput. *)
Definition escapeHtml (input : jsstring) : jsstring :=
  replaceAll 47 (lit "&#x2F;")
    (replaceAll 39 (lit "&#x27;")
       (replaceAll 34 (lit "&quot;")
          (replaceAll 62 (lit "&gt;")
             (replaceAll 60 (lit "&lt;")
                (replaceAll 38 (lit "&amp;") input))))).

(** The characters that sanitizeInput replaces, and those of them that
    its replacements do not bring back. *)
Definition needsEscape (x : N) : bool := existsb (N.eqb x) [38; 60; 62; 34; 39; 47]%N.
Definition escapedChars : list N := [60; 62; 34; 39; 47]%N.

(** What escaping each character on its own, in one pass, gives. *)
Definition escapeUnit (x : N) : jsstring :=
  if (x =? 38)%N then lit "&amp;"
  else if (x =? 60)%N then lit "&lt;"
  else if (x =? 62)%N then lit "&gt;"
  else if (x =? 34)%N then lit "&quot;"
  else if (x =? 39)%N then lit "&#x27;"
  else if (x =? 47)%N then lit "&#x2F;"
  else [x].

(** The [xssPatterns] of sanitizeInput, all with the i flag. *)
Definition xssPatterns : list Regex :=
  [ seq [ci "javascript:"]
  ; seq [ci "data:text/html"]
  ; seq [ci "vbscript:"]
  ; seq [ci "onerror="]
  ; seq [ci "onload="]
  ; seq [ci "onclick="]
  ; seq [ci "onmouseover="]
  ; seq [ci "onfocus="]
  ; seq [ci "onblur="]
  ; seq [ci "alert"; star space; ci "("]
  ; seq [ci "document.cookie"]
  ; seq [ci "document.location"]
  ; seq [ci "document.write"]
  ; seq [ci "localStorage"]
  ; seq [ci "sessionStorage"]
  ; seq [ci "eval"; star space; ci "("]
  ; seq [ci "setTimeout"; star space; ci "("]
  ; seq [ci "setInterval"; star space; ci "("]
  ; seq [ci "new"; plus space; ci "Function"]
  ].

(** The [sqlPatterns] of detectSqlInjection, all with the i flag. *)
Definition sqlPatterns : list Regex :=
  [ seq [ci "'"; star space; ci "OR"; star space; ci "'1'"; star space; ci "="; star space; ci "'1"]
  ; seq [ci "'"; star space; ci "OR"; star space; ci "1"; star space; ci "="; star space; ci "1"]
  ; seq [ci "'"; star space; ci "OR"; star space; ci "'"; plus word; ci "'"; star space; ci "="; star space; ci "'"; plus word]
  ; seq [ci "'"; star space; ci "OR"; star space; plus digit; star space; ci "="; star space; plus digit]
  ; seq [ci "'"; star space; ci ";"; star space; ci "DROP"; plus space; ci "TABLE"]
  ; seq [ci "'"; star space; ci ";"; star space; ci "DELETE"; plus space; ci "FROM"]
  ; seq [ci "'"; star space; ci ";"; star space; ci "INSERT"; plus space; ci "INTO"]
  ; seq [ci "'"; star space; ci ";"; star space; ci "UPDATE"; plus space]
  ; seq [ci "'"; star space; ci ";"; star space; ci "SELECT"; plus space]
  ; seq [ci "UNION"; plus space; ci "SELECT"]
  ; seq [ci "UNION"; plus space; ci "ALL"; plus space; ci "SELECT"]
  ; seq [ci "SELECT"; plus space; star any; plus space; ci "FROM"]
  ; seq [ci "ALTER"; plus space; ci "TABLE"]
  ; seq [ci "EXEC"; star space; ci "("]
  ; seq [ci "EXECUTE"; star space; ci "("]
  ; seq [ci "WAITFOR"; plus space; ci "DELAY"]
  ; seq [ci "CAST"; star space; ci "("]
  ; seq [ci "CONVERT"; star space; ci "("]
  ].

(** The [attackPatterns] of detectCommonAttackPatterns, all with the i flag. *)
Definition attackPatterns : list Regex :=
  [ seq [ci "<script"]
  ; seq [ci "javascript:"]
  ; seq [ci "data:text/html"]
  ; seq [ci "vbscript:"]
  ; seq [ci "onload="]
  ; seq [ci "onerror="]
  ; seq [ci "onclick="]
  ; seq [ci "onmouseover="]
  ; seq [ci "onfocus="]
  ; seq [ci "onblur="]
  ; seq [ci "alert"; star space; ci "("]
  ; seq [ci "prompt"; star space; ci "("]
  ; seq [ci "confirm"; star space; ci "("]
  ; seq [ci "eval"; star space; ci "("]
  ; seq [ci "document.cookie"]
  ; seq [ci "document.location"]
  ; seq [ci "document.write"]
  ; seq [ci "localStorage"]
  ; seq [ci "sessionStorage"]
  ; seq [ci "setTimeout"; star space; ci "("]
  ; seq [ci "setInterval"; star space; ci "("]
  ; seq [ci "new"; plus space; ci "Function"]
  ; seq [ci "../"]
  ; seq [ci "/etc/passwd"]
  ; seq [ci "/bin/bash"]
  ; seq [ci "cmd.exe"]
  ; seq [ci "powershell.exe"]
  ; seq [ci "system"; star space; ci "("]
  ; seq [ci "exec"; star space; ci "("]
  ; seq [ci "shell_exec"; star space; ci "("]
  ; seq [ci "passthru"; star space; ci "("]
  ; seq [ci "proc_open"; star space; ci "("]
  ; seq [ci "popen"; star space; ci "("]
  ; seq [ci "curl"; plus space]
  ; seq [ci "wget"; plus space]
  ; seq [ci "nc"; plus space]
  ; seq [ci "netcat"; plus space]
  ; seq [ci "ping"; plus space]
  ; seq [ci "traceroute"; plus space]
  ; seq [ci "nslookup"; plus space]
  ].

(** [for (const pattern of patterns) if (pattern.test(input)) return true;] *)
Definition anyMatches (patterns : list Regex) (input : jsstring) : bool :=
  existsb (fun pattern => test pattern input) patterns.

Definition detectSqlInjection (input : jsstring) : bool :=
  if negb (truthy input) then false else anyMatches sqlPatterns input.

Definition detectCommonAttackPatterns (input : jsstring) : bool :=
  if negb (truthy input) then false else anyMatches attackPatterns input.

(** validatePhone: [phone.replace(/\D/g, '')] keeps the digits. *)
Definition validatePhone (phone : jsstring) : bool :=
  if negb (truthy phone) then false
  else
    let digits := filter (fun x => isDigit x = true) phone in
    bool_decide (7 <= length digits) && bool_decide (length digits <= 15).

(** The pattern of validateEmail, between [^] and [$]:
    [[a-zA-Z0-9._%+-]+@[a-zA-Z0-9.-]+\.[a-zA-Z]{2,}] *)
Definition localPart : CharSet :=
  OneOf [ Range 97 122; Range 65 90; Range 48 57; Exactly 46; Exactly 95; Exactly 37;
          Exactly 43; Exactly 45 ].
Definition domainPart : CharSet :=
  OneOf [ Range 97 122; Range 65 90; Range 48 57; Exactly 46; Exactly 45 ].
Definition letters : CharSet := OneOf [ Range 97 122; Range 65 90 ].

Definition emailRegex : Regex :=
  seq [ plus (Chr localPart); Chr (OneOf [Exactly 64]); plus (Chr domainPart);
        Chr (OneOf [Exactly 46]); Chr letters; plus (Chr letters) ].

Definition validateEmail (email : jsstring) : bool :=
  if negb (truthy email) then false else fullMatch emailRegex email.

Section Manager.

Variable toISOString : N -> jsstring.
Variable Number_toString : N -> jsstring.
Variable addLocalSeconds : N -> N -> N.

(** sanitizeInput: the text to put in the field, and the manager. *)
Definition sanitizeInput (policy : Policy) (now : N) (input : jsstring)
  (m : SecurityManager) : jsstring * SecurityManager :=
  if negb (truthy input) then (input, m)
  else
    let sanitized := escapeHtml input in
    if blockXssPatterns policy && anyMatches xssPatterns input
    then (lit "[removed for security]",
          logSuspiciousActivity now (lit "Potential XSS attack") input m)
    else (sanitized, m).

(** One check of the input listener of initActivityMonitoring. *)
Definition flagInput (cfg : Config) (now : N) (type value : jsstring)
  (m : SecurityManager) : SecurityManager :=
  let m := logSuspiciousActivity now type value m in
  checkFailedAttempts toISOString Number_toString addLocalSeconds cfg now
    (set_failedAttempts (failedAttempts m + 1)%N m).

(** An input event on a text field (a text input or a textarea, whose
    value reads back as it was set) that holds [value]: the listener
    of initXssProtection runs first and rewrites the field, then the
    listener of initActivityMonitoring checks what the field holds. *)
Definition onInput (cfg : Config) (policy : Policy) (now : N) (value : jsstring)
  (m : SecurityManager) : jsstring * SecurityManager :=
  let '(value, m) :=
    if xss_enabled policy && sanitizeInputs policy
    then sanitizeInput policy now value m
    else (value, m) in
  let m :=
    if activityMonitoring_enabled cfg && trackInvalidInputs policy then
      let m :=
        if blockSqlInjection policy && detectSqlInjection value
        then flagInput cfg now (lit "Potential SQL injection in input") value m
        else m in
      if blockCommonAttackPatterns policy && detectCommonAttackPatterns value
      then flagInput cfg now (lit "Potential attack pattern in input") value m
      else m
    else m in
  (value, m).

(** What happens on the page, as far as the manager goes: a click, an
    input event, the minute timer that resets the request count, and
    the end of a block, each at the time it happens. *)
Inductive Event : Type :=
  | Request (now : N)
  | Input (now : N) (value : jsstring)
  | MinuteTimer
  | Unblock.

Definition resetRequestCount (m : SecurityManager) : SecurityManager :=
  {| csrfToken := csrfToken m;
     suspiciousActivities := suspiciousActivities m;
     isBlocked := isBlocked m;
     blockExpiry := blockExpiry m;
     requestCount := 0;
     requestCountResetTimer := requestCountResetTimer m;
     failedAttempts := failedAttempts m;
     blockMessages := blockMessages m;
     unblockTimers := unblockTimers m;
     localStorage := localStorage m |}.

Definition handle (cfg : Config) (policy : Policy) (m : SecurityManager) (e : Event)
  : SecurityManager :=
  match e with
  | Request now => onRequest toISOString Number_toString addLocalSeconds cfg now m
  | Input now value => snd (onInput cfg policy now value m)
  | MinuteTimer => resetRequestCount m
  | Unblock => unblockUser m
  end.

Definition run (cfg : Config) (policy : Policy) (m : SecurityManager) (events : list Event)
  : SecurityManager :=
  foldl (handle cfg policy) m events.

End Manager.

End SecurityMore.

(** ** The image generator script (imageGeneratorConfig, generateImage) *)

Module LegacyGenerator.
Import JS.

(** The options of the style select: the keys of STYLE_PROMPTS. *)
Inductive Style : Type :=
  | realistic
  | cartoon
  | abstract
  | neon
  | cyberpunk
  | anime
  | painting
  | sketch
  | watercolor
  | retro.

Definition styleName (style : Style) : jsstring :=
  match style with
  | realistic => lit "realistic"
  | cartoon => lit "cartoon"
  | abstract => lit "abstract"
  | neon => lit "neon"
  | cyberpunk => lit "cyberpunk"
  | anime => lit "anime"
  | painting => lit "painting"
  | sketch => lit "sketch"
  | watercolor => lit "watercolor"
  | retro => lit "retro"
  end.

Definition STYLE_PROMPTS (style : Style) : jsstring :=
  match style with
  | realistic => lit "ultra realistic, highly detailed, 8k, photorealistic"
  | cartoon => lit "cartoon style, vibrant colors, cel shaded, illustration"
  | abstract => lit "abstract art, colorful shapes, non-representational, modern art"
  | neon => lit "neon lights, cyberpunk, glowing, dark background, synthwave"
  | cyberpunk => lit "cyberpunk, futuristic, dystopian, high tech, low life, blade runner style"
  | anime => lit "anime style, manga illustration, japanese animation, detailed, vibrant"
  | painting => lit "oil painting, textured canvas, detailed brushstrokes, artistic"
  | sketch => lit "pencil sketch, hand-drawn, detailed linework, shading"
  | watercolor => lit "watercolor painting, soft colors, flowing pigment, artistic"
  | retro => lit "retro 80s style, vintage, vaporwave aesthetic, nostalgic"
  end.

(** The options of the size select: the keys of SIZE_DIMENSIONS. *)
Inductive Size : Type :=
  | small
  | medium
  | large.

Definition sizeName (size : Size) : jsstring :=
  match size with
  | small => lit "small"
  | medium => lit "medium"
  | large => lit "large"
  end.

Record Dimensions : Type := {
  width : N;
  height : N
}.

Definition SIZE_DIMENSIONS (size : Size) : Dimensions :=
  match size with
  | small => {| width := 512; height := 512 |}
  | medium => {| width := 768; height := 512 |}
  | large => {| width := 1024; height := 576 |}
  end.

Record Api : Type := {
  endpoint : jsstring;
  parameterFormat : jsstring
}.

Record LocalFallback : Type := {
  enabled : bool;
  useRandomPlaceholders : bool;
  placeholderCount : N
}.

Record ApiConfig : Type := {
  primary : Api;
  fallback : Api;
  localFallback : LocalFallback
}.

Definition apiConfig : ApiConfig := {|
  primary := {| endpoint := lit "https://image.pollinations.ai/prompt/";
                parameterFormat := lit "%width%x%height%/%prompt%" |};
  fallback := {| endpoint := lit "https://source.unsplash.com/random/";
                 parameterFormat := lit "%width%x%height%/?%prompt%" |};
  localFallback := {| enabled := true;
                      useRandomPlaceholders := true;
                      placeholderCount := 5 |}
|}.

(** *** String.prototype.replace with a string pattern

    The first occurrence of the pattern is replaced. In the
    replacement, [$$] stands for a dollar sign, [$&] for the match, and
    [$`] and [$'] for the text before and after it; a string pattern
    has no groups, so any other dollar sign stands for itself. *)
Fixpoint getSubstitution (matched before after replacement : jsstring) : jsstring :=
  match replacement with
  | [] => []
  | c :: rest =>
    if (c =? 36)%N then
      match rest with
      | d :: rest' =>
        if (d =? 36)%N then 36%N :: getSubstitution matched before after rest'
        else if (d =? 38)%N then matched ++ getSubstitution matched before after rest'
        else if (d =? 96)%N then before ++ getSubstitution matched before after rest'
        else if (d =? 39)%N then after ++ getSubstitution matched before after rest'
        else c :: getSubstitution matched before after rest
      | [] => [c]
      end
    else c :: getSubstitution matched before after rest
  end.

(** The text before and after the first occurrence of [pattern]. *)
Fixpoint breakOn (pattern text : jsstring) : option (jsstring * jsstring) :=
  if startsWith text pattern then Some ([], drop (length pattern) text)
  else
    match text with
    | [] => None
    | c :: rest =>
      match breakOn pattern rest with
      | Some (before, after) => Some (c :: before, after)
      | None => None
      end
    end.

Definition replaceFirst (pattern replacement text : jsstring) : jsstring :=
  match breakOn pattern text with
  | Some (before, after) =>
    before ++ getSubstitution pattern before after replacement ++ after
  | None => text
  end.

(** *** The generator *)

(** callImageAPI: the URL its promise resolves with after the delay,
    or the error it is rejected with. *)
Definition callImageAPI (api : Api) (prompt : jsstring) (width height : N)
  : completion jsstring :=
  encoded ← encodeURIComponent prompt;
  let formattedParams :=
    replaceFirst (lit "%prompt%") encoded
      (replaceFirst (lit "%height%") (decimal height)
         (replaceFirst (lit "%width%") (decimal width) (parameterFormat api))) in
  Normal (endpoint api ++ formattedParams).

(** getLocalFallbackImage; [roll] is [Math.floor(Math.random() * placeholderCount)]. *)
Definition getLocalFallbackImage (cfg : ApiConfig) (roll : N) (prompt : jsstring)
  (dimensions : Dimensions) : jsstring :=
  if useRandomPlaceholders (localFallback cfg) then
    let placeholderIndex := (roll + 1)%N in
    lit "images/placeholder-" ++ decimal placeholderIndex ++ lit ".jpg"
  else
    lit "https://via.placeholder.com/" ++ decimal (width dimensions) ++ lit "x"
    ++ decimal (height dimensions) ++ lit "/1a1a1a/ff00aa?text=Image+Generation+Failed".

Definition enhancePrompt (prompt : jsstring) (style : Style) : jsstring :=
  let styleKeywords := STYLE_PROMPTS style in
  prompt ++ lit ", " ++ styleKeywords.

(** generateImageFromPrompt: what its promise settles with. The flag
    isGenerating is set while it is pending; see [generateImage_begin]
    and [generateImage_settle]. *)
Definition generateImageFromPrompt (cfg : ApiConfig) (roll : N) (prompt : jsstring)
  (style : Style) (size : Size) : completion jsstring :=
  let enhancedPrompt := enhancePrompt prompt style in
  let dimensions := SIZE_DIMENSIONS size in
  try_catch
    (callImageAPI (primary cfg) enhancedPrompt (width dimensions) (height dimensions))
    (fun primaryError =>
       try_catch
         (callImageAPI (fallback cfg) enhancedPrompt (width dimensions) (height dimensions))
         (fun fallbackError =>
            if enabled (localFallback cfg)
            then Normal (getLocalFallbackImage cfg roll prompt dimensions)
            else Throw (Error (lit "All image generation methods failed")))).

(** The script's variables and the part of the page it writes: the
    loading overlays in the result container, the image shown there
    with its alt text, and the error toasts shown so far. *)
Record Page : Type := {
  script : ImageHistory.Script;
  isGenerating : bool;
  loadingOverlays : nat;
  shownImage : option (jsstring * jsstring);
  errorToasts : list jsstring
}.

(** The controls of the widget when generateImage reads them. *)
Record Controls : Type := {
  promptInput : jsstring;
  styleSelect : Style;
  sizeSelect : Size
}.

(** A call of generateImageFromPrompt that has not settled. *)
Record Pending : Type := {
  userPrompt : jsstring;
  selectedStyle : Style;
  selectedSize : Size
}.

Definition showError (message : jsstring) (p : Page) : Page :=
  {| script := script p;
     isGenerating := isGenerating p;
     loadingOverlays := loadingOverlays p;
     shownImage := shownImage p;
     errorToasts := errorToasts p ++ [message] |}.

Section Script.

Variable JSON_stringify : list ImageHistory.HistoryItem -> jsstring.

(** generateImage up to the call of generateImageFromPrompt, which
    sets isGenerating before its first await. *)
Definition generateImage_begin (controls : Controls) (p : Page) : Page * option Pending :=
  let userPrompt := trim (promptInput controls) in
  if bool_decide (userPrompt = []) then
    (showError (lit "Please enter a description of what you want to see") p, None)
  else if isGenerating p then
    (showError (lit "Please wait for the current image to finish generating") p, None)
  else
    ({| script := script p;
        isGenerating := true;
        loadingOverlays := S (loadingOverlays p);
        shownImage := shownImage p;
        errorToasts := errorToasts p |},
     Some {| userPrompt := userPrompt;
             selectedStyle := styleSelect controls;
             selectedSize := sizeSelect controls |}).

(** displayGeneratedImage: the result container is emptied, overlays
    included, before the image is put in. *)
Definition displayGeneratedImage (now : N) (imageUrl prompt : jsstring) (style : Style)
  (size : Size) (p : Page) : Page :=
  {| script :=
       ImageHistory.addToImageHistory JSON_stringify now imageUrl prompt
         (styleName style) (sizeName size) (script p);
     isGenerating := isGenerating p;
     loadingOverlays := 0;
     shownImage := Some (imageUrl, prompt);
     errorToasts := errorToasts p |}.

Definition hideLoadingIndicator (p : Page) : Page :=
  {| script := script p;
     isGenerating := isGenerating p;
     loadingOverlays := pred (loadingOverlays p);
     shownImage := shownImage p;
     errorToasts := errorToasts p |}.

(** The promise settles: the [finally] block of
    generateImageFromPrompt, then the [then] or the [catch] callback of
    generateImage, then its [finally]. *)
Definition generateImage_settle (cfg : ApiConfig) (roll now : N) (pending : Pending)
  (p : Page) : Page :=
  let p :=
    {| script := script p;
       isGenerating := false;
       loadingOverlays := loadingOverlays p;
       shownImage := shownImage p;
       errorToasts := errorToasts p |} in
  let p :=
    match generateImageFromPrompt cfg roll (userPrompt pending) (selectedStyle pending)
            (selectedSize pending) with
    | Normal imageUrl =>
      displayGeneratedImage now imageUrl (userPrompt pending) (selectedStyle pending)
        (selectedSize pending) p
    | Throw error => showError (lit "Failed to generate image. Please try again.") p
    end in
  hideLoadingIndicator p.

(** A click on the button, from the call to the settled promise. *)
Definition generateImage (cfg : ApiConfig) (roll now : N) (controls : Controls) (p : Page)
  : Page :=
  match generateImage_begin controls p with
  | (p, Some pending) => generateImage_settle cfg roll now pending p
  | (p, None) => p
  end.

End Script.

End LegacyGenerator.

(** ** More sample pages *)

Module SampleMore.
Import JS.

(** A first visit to the chat, with a greeting typed in. *)
Definition session : ChatSession.Session :=
  {| ChatSession.bot := Chatbot.initialState ∅;
     ChatSession.analytics :=
       {| ChatSession.totalInteractions := 0;
          ChatSession.popularQuestions := ∅;
          ChatSession.sessionStartTime := 0;
          ChatSession.lastInteractionTime := None |};
     ChatSession.chatInput := lit "hi" |}.

(** The image generator script on a first visit, and its controls
    with a prompt typed in. *)
Definition page : LegacyGenerator.Page :=
  {| LegacyGenerator.script :=
       {| ImageHistory.imageHistory := []; ImageHistory.localStorage := ∅ |};
     LegacyGenerator.isGenerating := false;
     LegacyGenerator.loadingOverlays := 0;
     LegacyGenerator.shownImage := None;
     LegacyGenerator.errorToasts := [] |}.

Definition controls : LegacyGenerator.Controls :=
  {| LegacyGenerator.promptInput := lit " neon city ";
     LegacyGenerator.styleSelect := LegacyGenerator.neon;
     LegacyGenerator.sizeSelect := LegacyGenerator.medium |}.

(** A manager at the rate limit with ten activities logged. *)
Definition flagged : Security.SecurityManager :=
  Security.logSuspiciousActivity 10 (lit "Potential XSS attack") (lit "onload=")
    Sample.suspect.

Definition square : ImageGenerator.Dimensions :=
  {| ImageGenerator.width := 512; ImageGenerator.height := 512 |}.

Definition noWidth : ImageGenerator.Dimensions :=
  {| ImageGenerator.width := 0; ImageGenerator.height := 512 |}.

End SampleMore.

(** * Properties *)

(** ** Lists and strings *)

Module Facts.
Import JS.

Lemma insert_sorted_not_nil {A} (key : A -> N) (x : A) (l : list A) :
  insert_sorted key x l <> [].
Proof. destruct l as [|y l]; simpl; [discriminate|]. destruct (key y <? key x)%N; discriminate. Qed.

Lemma sort_by_not_nil {A} (key : A -> N) (l : list A) :
  l <> [] -> sort_by key l <> [].
Proof.
  destruct l as [|x l]; [congruence|]. intros _. apply insert_sorted_not_nil.
Qed.

Lemma find_app_first {A} (f : A -> bool) (l1 l2 : list A) :
  List.find f (l1 ++ l2) =
  match List.find f l1 with
  | Some x => Some x
  | None => List.find f l2
  end.
Proof.
  induction l1 as [|x l1 IH]; simpl; [reflexivity|]. destruct (f x); auto.
Qed.

(** A string contains each of its own code units. *)
Lemma includes_unit (a b : jsstring) (c : N) :
  includes (a ++ c :: b) [c] = true.
Proof.
  induction a as [|x a IH]; simpl.
  - rewrite N.eqb_refl. destruct b; reflexivity.
  - rewrite IH. apply orb_true_r.
Qed.

Lemma keep_last_length {A} (n : nat) (l : list A) : length (keep_last n l) <= n.
Proof. unfold keep_last. rewrite length_drop. lia. Qed.

Lemma keep_last_short {A} (n : nat) (l : list A) : length l <= n -> keep_last n l = l.
Proof. intros H. unfold keep_last. replace (length l - n) with 0 by lia. reflexivity. Qed.

Lemma keep_last_snoc {A} (n : nat) (l : list A) (x : A) :
  0 < n -> keep_last n (keep_last n l ++ [x]) = keep_last n (l ++ [x]).
Proof.
  intros Hn. destruct (decide (length l <= n)) as [Hle|Hgt].
  - rewrite (keep_last_short n l) by done. reflexivity.
  - unfold keep_last. rewrite !length_app, length_drop. simpl.
    replace (length l - (length l - n) + 1 - n) with 1 by lia.
    rewrite (drop_app_le _ _ 1) by (rewrite length_drop; lia).
    rewrite drop_drop.
    rewrite (drop_app_le l) by lia.
    f_equal. f_equal. lia.
Qed.

Lemma keep_last_last {A} (n : nat) (l : list A) (x : A) :
  0 < n -> last (keep_last n (l ++ [x])) = Some x.
Proof.
  intros Hn. unfold keep_last. rewrite length_app. simpl.
  rewrite drop_app_le by lia. apply last_snoc.
Qed.

Lemma take_cons_take {A} (n : nat) (x : A) (l : list A) :
  take n (x :: take n l) = take n (x :: l).
Proof.
  destruct n as [|n]; [reflexivity|]. simpl. f_equal.
  rewrite take_take. f_equal. lia.
Qed.

End Facts.

(** ** The chat widget *)

Module ChatbotFacts.
Import JS Chatbot Facts.

Section Replies.

Variable toLowerCase : jsstring -> jsstring.

Lemma scanEntries_find (lowerMessage : jsstring) (entries : list (jsstring * jsstring)) :
  scanEntries lowerMessage entries =
  snd <$> List.find (fun entry => includes lowerMessage (fst entry)) entries.
Proof.
  induction entries as [|[key value] entries IH]; simpl; [reflexivity|].
  destruct (includes lowerMessage key); auto.
Qed.

Lemma getLocalResponse_firstMatch (message : jsstring) :
  getLocalResponse toLowerCase message =
  firstMatch responses localDefault (toLowerCase message).
Proof.
  unfold getLocalResponse, firstMatch. rewrite scanEntries_find.
  destruct (List.find _ responses); reflexivity.
Qed.

Lemma getEnhancedResponse_firstMatch (message : jsstring) :
  getEnhancedResponse toLowerCase message =
  firstMatch enhancedTable enhancedDefault (toLowerCase message).
Proof.
  unfold getEnhancedResponse, firstMatch, enhancedTable.
  rewrite scanEntries_find, find_app_first.
  destruct (List.find _ enhancedResponses) as [entry|]; [reflexivity|].
  cbn [List.find fst snd fmap option_fmap option_map].
  repeat match goal with
         | |- context [includes ?s ?k] =>
           destruct (includes s k); cbn [orb snd]; try reflexivity
         end.
Qed.

(** C2. For every chat input, each reply function lower-cases the input
    and returns the response paired with the first key, in the order of
    its fixed table, that the lower-cased input contains; when the
    input contains no key of the table it returns the default string.
    This holds for the reply the widget uses (getEnhancedResponse, over
    [enhancedTable]) and for the local one (getLocalResponse, over
    [responses]). *)
Theorem reply_is_first_match_of_table (message : jsstring) :
  getEnhancedResponse toLowerCase message =
    firstMatch enhancedTable enhancedDefault (toLowerCase message)
  /\ getLocalResponse toLowerCase message =
    firstMatch responses localDefault (toLowerCase message).
Proof.
  split; [apply getEnhancedResponse_firstMatch | apply getLocalResponse_firstMatch].
Qed.

Lemma tryEndpoints_first (message : jsstring) (sorted : list Endpoint) :
  sorted <> [] ->
  tryEndpoints toLowerCase message sorted =
  Normal (getEnhancedResponse toLowerCase message).
Proof. destruct sorted; [congruence|reflexivity]. Qed.

Lemma fetchAIResponse_returns (cfg : Config) (message : jsstring) :
  endpoints cfg <> [] ->
  fetchAIResponse toLowerCase cfg message =
  Normal (getEnhancedResponse toLowerCase message).
Proof.
  intros H. unfold fetchAIResponse. apply tryEndpoints_first.
  apply sort_by_not_nil, H.
Qed.

End Replies.

Section History.

Variable toLowerCase : jsstring -> jsstring.
Variable JSON_stringify : list ChatMessage -> jsstring.

Lemma saveChatHistory_history (cfg : Config) (bot : ValleyBot) :
  0 < maxHistoryItems cfg ->
  chatHistory (saveChatHistory JSON_stringify cfg bot) =
  keep_last (maxHistoryItems cfg) (chatHistory bot).
Proof.
  intros Hmax. unfold saveChatHistory. cbn [chatHistory].
  case_decide as Hlen.
  - unfold slice_from_end, keep_last.
    destruct (maxHistoryItems cfg); [lia|reflexivity].
  - symmetry. apply keep_last_short. lia.
Qed.

Lemma insertMessage_history (cfg : Config) (bot : ValleyBot) (m : ChatMessage) :
  0 < maxHistoryItems cfg ->
  chatHistory (insertMessage JSON_stringify cfg bot m) =
  keep_last (maxHistoryItems cfg) (chatHistory bot ++ [m]).
Proof.
  intros Hmax. destruct m as [sender text time]. unfold insertMessage, storeMessage.
  rewrite saveChatHistory_history by done. reflexivity.
Qed.

Lemma storeMessage_history (cfg : Config) (sender : Role) (message : jsstring) (now : N)
  (bot : ValleyBot) :
  0 < maxHistoryItems cfg ->
  chatHistory (storeMessage JSON_stringify cfg sender message now bot) =
  keep_last (maxHistoryItems cfg)
    (chatHistory bot ++ [ {| role := sender; content := message; timestamp := now |} ]).
Proof.
  intros Hmax. unfold storeMessage. rewrite saveChatHistory_history by done. reflexivity.
Qed.

(** Rendering throws on a page with a chat element when emojis are
    enabled, and does nothing on a page without one. *)
Lemma addBotMessage_throws (cfg : Config) (page : Page) (now : N) (message : jsstring)
  (bot : ValleyBot) :
  emoji cfg = true ->
  mainChat page = true \/ popupChat page = true ->
  addBotMessage JSON_stringify cfg page now message bot = Throw SyntaxError.
Proof.
  intros Hemoji Helement.
  unfold addBotMessage, addMessageToChat, addMessageToPopup, processMessageText.
  rewrite Hemoji. destruct (mainChat page); [reflexivity|].
  destruct Helement as [Hmain|Hpopup]; [discriminate|]. rewrite Hpopup. reflexivity.
Qed.

Lemma addUserMessage_throws (cfg : Config) (page : Page) (now : N) (message : jsstring)
  (bot : ValleyBot) :
  emoji cfg = true ->
  mainChat page = true \/ popupChat page = true ->
  addUserMessage JSON_stringify cfg page now message bot = Throw SyntaxError.
Proof.
  intros Hemoji Helement.
  unfold addUserMessage, addMessageToChat, addMessageToPopup, processMessageText.
  rewrite Hemoji. destruct (mainChat page); [reflexivity|].
  destruct Helement as [Hmain|Hpopup]; [discriminate|]. rewrite Hpopup. reflexivity.
Qed.

Lemma addBotMessage_stores (cfg : Config) (page : Page) (now : N) (message : jsstring)
  (bot : ValleyBot) :
  mainChat page = false ->
  popupChat page = false ->
  addBotMessage JSON_stringify cfg page now message bot =
  Normal (storeMessage JSON_stringify cfg assistant message now bot).
Proof.
  intros Hmain Hpopup. unfold addBotMessage, addMessageToChat, addMessageToPopup.
  rewrite Hmain, Hpopup. reflexivity.
Qed.

Lemma addUserMessage_stores (cfg : Config) (page : Page) (now : N) (message : jsstring)
  (bot : ValleyBot) :
  mainChat page = false ->
  popupChat page = false ->
  addUserMessage JSON_stringify cfg page now message bot =
  Normal (storeMessage JSON_stringify cfg user message now bot).
Proof.
  intros Hmain Hpopup. unfold addUserMessage, addMessageToChat, addMessageToPopup.
  rewrite Hmain, Hpopup. reflexivity.
Qed.

Lemma insertMessages_history (cfg : Config) (ms : list ChatMessage) (bot : ValleyBot) :
  0 < maxHistoryItems cfg ->
  length (chatHistory bot) <= maxHistoryItems cfg ->
  chatHistory (insertMessages JSON_stringify cfg bot ms) =
  keep_last (maxHistoryItems cfg) (chatHistory bot ++ ms).
Proof.
  intros Hmax. revert bot. induction ms as [|m ms IH] using rev_ind; intros bot Hlen.
  - rewrite app_nil_r. symmetry. apply keep_last_short, Hlen.
  - unfold insertMessages in *. rewrite foldl_snoc, insertMessage_history by done.
    rewrite IH by done. rewrite keep_last_snoc by done. rewrite app_assoc. reflexivity.
Qed.

(** Without a chat element on the page, getBotResponse completes in
    its [try] block and stores the enhanced-table response. *)
Lemma getBotResponse_resume_stores (page : Page) (now : N) (message : jsstring)
  (bot : ValleyBot) :
  mainChat page = false ->
  popupChat page = false ->
  getBotResponse_resume toLowerCase JSON_stringify CHATBOT_CONFIG page now message bot =
  {| after :=
       storeMessage JSON_stringify CHATBOT_CONFIG assistant
         (getEnhancedResponse toLowerCase message) now (hideTypingIndicator bot);
     block := TryBlock;
     fallbackResponse := None;
     settled := Normal tt |}.
Proof.
  intros Hmain Hpopup. unfold getBotResponse_resume.
  rewrite (fetchAIResponse_returns toLowerCase CHATBOT_CONFIG message) by discriminate.
  rewrite addBotMessage_stores by assumption. reflexivity.
Qed.


End History.

End ChatbotFacts.

(** ** The image generator widget *)

Module ImageGeneratorFacts.
Import JS ImageGenerator Facts.

Lemma includes_unfold (s key : jsstring) :
  includes s key =
  startsWith s key || match s with [] => false | _ :: s' => includes s' key end.
Proof. destruct s; reflexivity. Qed.

Lemma startsWith_app_l (key a b : jsstring) :
  startsWith a key = true -> startsWith (a ++ b) key = true.
Proof.
  revert a. induction key as [|k key IH]; intros a H.
  - destruct (a ++ b); reflexivity.
  - destruct a as [|c a]; simpl in *; [discriminate|].
    apply andb_true_iff in H as [-> H]. simpl. auto.
Qed.

Lemma includes_app_l (a b key : jsstring) :
  includes a key = true -> includes (a ++ b) key = true.
Proof.
  induction a as [|c a IH]; intros H.
  - rewrite includes_unfold in H. rewrite orb_false_r in H.
    rewrite includes_unfold. rewrite (startsWith_app_l key [] b H). reflexivity.
  - rewrite includes_unfold in H. apply orb_true_iff in H as [H|H].
    + rewrite includes_unfold. rewrite (startsWith_app_l key (c :: a) b H). reflexivity.
    + change ((c :: a) ++ b) with (c :: (a ++ b)). rewrite includes_unfold.
      rewrite (IH H). apply orb_true_r.
Qed.

Lemma includes_app_r (a b key : jsstring) :
  includes b key = true -> includes (a ++ b) key = true.
Proof.
  intros H. induction a as [|c a IH]; [exact H|].
  change ((c :: a) ++ b) with (c :: (a ++ b)). rewrite includes_unfold, IH.
  apply orb_true_r.
Qed.

Lemma sorted_endpoints :
  sort_by priority (endpoints IMAGE_GENERATOR_CONFIG) = endpoints IMAGE_GENERATOR_CONFIG.
Proof. vm_compute. reflexivity. Qed.

Section Fetch.

Variable Number_toString : N -> jsstring.
Variable exceeds : jsstring -> Z -> bool.
Variable toDataURL : Dimensions -> list jsstring -> jsstring.

(** The URL built for the pollinations endpoint of the shipped
    configuration. *)
Lemma pollinationsUrl_shape (endpoint : Endpoint) (prompt encoded : jsstring)
  (dimensions : Dimensions) (now : N) :
  params endpoint = Some {| params_width := 512; params_height := 512; nologo := true |} ->
  encodeURIComponent prompt = Normal encoded ->
  (0 < width dimensions)%N -> (0 < height dimensions)%N ->
  pollinationsUrl Number_toString endpoint prompt dimensions now =
  Normal (url endpoint ++ encoded
          ++ lit "?width=" ++ Number_toString (width dimensions)
          ++ lit "&height=" ++ Number_toString (height dimensions)
          ++ lit "&nologo=true" ++ lit "&t=" ++ Number_toString now).
Proof.
  intros Hparams Henc Hw Hh. unfold pollinationsUrl.
  rewrite Henc, Hparams. cbn [mbind completion_bind nologo].
  apply N.lt_neq, not_eq_sym, N.eqb_neq in Hw as ->.
  apply N.lt_neq, not_eq_sym, N.eqb_neq in Hh as ->.
  cbn [negb andb].
  set (sized := (url endpoint ++ encoded) ++ lit "?width=" ++ _).
  assert (Hq : includes sized (lit "?") = true).
  { subst sized. apply includes_app_r.
    change (lit "?width=") with (63%N :: lit "width=").
    change (lit "?") with [63%N]. apply (includes_unit []). }
  rewrite Hq. rewrite (includes_app_l _ _ _ Hq).
  subst sized. f_equal. rewrite <- !app_assoc. reflexivity.
Qed.

(** C6. For every prompt that has a URL encoding and every positive
    width W and height H, the URL fetchGeneratedImage builds for the
    pollinations endpoint, the first one tried, is the base URL, then
    the encoded prompt, then exactly the query
    ?width=W&height=H&nologo=true&t=now in that order, [now] being the
    value of Date.now(). *)
Theorem pollinations_url_format (prompt encoded negativePrompt : jsstring) (W H now : N) :
  encodeURIComponent prompt = Normal encoded ->
  (0 < W)%N -> (0 < H)%N ->
  fetchGeneratedImage Number_toString exceeds toDataURL IMAGE_GENERATOR_CONFIG prompt negativePrompt
    {| width := W; height := H |} now =
  Normal (lit "https://image.pollinations.ai/prompt/" ++ encoded
          ++ lit "?width=" ++ Number_toString W
          ++ lit "&height=" ++ Number_toString H
          ++ lit "&nologo=true" ++ lit "&t=" ++ Number_toString now).
Proof.
  intros Henc HW HH. unfold fetchGeneratedImage. rewrite sorted_endpoints.
  cbn [endpoints IMAGE_GENERATOR_CONFIG tryEndpoints]. unfold tryEndpoint at 1.
  cbn [name]. rewrite bool_decide_eq_true_2 by reflexivity.
  erewrite pollinationsUrl_shape; [reflexivity | reflexivity | eassumption | assumption..].
Qed.

(** When the prompt has no URL encoding, no endpoint of the shipped
    configuration returns and the loop ends in the final [throw]. *)
Lemma fetchGeneratedImage_unencodable (prompt negativePrompt : jsstring)
  (dimensions : Dimensions) (now : N) (e : jserror) :
  encodeURIComponent prompt = Throw e ->
  fetchGeneratedImage Number_toString exceeds toDataURL IMAGE_GENERATOR_CONFIG prompt negativePrompt
    dimensions now =
  Throw (Error (lit "All image generation endpoints failed")).
Proof.
  intros Henc. unfold fetchGeneratedImage. rewrite sorted_endpoints.
  cbn [endpoints IMAGE_GENERATOR_CONFIG tryEndpoints]. unfold tryEndpoint.
  cbn [name useLocalFallback]. unfold pollinationsUrl. rewrite Henc.
  cbn [mbind completion_bind].
  rewrite bool_decide_eq_true_2 by reflexivity.
  rewrite !bool_decide_eq_false_2 by (vm_compute; discriminate).
  reflexivity.
Qed.

(** C1, on the code. With the shipped configuration, in which
    useLocalFallback is true, the prompt made of the lone surrogate
    U+D83D and the default 512 by 512 dimensions make the pollinations
    branch throw; no endpoint is named local, so generateLocalImage is
    not reached and fetchGeneratedImage throws instead of resolving to
    a URL. *)
Theorem fetchGeneratedImage_throws_despite_fallback (negativePrompt : jsstring) (now : N) :
  useLocalFallback IMAGE_GENERATOR_CONFIG = true
  /\ fetchGeneratedImage Number_toString exceeds toDataURL IMAGE_GENERATOR_CONFIG [55357%N] negativePrompt
       {| width := 512; height := 512 |} now =
     Throw (Error (lit "All image generation endpoints failed")).
Proof.
  split; [reflexivity|]. apply (fetchGeneratedImage_unencodable _ _ _ _ URIError).
  reflexivity.
Qed.

End Fetch.

Section Generate.

Variable Number_toString : N -> jsstring.
Variable parseInt : jsstring -> option Z.
Variable exceeds : jsstring -> Z -> bool.
Variable toDataURL : Dimensions -> list jsstring -> jsstring.

(** showError writes the error element and its timers, nothing else. *)
Lemma showError_frame (cfg : Config) (message : jsstring) (g : ValleyImageGenerator) :
  isGenerating (showError cfg message g) = isGenerating g
  /\ generationHistory (showError cfg message g) = generationHistory g
  /\ analytics (showError cfg message g) = analytics g
  /\ localStorage (showError cfg message g) = localStorage g.
Proof. unfold showError. destruct (errorMessage g); auto. Qed.

Lemma showError_shown (cfg : Config) (message : jsstring) (g : ValleyImageGenerator)
  (e : ErrorElement) :
  errorMessage g = Some e ->
  errorMessage (showError cfg message g) =
  Some {| error_display := lit "block";
          textContent := if truthy message then message else errorText cfg |}.
Proof. intros H. unfold showError. rewrite H. reflexivity. Qed.

Lemma truthy_length (s : jsstring) : 0 < length s -> truthy s = true.
Proof. destruct s; simpl; [lia|reflexivity]. Qed.

(** The two validation exits of generateImage. *)
Lemma generateImage_begin_invalid (cfg : Config) (inp : Inputs) (now : N)
  (g : ValleyImageGenerator) :
  readPrompt inp = [] \/ maxPromptLength cfg < length (readPrompt inp) ->
  exists message,
    truthy message = true
    /\ generateImage_begin Number_toString parseInt exceeds toDataURL cfg inp now g =
       (showError cfg message g, Returned).
Proof.
  intros [Hempty|Hlong]; unfold generateImage_begin.
  - rewrite Hempty. cbn [truthy negb]. eexists. split; [|reflexivity]. reflexivity.
  - rewrite truthy_length by lia. cbn [negb]. rewrite decide_True by done.
    eexists. split; [|reflexivity]. reflexivity.
Qed.

(** C9. generateImage validates its input before anything else: when
    the trimmed prompt is empty (an all-white-space input, or none) or
    longer than 1000 characters, it returns after showing an error in
    the error element; it starts no generation and leaves the
    generation history, the analytics counters, the isGenerating flag
    and localStorage as they were. *)
Theorem generateImage_rejects_invalid_prompt (inp : Inputs) (now : N)
  (g : ValleyImageGenerator) :
  readPrompt inp = [] \/ 1000 < length (readPrompt inp) ->
  snd (generateImage_begin Number_toString parseInt exceeds toDataURL IMAGE_GENERATOR_CONFIG inp now g)
    = Returned
  /\ generationHistory
       (fst (generateImage_begin Number_toString parseInt exceeds toDataURL IMAGE_GENERATOR_CONFIG inp now g))
     = generationHistory g
  /\ analytics
       (fst (generateImage_begin Number_toString parseInt exceeds toDataURL IMAGE_GENERATOR_CONFIG inp now g))
     = analytics g
  /\ isGenerating
       (fst (generateImage_begin Number_toString parseInt exceeds toDataURL IMAGE_GENERATOR_CONFIG inp now g))
     = isGenerating g
  /\ localStorage
       (fst (generateImage_begin Number_toString parseInt exceeds toDataURL IMAGE_GENERATOR_CONFIG inp now g))
     = localStorage g
  /\ (forall e, errorMessage g = Some e ->
      exists message,
        message <> []
        /\ errorMessage
             (fst (generateImage_begin Number_toString parseInt exceeds toDataURL
                     IMAGE_GENERATOR_CONFIG inp now g))
           = Some {| error_display := lit "block"; textContent := message |}).
Proof.
  intros Hinvalid.
  destruct (generateImage_begin_invalid IMAGE_GENERATOR_CONFIG inp now g Hinvalid)
    as (message & Htruthy & ->).
  cbn [fst snd].
  destruct (showError_frame IMAGE_GENERATOR_CONFIG message g) as (Hflag & Hhist & Han & Hls).
  split; [reflexivity|]. split; [exact Hhist|]. split; [exact Han|].
  split; [exact Hflag|]. split; [exact Hls|].
  intros e He. exists message. split.
  - destruct message; [discriminate|discriminate].
  - rewrite (showError_shown _ _ _ e He), Htruthy. reflexivity.
Qed.

(** A call that starts a generation saw the flag clear and sets it. *)
Lemma generateImage_begin_Awaiting (cfg : Config) (inp : Inputs) (now : N)
  (g g' : ValleyImageGenerator) (prompt : jsstring) (settled : completion jsstring) :
  generateImage_begin Number_toString parseInt exceeds toDataURL cfg inp now g =
    (g', Awaiting prompt settled) ->
  isGenerating g = false /\ isGenerating g' = true.
Proof.
  unfold generateImage_begin.
  destruct (negb (truthy (readPrompt inp))); [discriminate|].
  case_decide; [discriminate|].
  destruct (isGenerating g) eqn:Hflag; [discriminate|].
  intros [= <- _ _]. split; reflexivity.
Qed.

(** While the flag is set, a call starts nothing. *)
Lemma generateImage_begin_guarded (cfg : Config) (inp : Inputs) (now : N)
  (g : ValleyImageGenerator) :
  isGenerating g = true ->
  snd (generateImage_begin Number_toString parseInt exceeds toDataURL cfg inp now g) = Returned
  /\ isGenerating (fst (generateImage_begin Number_toString parseInt exceeds toDataURL cfg inp now g)) = true
  /\ generationHistory (fst (generateImage_begin Number_toString parseInt exceeds toDataURL cfg inp now g))
     = generationHistory g
  /\ analytics (fst (generateImage_begin Number_toString parseInt exceeds toDataURL cfg inp now g))
     = analytics g
  /\ localStorage (fst (generateImage_begin Number_toString parseInt exceeds toDataURL cfg inp now g))
     = localStorage g.
Proof.
  intros Hflag. unfold generateImage_begin.
  destruct (negb (truthy (readPrompt inp)));
    [|case_decide; [|rewrite Hflag]]; cbn [fst snd];
    try (destruct (showError_frame cfg
           (lit "Please enter a prompt to generate an image.") g) as (-> & -> & -> & ->));
    try (destruct (showError_frame cfg
           (lit "Prompt is too long. Maximum length is "
            ++ Number_toString (N.of_nat (maxPromptLength cfg)) ++ lit " characters.") g)
         as (-> & -> & -> & ->));
    auto.
Qed.

(** C7, as the code has it. generateImage guards against re-entry: a
    call that starts a generation sets isGenerating, and from every
    state in which the flag is set a further call starts no generation:
    it returns at once, the flag stays set, and the history, the
    analytics and localStorage are untouched; with a valid prompt the
    whole widget is unchanged. *)
Theorem generateImage_ignores_reentry (cfg : Config) (inp0 : Inputs) (now0 : N)
  (g0 g1 : ValleyImageGenerator) (prompt0 : jsstring) (settled0 : completion jsstring) :
  generateImage_begin Number_toString parseInt exceeds toDataURL cfg inp0 now0 g0 =
    (g1, Awaiting prompt0 settled0) ->
  isGenerating g1 = true
  /\ forall (g : ValleyImageGenerator) (inp : Inputs) (now : N),
      isGenerating g = true ->
      snd (generateImage_begin Number_toString parseInt exceeds toDataURL cfg inp now g) = Returned
      /\ isGenerating (fst (generateImage_begin Number_toString parseInt exceeds toDataURL cfg inp now g))
         = true
      /\ generationHistory
           (fst (generateImage_begin Number_toString parseInt exceeds toDataURL cfg inp now g))
         = generationHistory g
      /\ analytics (fst (generateImage_begin Number_toString parseInt exceeds toDataURL cfg inp now g))
         = analytics g
      /\ localStorage (fst (generateImage_begin Number_toString parseInt exceeds toDataURL cfg inp now g))
         = localStorage g
      /\ (readPrompt inp <> [] -> length (readPrompt inp) <= maxPromptLength cfg ->
          fst (generateImage_begin Number_toString parseInt exceeds toDataURL cfg inp now g) = g).
Proof.
  intros Hstart. split; [eapply generateImage_begin_Awaiting, Hstart|].
  intros g inp now Hflag.
  destruct (generateImage_begin_guarded cfg inp now g Hflag) as (H1 & H2 & H3 & H4 & H5).
  repeat (split; [assumption|]).
  intros Hne Hlen. unfold generateImage_begin.
  rewrite truthy_length by (destruct (readPrompt inp); [congruence|simpl; lia]).
  cbn [negb]. rewrite decide_False by lia. rewrite Hflag. reflexivity.
Qed.

End Generate.

Section History.

Variable JSON_stringify_history : list HistoryItem -> jsstring.
Variable JSON_parse_history : jsstring -> completion (list HistoryItem).

Lemma addToHistory_history (cfg : Config) (now : N) (p u : jsstring)
  (g : ValleyImageGenerator) :
  generationHistory (addToHistory JSON_stringify_history cfg now p u g) =
  take (maxHistoryItems cfg)
    ({| prompt := p; imageUrl := u; style := selectedStyle g; timestamp := now |}
       :: generationHistory g).
Proof.
  unfold addToHistory. cbn [generationHistory saveGenerationHistory set_localStorage
                            set_generationHistory].
  case_decide as Hlen; [reflexivity|].
  symmetry. apply take_ge. lia.
Qed.

Lemma addToHistory_selectedStyle (cfg : Config) (now : N) (p u : jsstring)
  (g : ValleyImageGenerator) :
  selectedStyle (addToHistory JSON_stringify_history cfg now p u g) = selectedStyle g.
Proof. reflexivity. Qed.

Lemma insertItems_selectedStyle (cfg : Config) (items : list HistoryItem)
  (g : ValleyImageGenerator) :
  selectedStyle (insertItems JSON_stringify_history cfg g items) = selectedStyle g.
Proof.
  induction items as [|i items IH] using rev_ind; [reflexivity|].
  unfold insertItems in *. rewrite foldl_snoc. unfold insertItem at 1.
  rewrite addToHistory_selectedStyle. exact IH.
Qed.

Lemma insertItems_history (cfg : Config) (items : list HistoryItem)
  (g : ValleyImageGenerator) :
  length (generationHistory g) <= maxHistoryItems cfg ->
  generationHistory (insertItems JSON_stringify_history cfg g items) =
  take (maxHistoryItems cfg)
    (rev (map (entered (selectedStyle g)) items) ++ generationHistory g).
Proof.
  intros Hlen. induction items as [|i items IH] using rev_ind.
  - symmetry. apply take_ge. exact Hlen.
  - pose proof (insertItems_selectedStyle cfg items g) as Hstyle.
    unfold insertItems in *. rewrite foldl_snoc. unfold insertItem at 1.
    rewrite addToHistory_history, IH, Hstyle, take_cons_take.
    rewrite map_app, rev_app_distr. reflexivity.
Qed.

(** C4, as the code has it. The generation history is kept in the
    order opposite to the chat history: addToHistory puts every new
    item first, so the array is ordered newest first and oldest last,
    and at the cap of 10 it keeps the first 10 items, so that the items
    removed are the last ones, which are the oldest. *)
Theorem addToHistory_newest_first (now : N) (p u : jsstring) (g : ValleyImageGenerator) :
  let item := {| prompt := p; imageUrl := u; style := selectedStyle g; timestamp := now |} in
  let history :=
    generationHistory (addToHistory JSON_stringify_history IMAGE_GENERATOR_CONFIG now p u g) in
  head history = Some item
  /\ history = take 10 (item :: generationHistory g)
  /\ item :: generationHistory g = history ++ drop 10 (item :: generationHistory g)
  /\ length history <= 10.
Proof.
  cbv zeta. rewrite addToHistory_history.
  change (maxHistoryItems IMAGE_GENERATOR_CONFIG) with 10.
  split; [reflexivity|]. split; [reflexivity|]. split.
  - symmetry. apply take_drop.
  - rewrite length_take. lia.
Qed.

Lemma loadGenerationHistory_malformed (g : ValleyImageGenerator) (e : jserror)
  (savedHistory : jsstring) :
  localStorage g !! historyKey = Some savedHistory ->
  JSON_parse_history savedHistory = Throw e ->
  loadGenerationHistory JSON_parse_history g = Normal (set_generationHistory [] g).
Proof.
  intros Hsaved Hparse. unfold loadGenerationHistory. rewrite Hsaved.
  destruct (truthy savedHistory); [|reflexivity].
  rewrite Hparse. reflexivity.
Qed.

End History.

End ImageGeneratorFacts.

(** ** The image history of the function-style script *)

Module ImageHistoryFacts.
Import JS ImageHistory Facts.

Section Script.

Variable JSON_stringify : list HistoryItem -> jsstring.

Lemma insertItem_imageHistory (s : Script) (i : HistoryItem) :
  length (imageHistory s) <= maxHistory ->
  imageHistory (insertItem JSON_stringify s i) = take maxHistory (i :: imageHistory s).
Proof.
  intros Hlen. destruct i as [u p st sz t]. unfold insertItem, addToImageHistory.
  cbn [imageHistory saveImageHistory imageUrl prompt style size timestamp].
  case_decide as Hover.
  - rewrite removelast_firstn_len. f_equal. simpl in *. unfold maxHistory in *. lia.
  - symmetry. apply take_ge. lia.
Qed.

Lemma insertItems_imageHistory (items : list HistoryItem) (s : Script) :
  length (imageHistory s) <= maxHistory ->
  imageHistory (insertItems JSON_stringify s items) =
  take maxHistory (rev items ++ imageHistory s).
Proof.
  intros Hlen. induction items as [|i items IH] using rev_ind.
  - symmetry. apply take_ge. exact Hlen.
  - unfold insertItems in *. rewrite foldl_snoc, insertItem_imageHistory.
    + rewrite IH, take_cons_take, rev_app_distr. reflexivity.
    + rewrite IH, length_take. lia.
Qed.

End Script.

End ImageHistoryFacts.

(** ** The security manager *)

Module SecurityFacts.
Import JS Security.

Section Manager.

Variable toISOString : N -> jsstring.
Variable Number_toString : N -> jsstring.
Variable addLocalSeconds : N -> N -> N.

(** Passing the threshold on a request blocks the user. *)
Lemma checkRequestRate_blocks (cfg : Config) (now : N) (m : SecurityManager) :
  (maxRequestsPerMinute cfg < requestCount m)%N ->
  blockThreshold cfg <= S (length (suspiciousActivities m)) ->
  checkRequestRate toISOString Number_toString addLocalSeconds cfg now m =
  blockUser toISOString addLocalSeconds cfg now
    (logSuspiciousActivity now (lit "Excessive request rate")
       (Number_toString (requestCount m) ++ lit " requests in one minute") m).
Proof.
  intros Hrate Hthreshold. unfold checkRequestRate.
  apply N.ltb_lt in Hrate as ->.
  rewrite decide_True; [reflexivity|].
  cbn [suspiciousActivities logSuspiciousActivity]. rewrite length_app. simpl. lia.
Qed.

(** C8, on the code. blockUser sets the flag and stores the record
    with the expiry, 300 seconds ahead on the local clock, under its
    key; but the constructor and [init] never read that key, so a page
    load over the very same storage, at any time before the expiry,
    yields a manager that is not blocked and has no expiry, while the
    record is still stored. *)
Theorem block_not_restored_on_reload (token : jsstring) (now : N) (m : SecurityManager) :
  isBlocked (blockUser toISOString addLocalSeconds SECURITY_CONFIG now m) = true
  /\ blockExpiry (blockUser toISOString addLocalSeconds SECURITY_CONFIG now m) = Some (addLocalSeconds now 300)
  /\ localStorage (blockUser toISOString addLocalSeconds SECURITY_CONFIG now m) !! blockKey =
     Some (blockRecord toISOString (addLocalSeconds now 300))
  /\ isBlocked
       (pageLoad SECURITY_CONFIG token
          (localStorage (blockUser toISOString addLocalSeconds SECURITY_CONFIG now m))) = false
  /\ blockExpiry
       (pageLoad SECURITY_CONFIG token
          (localStorage (blockUser toISOString addLocalSeconds SECURITY_CONFIG now m))) = None
  /\ localStorage
       (pageLoad SECURITY_CONFIG token
          (localStorage (blockUser toISOString addLocalSeconds SECURITY_CONFIG now m))) !! blockKey =
     Some (blockRecord toISOString (addLocalSeconds now 300)).
Proof.
  assert (Hstored : localStorage (blockUser toISOString addLocalSeconds SECURITY_CONFIG now m) !! blockKey =
                    Some (blockRecord toISOString (addLocalSeconds now 300))).
  { cbn [localStorage blockUser]. rewrite lookup_insert_eq. reflexivity. }
  split; [reflexivity|]. split; [reflexivity|]. split; [exact Hstored|].
  split; [reflexivity|]. split; [reflexivity|]. exact Hstored.
Qed.

End Manager.

End SecurityFacts.

(** ** The histories: caps and loading *)

Module HistoryFacts.
Import JS Facts.

(** C3. Starting from histories within their caps (the empty ones of a
    first visit, or what these functions stored before), after every
    sequence of insertions the chat history has at most 50 messages and
    the image-generation histories at most 10 items, and what is kept
    is the newest part: the chat history is the last 50 of the messages
    in order of insertion, the generation histories are the 10 most
    recent items, newest first; the items dropped are the oldest. *)
Theorem histories_capped_oldest_evicted
  (JSON_chat : list Chatbot.ChatMessage -> jsstring)
  (JSON_generated : list ImageGenerator.HistoryItem -> jsstring)
  (JSON_images : list ImageHistory.HistoryItem -> jsstring)
  (bot : Chatbot.ValleyBot) (g : ImageGenerator.ValleyImageGenerator)
  (s : ImageHistory.Script)
  (messages : list Chatbot.ChatMessage) (items : list ImageGenerator.HistoryItem)
  (images : list ImageHistory.HistoryItem) :
  length (Chatbot.chatHistory bot) <= 50 ->
  length (ImageGenerator.generationHistory g) <= 10 ->
  length (ImageHistory.imageHistory s) <= 10 ->
  (length (Chatbot.chatHistory
             (Chatbot.insertMessages JSON_chat Chatbot.CHATBOT_CONFIG bot messages)) <= 50
   /\ Chatbot.chatHistory
        (Chatbot.insertMessages JSON_chat Chatbot.CHATBOT_CONFIG bot messages) =
      keep_last 50 (Chatbot.chatHistory bot ++ messages))
  /\ (length (ImageGenerator.generationHistory
                (ImageGenerator.insertItems JSON_generated
                   ImageGenerator.IMAGE_GENERATOR_CONFIG g items)) <= 10
      /\ ImageGenerator.generationHistory
           (ImageGenerator.insertItems JSON_generated
              ImageGenerator.IMAGE_GENERATOR_CONFIG g items) =
         take 10 (rev (map (ImageGenerator.entered (ImageGenerator.selectedStyle g)) items)
                  ++ ImageGenerator.generationHistory g))
  /\ (length (ImageHistory.imageHistory (ImageHistory.insertItems JSON_images s images)) <= 10
      /\ ImageHistory.imageHistory (ImageHistory.insertItems JSON_images s images) =
         take 10 (rev images ++ ImageHistory.imageHistory s)).
Proof.
  intros Hchat Hgenerated Himages.
  rewrite (ChatbotFacts.insertMessages_history JSON_chat Chatbot.CHATBOT_CONFIG)
    by (cbn; lia).
  rewrite (ImageGeneratorFacts.insertItems_history JSON_generated
             ImageGenerator.IMAGE_GENERATOR_CONFIG) by exact Hgenerated.
  rewrite (ImageHistoryFacts.insertItems_imageHistory JSON_images) by exact Himages.
  change (Chatbot.maxHistoryItems Chatbot.CHATBOT_CONFIG) with 50.
  change (ImageGenerator.maxHistoryItems ImageGenerator.IMAGE_GENERATOR_CONFIG) with 10.
  change ImageHistory.maxHistory with 10.
  split; [split; [apply keep_last_length|reflexivity]|].
  split; (split; [rewrite length_take; lia|reflexivity]).
Qed.

Lemma loadAnalytics_total
  (JSON_parse_analytics : jsstring -> completion ImageGenerator.Analytics)
  (cfg : ImageGenerator.Config) (now : N) (g : ImageGenerator.ValleyImageGenerator) :
  exists g',
    ImageGenerator.loadAnalytics JSON_parse_analytics cfg now g = Normal g'
    /\ ImageGenerator.generationHistory g' = ImageGenerator.generationHistory g.
Proof.
  unfold ImageGenerator.loadAnalytics.
  destruct (negb (ImageGenerator.analytics_enabled cfg)); [eauto|].
  destruct (ImageGenerator.localStorage g !! ImageGenerator.storageKey cfg) as [saved|];
    [|eauto].
  destruct (truthy saved); [|eauto].
  destruct (JSON_parse_analytics saved); cbn; eauto.
Qed.

(** C5. When the text stored under the chat-history key, or under the
    image-history key, is not valid JSON, so that JSON.parse throws on
    it, the load function of that key returns normally and the history
    in memory is the empty list: for loadGenerationHistory from every
    state; for loadChatHistory from every state whose history is empty,
    as it is when the constructor, its only caller, runs it, or
    whenever the stored text is not the empty string. So each
    constructor yields an empty history. *)
Theorem malformed_history_loads_empty
  (JSON_parse_chat : jsstring -> completion (list Chatbot.ChatMessage))
  (JSON_parse_generated : jsstring -> completion (list ImageGenerator.HistoryItem))
  (JSON_parse_analytics : jsstring -> completion ImageGenerator.Analytics) :
  (forall (storage : gmap jsstring jsstring) (saved : jsstring) (e : jserror),
     storage !! Chatbot.historyKey = Some saved ->
     JSON_parse_chat saved = Throw e ->
     (forall bot0,
        Chatbot.localStorage bot0 = storage ->
        Chatbot.chatHistory bot0 = [] \/ saved <> [] ->
        exists bot,
          Chatbot.loadChatHistory JSON_parse_chat bot0 = Normal bot
          /\ Chatbot.chatHistory bot = [])
     /\ (exists bot,
           Chatbot.new_ValleyBot JSON_parse_chat storage = Normal bot
           /\ Chatbot.chatHistory bot = []))
  /\ (forall (storage : gmap jsstring jsstring) (saved : jsstring) (e : jserror) (now : N),
        storage !! ImageGenerator.historyKey = Some saved ->
        JSON_parse_generated saved = Throw e ->
        (forall g0,
           ImageGenerator.localStorage g0 = storage ->
           exists g,
             ImageGenerator.loadGenerationHistory JSON_parse_generated g0 = Normal g
             /\ ImageGenerator.generationHistory g = [])
        /\ (exists g,
              ImageGenerator.new_ValleyImageGenerator JSON_parse_generated
                JSON_parse_analytics ImageGenerator.IMAGE_GENERATOR_CONFIG now storage =
                Normal g
              /\ ImageGenerator.generationHistory g = [])).
Proof.
  split.
  - intros storage saved e Hsaved Hparse.
    assert (Hload : forall bot0,
              Chatbot.localStorage bot0 = storage ->
              Chatbot.chatHistory bot0 = [] \/ saved <> [] ->
              exists bot,
                Chatbot.loadChatHistory JSON_parse_chat bot0 = Normal bot
                /\ Chatbot.chatHistory bot = []).
    { intros bot0 Hstorage Hcase. unfold Chatbot.loadChatHistory.
      rewrite Hstorage, Hsaved. destruct saved as [|c rest]; cbn [truthy].
      - destruct Hcase as [Hempty|Hne]; [eauto|congruence].
      - rewrite Hparse. cbn. eauto. }
    split; [exact Hload|]. apply Hload; [reflexivity|left; reflexivity].
  - intros storage saved e now Hsaved Hparse.
    assert (Hload : forall g0,
              ImageGenerator.localStorage g0 = storage ->
              exists g,
                ImageGenerator.loadGenerationHistory JSON_parse_generated g0 = Normal g
                /\ ImageGenerator.generationHistory g = []).
    { intros g0 Hstorage. eexists. split.
      - eapply ImageGeneratorFacts.loadGenerationHistory_malformed; [|eassumption].
        rewrite Hstorage. exact Hsaved.
      - reflexivity. }
    split; [exact Hload|].
    unfold ImageGenerator.new_ValleyImageGenerator.
    destruct (Hload (ImageGenerator.initialState
                       ImageGenerator.IMAGE_GENERATOR_CONFIG now storage) eq_refl)
      as (g1 & -> & Hempty).
    cbn [mbind completion_bind ImageGenerator.analytics_enabled
         ImageGenerator.IMAGE_GENERATOR_CONFIG].
    destruct (loadAnalytics_total JSON_parse_analytics
                ImageGenerator.IMAGE_GENERATOR_CONFIG now g1) as (g2 & -> & Hsame).
    exists g2. split; [reflexivity|]. rewrite Hsame. exact Hempty.
Qed.

End HistoryFacts.

(** ** The properties on sample pages *)

Module Examples.
Import JS.

(** The specification's example: the reply to hello is the greeting
    paired with that keyword, not the default reply. *)
Example hello_gets_the_greeting :
  Chatbot.scanEntries (lit "hello") Chatbot.enhancedResponses =
    snd <$> head Chatbot.enhancedResponses
  /\ Chatbot.getEnhancedResponse asciiLower (lit "Hello") <> Chatbot.enhancedDefault.
Proof. split; [vm_compute; reflexivity|vm_compute; discriminate]. Qed.

(** 52 messages and 12 images on a first visit: the caps are reached
    and the oldest entries go. *)
Lemma histories_capped_witness :
  (length (Chatbot.chatHistory
             (Chatbot.insertMessages Sample.stringify Chatbot.CHATBOT_CONFIG
                (Chatbot.initialState ∅) (Sample.messages 52))) <= 50
   /\ Chatbot.chatHistory
        (Chatbot.insertMessages Sample.stringify Chatbot.CHATBOT_CONFIG
           (Chatbot.initialState ∅) (Sample.messages 52)) =
      keep_last 50 (Chatbot.chatHistory (Chatbot.initialState ∅) ++ Sample.messages 52))
  /\ (length (ImageGenerator.generationHistory
                (ImageGenerator.insertItems Sample.stringify
                   ImageGenerator.IMAGE_GENERATOR_CONFIG Sample.generator
                   (Sample.requests 12))) <= 10
      /\ ImageGenerator.generationHistory
           (ImageGenerator.insertItems Sample.stringify
              ImageGenerator.IMAGE_GENERATOR_CONFIG Sample.generator (Sample.requests 12)) =
         take 10 (rev (map (ImageGenerator.entered
                              (ImageGenerator.selectedStyle Sample.generator))
                         (Sample.requests 12))
                  ++ ImageGenerator.generationHistory Sample.generator))
  /\ (length (ImageHistory.imageHistory
                (ImageHistory.insertItems Sample.stringify
                   {| ImageHistory.imageHistory := []; ImageHistory.localStorage := ∅ |}
                   (Sample.images 12))) <= 10
      /\ ImageHistory.imageHistory
           (ImageHistory.insertItems Sample.stringify
              {| ImageHistory.imageHistory := []; ImageHistory.localStorage := ∅ |}
              (Sample.images 12)) =
         take 10 (rev (Sample.images 12)
                  ++ ImageHistory.imageHistory
                       {| ImageHistory.imageHistory := [];
                          ImageHistory.localStorage := ∅ |})).
Proof.
  apply (HistoryFacts.histories_capped_oldest_evicted
           Sample.stringify Sample.stringify Sample.stringify
           (Chatbot.initialState ∅) Sample.generator
           {| ImageHistory.imageHistory := []; ImageHistory.localStorage := ∅ |}
           (Sample.messages 52) (Sample.requests 12) (Sample.images 12));
    simpl; lia.
Defined.

(** Both history keys hold text that is not JSON. *)
Lemma malformed_history_witness :
  ((forall bot0,
      Chatbot.localStorage bot0 = Sample.brokenStorage ->
      Chatbot.chatHistory bot0 = [] \/ Sample.malformed <> [] ->
      exists bot,
        Chatbot.loadChatHistory Sample.parse bot0 = Normal bot
        /\ Chatbot.chatHistory bot = [])
   /\ (exists bot,
         Chatbot.new_ValleyBot Sample.parse Sample.brokenStorage = Normal bot
         /\ Chatbot.chatHistory bot = []))
  /\ ((forall g0,
         ImageGenerator.localStorage g0 = Sample.brokenStorage ->
         exists g,
           ImageGenerator.loadGenerationHistory Sample.parse g0 = Normal g
           /\ ImageGenerator.generationHistory g = [])
      /\ (exists g,
            ImageGenerator.new_ValleyImageGenerator Sample.parse Sample.parse
              ImageGenerator.IMAGE_GENERATOR_CONFIG 0 Sample.brokenStorage = Normal g
            /\ ImageGenerator.generationHistory g = [])).
Proof.
  destruct (HistoryFacts.malformed_history_loads_empty
              Sample.parse Sample.parse Sample.parse) as [Hchat Hgenerated].
  split.
  - apply (Hchat Sample.brokenStorage Sample.malformed SyntaxError); reflexivity.
  - apply (Hgenerated Sample.brokenStorage Sample.malformed SyntaxError 0%N); reflexivity.
Defined.

(** A lone surrogate typed as the prompt: the generation is started,
    the awaited promise is rejected, and the widget ends with the
    failure message and an empty history. *)
Example lone_surrogate_generation_fails :
  ImageGenerator.generateImage_begin decimal Sample.parseInt Sample.exceeds Sample.toDataURL
    ImageGenerator.IMAGE_GENERATOR_CONFIG (Sample.typed [55357%N]) 5 Sample.generator =
  (ImageGenerator.set_isGenerating true
     (ImageGenerator.set_loadingIndicator (Some (lit "flex")) Sample.generator),
   ImageGenerator.Awaiting [55357%N]
     (Throw (Error (lit "All image generation endpoints failed"))))
  /\ ImageGenerator.errorMessage
       (ImageGenerator.generateImage_resume asciiLower Sample.stringify Sample.stringify
          ImageGenerator.IMAGE_GENERATOR_CONFIG 6 [55357%N]
          (Throw (Error (lit "All image generation endpoints failed")))
          (ImageGenerator.set_isGenerating true
             (ImageGenerator.set_loadingIndicator (Some (lit "flex")) Sample.generator))) =
     Some {| ImageGenerator.error_display := lit "block";
             ImageGenerator.textContent :=
               lit "Failed to generate image. Please try again." |}
  /\ ImageGenerator.generationHistory
       (ImageGenerator.generateImage_resume asciiLower Sample.stringify Sample.stringify
          ImageGenerator.IMAGE_GENERATOR_CONFIG 6 [55357%N]
          (Throw (Error (lit "All image generation endpoints failed")))
          (ImageGenerator.set_isGenerating true
             (ImageGenerator.set_loadingIndicator (Some (lit "flex")) Sample.generator))) = [].
Proof. split; [|split]; vm_compute; reflexivity. Qed.


(** The 61st request with 9 activities logged blocks the user for 300
    seconds; a page load one second later is not blocked. *)
Example threshold_blocks_then_reload_forgets :
  Security.isBlocked
    (Security.onRequest Sample.toISOString decimal Sample.addLocalSeconds Security.SECURITY_CONFIG 1000
       Sample.suspect) = true
  /\ Security.blockExpiry
       (Security.onRequest Sample.toISOString decimal Sample.addLocalSeconds Security.SECURITY_CONFIG 1000
          Sample.suspect) = Some 301000%N
  /\ Security.isBlocked
       (Security.pageLoad Security.SECURITY_CONFIG (lit "01")
          (Security.localStorage
             (Security.onRequest Sample.toISOString decimal Sample.addLocalSeconds Security.SECURITY_CONFIG 1000
                Sample.suspect))) = false.
Proof. split; [|split]; vm_compute; reflexivity. Qed.

(** The prompt [a cat] at 512 by 512. *)
Lemma pollinations_url_witness :
  ImageGenerator.fetchGeneratedImage decimal Sample.exceeds Sample.toDataURL
    ImageGenerator.IMAGE_GENERATOR_CONFIG (lit "a cat") []
    {| ImageGenerator.width := 512; ImageGenerator.height := 512 |} 1700000000000 =
  Normal (lit "https://image.pollinations.ai/prompt/" ++ lit "a%20cat"
          ++ lit "?width=" ++ decimal 512
          ++ lit "&height=" ++ decimal 512
          ++ lit "&nologo=true" ++ lit "&t=" ++ decimal 1700000000000).
Proof.
  apply (ImageGeneratorFacts.pollinations_url_format decimal Sample.exceeds Sample.toDataURL
           (lit "a cat") (lit "a%20cat") [] 512 512 1700000000000);
    reflexivity.
Defined.

(** An input of three spaces. *)
Lemma rejects_blank_prompt_witness :
  snd (ImageGenerator.generateImage_begin decimal Sample.parseInt Sample.exceeds Sample.toDataURL
         ImageGenerator.IMAGE_GENERATOR_CONFIG (Sample.typed (lit "   ")) 0 Sample.generator)
    = ImageGenerator.Returned
  /\ ImageGenerator.generationHistory
       (fst (ImageGenerator.generateImage_begin decimal Sample.parseInt Sample.exceeds
               Sample.toDataURL ImageGenerator.IMAGE_GENERATOR_CONFIG
               (Sample.typed (lit "   ")) 0 Sample.generator))
     = ImageGenerator.generationHistory Sample.generator
  /\ ImageGenerator.analytics
       (fst (ImageGenerator.generateImage_begin decimal Sample.parseInt Sample.exceeds
               Sample.toDataURL ImageGenerator.IMAGE_GENERATOR_CONFIG
               (Sample.typed (lit "   ")) 0 Sample.generator))
     = ImageGenerator.analytics Sample.generator
  /\ ImageGenerator.isGenerating
       (fst (ImageGenerator.generateImage_begin decimal Sample.parseInt Sample.exceeds
               Sample.toDataURL ImageGenerator.IMAGE_GENERATOR_CONFIG
               (Sample.typed (lit "   ")) 0 Sample.generator))
     = ImageGenerator.isGenerating Sample.generator
  /\ ImageGenerator.localStorage
       (fst (ImageGenerator.generateImage_begin decimal Sample.parseInt Sample.exceeds
               Sample.toDataURL ImageGenerator.IMAGE_GENERATOR_CONFIG
               (Sample.typed (lit "   ")) 0 Sample.generator))
     = ImageGenerator.localStorage Sample.generator
  /\ (forall e, ImageGenerator.errorMessage Sample.generator = Some e ->
      exists message,
        message <> []
        /\ ImageGenerator.errorMessage
             (fst (ImageGenerator.generateImage_begin decimal Sample.parseInt Sample.exceeds
                     Sample.toDataURL ImageGenerator.IMAGE_GENERATOR_CONFIG
                     (Sample.typed (lit "   ")) 0 Sample.generator))
           = Some {| ImageGenerator.error_display := lit "block";
                     ImageGenerator.textContent := message |}).
Proof.
  apply (ImageGeneratorFacts.generateImage_rejects_invalid_prompt
           decimal Sample.parseInt Sample.exceeds Sample.toDataURL
           (Sample.typed (lit "   ")) 0 Sample.generator).
  left. reflexivity.
Defined.

(** A first call with the prompt [a cat], then any further call. *)
Lemma ignores_reentry_witness :
  ImageGenerator.isGenerating
    (fst (ImageGenerator.generateImage_begin decimal Sample.parseInt Sample.exceeds Sample.toDataURL
            ImageGenerator.IMAGE_GENERATOR_CONFIG (Sample.typed (lit "a cat")) 5
            Sample.generator)) = true
  /\ forall (g : ImageGenerator.ValleyImageGenerator) (inp : ImageGenerator.Inputs) (now : N),
      ImageGenerator.isGenerating g = true ->
      snd (ImageGenerator.generateImage_begin decimal Sample.parseInt Sample.exceeds
             Sample.toDataURL ImageGenerator.IMAGE_GENERATOR_CONFIG inp now g)
        = ImageGenerator.Returned
      /\ ImageGenerator.isGenerating
           (fst (ImageGenerator.generateImage_begin decimal Sample.parseInt Sample.exceeds
                   Sample.toDataURL ImageGenerator.IMAGE_GENERATOR_CONFIG inp now g))
         = true
      /\ ImageGenerator.generationHistory
           (fst (ImageGenerator.generateImage_begin decimal Sample.parseInt Sample.exceeds
                   Sample.toDataURL ImageGenerator.IMAGE_GENERATOR_CONFIG inp now g))
         = ImageGenerator.generationHistory g
      /\ ImageGenerator.analytics
           (fst (ImageGenerator.generateImage_begin decimal Sample.parseInt Sample.exceeds
                   Sample.toDataURL ImageGenerator.IMAGE_GENERATOR_CONFIG inp now g))
         = ImageGenerator.analytics g
      /\ ImageGenerator.localStorage
           (fst (ImageGenerator.generateImage_begin decimal Sample.parseInt Sample.exceeds
                   Sample.toDataURL ImageGenerator.IMAGE_GENERATOR_CONFIG inp now g))
         = ImageGenerator.localStorage g
      /\ (ImageGenerator.readPrompt inp <> [] ->
          length (ImageGenerator.readPrompt inp) <=
            ImageGenerator.maxPromptLength ImageGenerator.IMAGE_GENERATOR_CONFIG ->
          fst (ImageGenerator.generateImage_begin decimal Sample.parseInt Sample.exceeds
                 Sample.toDataURL ImageGenerator.IMAGE_GENERATOR_CONFIG inp now g) = g).
Proof.
  apply (ImageGeneratorFacts.generateImage_ignores_reentry
           decimal Sample.parseInt Sample.exceeds Sample.toDataURL
           ImageGenerator.IMAGE_GENERATOR_CONFIG (Sample.typed (lit "a cat")) 5
           Sample.generator
           (fst (ImageGenerator.generateImage_begin decimal Sample.parseInt Sample.exceeds
                   Sample.toDataURL ImageGenerator.IMAGE_GENERATOR_CONFIG
                   (Sample.typed (lit "a cat")) 5 Sample.generator))
           (lit "a cat")
           (Normal (lit "https://image.pollinations.ai/prompt/Valleytainment%20style%2C%20high%20quality%2C%20detailed%2C%20a%20cat%2C%20neon%20lights%2C%20urban%20aesthetic%2C%20vibrant%20colors%2C%20city%20nightlife%2C%20cyberpunk%20influence?width=512&height=512&nologo=true&t=5"))).
  vm_compute. reflexivity.
Defined.

(** C7 as stated fails: there is no state, left pending by a call that
    started a generation, from which a second call starts another. *)
Lemma no_second_generation_while_pending :
  ~ exists (Number_toString : N -> jsstring) (parseInt : jsstring -> option Z) (exceeds : jsstring -> Z -> bool)
      (toDataURL : ImageGenerator.Dimensions -> list jsstring -> jsstring)
      (cfg : ImageGenerator.Config) (inp0 inp : ImageGenerator.Inputs) (now0 now : N)
      (g0 g1 g2 : ImageGenerator.ValleyImageGenerator) (prompt0 prompt : jsstring)
      (settled0 settled : completion jsstring),
      ImageGenerator.generateImage_begin Number_toString parseInt exceeds toDataURL cfg inp0 now0 g0 =
        (g1, ImageGenerator.Awaiting prompt0 settled0)
      /\ ImageGenerator.generateImage_begin Number_toString parseInt exceeds toDataURL cfg inp now g1 =
        (g2, ImageGenerator.Awaiting prompt settled).
Proof.
  intros (Number_toString & parseInt & exceeds & toDataURL & cfg & inp0 & inp & now0 & now & g0 & g1 & g2
          & prompt0 & prompt & settled0 & settled & Hfirst & Hsecond).
  apply ImageGeneratorFacts.generateImage_begin_Awaiting in Hfirst as [_ Hset].
  apply ImageGeneratorFacts.generateImage_begin_Awaiting in Hsecond as [Hclear _].
  congruence.
Qed.

(** C4 as stated fails: after [older], the item [newer] is stored
    first, and the last item of the array is still [older]. *)
Lemma newest_item_is_stored_first :
  ImageGenerator.generationHistory
    (ImageGenerator.addToHistory Sample.stringify ImageGenerator.IMAGE_GENERATOR_CONFIG 2
       (lit "second") (lit "https://image.pollinations.ai/prompt/second")
       (ImageGenerator.set_generationHistory [Sample.older] Sample.generator))
    = [Sample.newer; Sample.older]
  /\ last (ImageGenerator.generationHistory
             (ImageGenerator.addToHistory Sample.stringify
                ImageGenerator.IMAGE_GENERATOR_CONFIG 2
                (lit "second") (lit "https://image.pollinations.ai/prompt/second")
                (ImageGenerator.set_generationHistory [Sample.older] Sample.generator)))
     <> Some Sample.newer.
Proof.
  split; [vm_compute; reflexivity|]. vm_compute. intros H. discriminate H.
Qed.

End Examples.

(** * Further properties of the code *)

(** ** URL encoding and the image generator *)

Module EncodingFacts.
Import JS Text Facts.

(** Induction over strings that may step over one code unit or two. *)
Lemma pair_induction (P : jsstring -> Prop) :
  P [] ->
  (forall c, P [c]) ->
  (forall c d r, P r -> P (d :: r) -> P (c :: d :: r)) ->
  forall s, P s.
Proof.
  intros Hnil Hone Hstep s.
  assert (H : P s /\ forall c, P (c :: s)); [|tauto].
  induction s as [|d r [IH1 IH2]]; [auto|].
  split; [apply IH2|]. intros c. apply Hstep; auto.
Qed.

Lemma unescaped_not_surrogate (c : N) :
  isUnescaped c = true -> isLeadSurrogate c = false /\ isTrailSurrogate c = false.
Proof.
  unfold isUnescaped, isLeadSurrogate, isTrailSurrogate. intros H.
  repeat match type of H with
         | (_ || _)%bool = true => apply orb_true_iff in H as [H|H]
         | (_ && _)%bool = true => apply andb_true_iff in H as [? H]
         end;
    repeat match goal with
           | K : (_ <=? _)%N = true |- _ => apply N.leb_le in K
           | K : (_ =? _)%N = true |- _ => apply N.eqb_eq in K
           end;
    split; apply andb_false_iff; rewrite !N.leb_gt; lia.
Qed.

Lemma lead_not_trail (c : N) : isLeadSurrogate c = true -> isTrailSurrogate c = false.
Proof.
  unfold isLeadSurrogate, isTrailSurrogate. intros H.
  apply andb_true_iff in H as [H1 H2]. apply N.leb_le in H1, H2.
  apply andb_false_iff. rewrite !N.leb_gt. lia.
Qed.

(** encodeURIComponent returns exactly on well-formed strings. *)
Lemma encodeURIComponent_wellFormed (s : jsstring) :
  (isWellFormed s = true -> exists encoded, encodeURIComponent s = Normal encoded)
  /\ (isWellFormed s = false -> encodeURIComponent s = Throw URIError).
Proof.
  induction s as [|c|c d r [IHr1 IHr2] [IHd1 IHd2]] using pair_induction.
  - split; [eauto|discriminate].
  - cbn. destruct (isUnescaped c) eqn:Hu.
    + destruct (unescaped_not_surrogate c Hu) as [-> ->]. cbn. split; [eauto|discriminate].
    + destruct (isLeadSurrogate c) eqn:Hl; [split; [discriminate|reflexivity]|].
      destruct (isTrailSurrogate c); cbn; split; eauto; discriminate.
  - change (encodeURIComponent (c :: d :: r)) with
      (if isUnescaped c then rest ← encodeURIComponent (d :: r); Normal (c :: rest)
       else if isLeadSurrogate c then
         if isTrailSurrogate d then
           rest ← encodeURIComponent r;
           Normal (escape_octets
                     (utf8_octets (65536 + (c - 55296) * 1024 + (d - 56320))%N) ++ rest)
         else Throw URIError
       else if isTrailSurrogate c then Throw URIError
       else rest ← encodeURIComponent (d :: r);
            Normal (escape_octets (utf8_octets c) ++ rest)).
    change (isWellFormed (c :: d :: r)) with
      (if isLeadSurrogate c then isTrailSurrogate d && isWellFormed r
       else negb (isTrailSurrogate c) && isWellFormed (d :: r)).
    destruct (isUnescaped c) eqn:Hu.
    + destruct (unescaped_not_surrogate c Hu) as [-> ->]. cbn [negb andb].
      split; intros H.
      * destruct (IHd1 H) as [rest ->]. cbn. eauto.
      * rewrite (IHd2 H). reflexivity.
    + destruct (isLeadSurrogate c) eqn:Hl.
      * destruct (isTrailSurrogate d); cbn [andb]; [|split; [discriminate|reflexivity]].
        split; intros H.
        -- destruct (IHr1 H) as [rest ->]. cbn. eauto.
        -- rewrite (IHr2 H). reflexivity.
      * destruct (isTrailSurrogate c); cbn [negb andb]; [split; [discriminate|reflexivity]|].
        split; intros H.
        -- destruct (IHd1 H) as [rest ->]. cbn. eauto.
        -- rewrite (IHd2 H). reflexivity.
Qed.

Lemma unescaped_not_delimiter (c : N) : isUnescaped c = true -> isDelimiter c = false.
Proof.
  unfold isUnescaped, isDelimiter. intros H.
  repeat match type of H with
         | (_ || _)%bool = true => apply orb_true_iff in H as [H|H]
         | (_ && _)%bool = true => apply andb_true_iff in H as [? H]
         end;
    repeat match goal with
           | K : (_ <=? _)%N = true |- _ => apply N.leb_le in K
           | K : (_ =? _)%N = true |- _ => apply N.eqb_eq in K
           end;
    repeat (apply orb_false_iff; split); apply N.eqb_neq; lia.
Qed.

Lemma hexDigit_not_delimiter (d : N) : isDelimiter (hexDigit d) = false.
Proof.
  unfold hexDigit, isDelimiter. destruct (d <? 10)%N eqn:Hd.
  - apply N.ltb_lt in Hd. repeat (apply orb_false_iff; split); apply N.eqb_neq; lia.
  - apply N.ltb_ge in Hd. repeat (apply orb_false_iff; split); apply N.eqb_neq; lia.
Qed.

Lemma escape_octets_not_delimiter (octets : list N) :
  forallb (fun c => negb (isDelimiter c)) (escape_octets octets) = true.
Proof.
  unfold escape_octets. induction octets as [|o octets IH]; [reflexivity|].
  cbn [map concat percent app forallb]. rewrite !hexDigit_not_delimiter, IH. reflexivity.
Qed.

(** An encoded string holds no URL delimiter. *)
Lemma encodeURIComponent_no_delimiter (s encoded : jsstring) :
  encodeURIComponent s = Normal encoded ->
  forallb (fun c => negb (isDelimiter c)) encoded = true.
Proof.
  revert encoded.
  induction s as [|c|c d r IHr IHd] using pair_induction; intros encoded.
  - intros [= <-]. reflexivity.
  - cbn. destruct (isUnescaped c) eqn:Hu.
    + intros [= <-]. cbn. rewrite (unescaped_not_delimiter c Hu). reflexivity.
    + destruct (isLeadSurrogate c); [discriminate|].
      destruct (isTrailSurrogate c); [discriminate|]. intros [= <-].
      rewrite app_nil_r. apply escape_octets_not_delimiter.
  - change (encodeURIComponent (c :: d :: r)) with
      (if isUnescaped c then rest ← encodeURIComponent (d :: r); Normal (c :: rest)
       else if isLeadSurrogate c then
         if isTrailSurrogate d then
           rest ← encodeURIComponent r;
           Normal (escape_octets
                     (utf8_octets (65536 + (c - 55296) * 1024 + (d - 56320))%N) ++ rest)
         else Throw URIError
       else if isTrailSurrogate c then Throw URIError
       else rest ← encodeURIComponent (d :: r);
            Normal (escape_octets (utf8_octets c) ++ rest)).
    destruct (isUnescaped c) eqn:Hu.
    + destruct (encodeURIComponent (d :: r)) as [rest|]; [|discriminate].
      intros [= <-]. cbn [forallb]. rewrite (unescaped_not_delimiter c Hu), (IHd rest eq_refl).
      reflexivity.
    + destruct (isLeadSurrogate c).
      * destruct (isTrailSurrogate d); [|discriminate].
        destruct (encodeURIComponent r) as [rest|]; [|discriminate].
        intros [= <-]. rewrite forallb_app, escape_octets_not_delimiter, (IHr rest eq_refl).
        reflexivity.
      * destruct (isTrailSurrogate c); [discriminate|].
        destruct (encodeURIComponent (d :: r)) as [rest|]; [|discriminate].
        intros [= <-]. rewrite forallb_app, escape_octets_not_delimiter, (IHd rest eq_refl).
        reflexivity.
Qed.

Lemma startsWith_unit (s : jsstring) (c : N) :
  startsWith s [c] = match s with x :: _ => (c =? x)%N | [] => false end.
Proof. destruct s as [|x [|y s]]; cbn; [reflexivity| |]; apply andb_true_r. Qed.

(** A string none of whose units is [c] does not include [c]. *)
Lemma includes_unit_absent (s : jsstring) (c : N) :
  forallb (fun x => negb (c =? x)%N) s = true -> includes s [c] = false.
Proof.
  induction s as [|x s IH]; [reflexivity|]. cbn [forallb]. intros H.
  apply andb_true_iff in H as [Hx Hs].
  change (includes (x :: s) [c]) with (startsWith (x :: s) [c] || includes s [c]).
  rewrite startsWith_unit, (IH Hs). apply negb_true_iff in Hx. rewrite Hx. reflexivity.
Qed.

Lemma no_delimiter_no_question (s : jsstring) :
  forallb (fun c => negb (isDelimiter c)) s = true ->
  forallb (fun x => negb (63 =? x)%N) s = true.
Proof.
  induction s as [|x s IH]; [reflexivity|]. cbn [forallb]. intros H.
  apply andb_true_iff in H as [Hx Hs]. rewrite (IH Hs), andb_true_r.
  apply negb_true_iff in Hx. unfold isDelimiter in Hx.
  repeat (apply orb_false_iff in Hx as [Hx ?]).
  apply negb_true_iff. rewrite N.eqb_sym. assumption.
Qed.

Lemma isWellFormed_app (a b : jsstring) :
  isWellFormed a = true -> isWellFormed b = true -> isWellFormed (a ++ b) = true.
Proof.
  intros Ha Hb. induction a as [|c|c d r IHr IHd] using pair_induction.
  - exact Hb.
  - cbn in Ha. cbn [app]. destruct b as [|x b].
    + cbn. exact Ha.
    + change (isWellFormed (c :: x :: b)) with
        (if isLeadSurrogate c then isTrailSurrogate x && isWellFormed b
         else negb (isTrailSurrogate c) && isWellFormed (x :: b)).
      destruct (isLeadSurrogate c); [discriminate|]. rewrite Hb.
      rewrite andb_true_r in Ha |- *. exact Ha.
  - change (isWellFormed (c :: d :: r)) with
      (if isLeadSurrogate c then isTrailSurrogate d && isWellFormed r
       else negb (isTrailSurrogate c) && isWellFormed (d :: r)) in Ha.
    change (isWellFormed ((c :: d :: r) ++ b)) with
      (if isLeadSurrogate c then isTrailSurrogate d && isWellFormed (r ++ b)
       else negb (isTrailSurrogate c) && isWellFormed ((d :: r) ++ b)).
    destruct (isLeadSurrogate c).
    + apply andb_true_iff in Ha as [-> Hr]. rewrite (IHr Hr). reflexivity.
    + apply andb_true_iff in Ha as [-> Hd]. rewrite (IHd Hd). reflexivity.
Qed.

End EncodingFacts.

Module GenerationFacts.
Import JS Text Facts ImageGenerator ImageGeneratorMore EncodingFacts.

Section Fetch.

Variable Number_toString : N -> jsstring.
Variable exceeds : jsstring -> Z -> bool.
Variable toDataURL : Dimensions -> list jsstring -> jsstring.

Lemma pollinationsUrl_returns (endpoint : Endpoint) (prompt encoded : jsstring)
  (dimensions : Dimensions) (now : N) :
  encodeURIComponent prompt = Normal encoded ->
  exists url, pollinationsUrl Number_toString endpoint prompt dimensions now = Normal url.
Proof. intros Henc. unfold pollinationsUrl. rewrite Henc. cbn. eauto. Qed.

Lemma fetchGeneratedImage_wellFormed (prompt negativePrompt : jsstring)
  (dimensions : Dimensions) (now : N) :
  isWellFormed prompt = true ->
  exists url,
    fetchGeneratedImage Number_toString exceeds toDataURL IMAGE_GENERATOR_CONFIG
      prompt negativePrompt dimensions now = Normal url.
Proof.
  intros H. destruct (encodeURIComponent_wellFormed prompt) as [Hwf _].
  destruct (Hwf H) as [encoded Henc].
  unfold fetchGeneratedImage. rewrite ImageGeneratorFacts.sorted_endpoints.
  cbn [endpoints IMAGE_GENERATOR_CONFIG tryEndpoints]. unfold tryEndpoint at 1.
  cbn [name]. rewrite bool_decide_eq_true_2 by reflexivity.
  match goal with
  | |- context [pollinationsUrl _ ?e _ _ _] =>
    destruct (pollinationsUrl_returns e prompt encoded dimensions now Henc) as [url ->]
  end.
  cbn. eauto.
Qed.

Lemma fetchGeneratedImage_illFormed (prompt negativePrompt : jsstring)
  (dimensions : Dimensions) (now : N) :
  isWellFormed prompt = false ->
  fetchGeneratedImage Number_toString exceeds toDataURL IMAGE_GENERATOR_CONFIG
    prompt negativePrompt dimensions now =
  Throw (Error (lit "All image generation endpoints failed")).
Proof.
  intros H. destruct (encodeURIComponent_wellFormed prompt) as [_ Hill].
  eapply ImageGeneratorFacts.fetchGeneratedImage_unencodable, Hill, H.
Qed.

(** X1. With the shipped configuration fetchGeneratedImage resolves to
    a URL exactly when the prompt is a well-formed string, and throws
    its final error exactly when the prompt holds an unpaired
    surrogate, whatever the dimensions. *)
Theorem fetchGeneratedImage_resolves_iff_wellFormed (prompt negativePrompt : jsstring)
  (dimensions : Dimensions) (now : N) :
  (isWellFormed prompt = true <->
   exists url,
     fetchGeneratedImage Number_toString exceeds toDataURL IMAGE_GENERATOR_CONFIG
       prompt negativePrompt dimensions now = Normal url)
  /\ (isWellFormed prompt = false <->
      fetchGeneratedImage Number_toString exceeds toDataURL IMAGE_GENERATOR_CONFIG
        prompt negativePrompt dimensions now =
      Throw (Error (lit "All image generation endpoints failed"))).
Proof.
  pose proof (fetchGeneratedImage_wellFormed prompt negativePrompt dimensions now) as Hok.
  pose proof (fetchGeneratedImage_illFormed prompt negativePrompt dimensions now) as Hfail.
  split; split; auto.
  - intros [url Hurl]. destruct (isWellFormed prompt); [reflexivity|].
    rewrite Hfail in Hurl by reflexivity. discriminate.
  - intros Hthrow. destruct (isWellFormed prompt); [|reflexivity].
    destruct (Hok eq_refl) as [url Hurl]. congruence.
Qed.

(** X2. When a dimension is zero the width and height are left out, and
    because the encoded prompt holds no question mark the query then
    opens with ?nologo=true: the URL is the base, the encoded prompt
    and ?nologo=true&t=now. *)
Theorem pollinations_url_without_dimensions (prompt encoded negativePrompt : jsstring)
  (dimensions : Dimensions) (now : N) :
  encodeURIComponent prompt = Normal encoded ->
  width dimensions = 0%N \/ height dimensions = 0%N ->
  fetchGeneratedImage Number_toString exceeds toDataURL IMAGE_GENERATOR_CONFIG
    prompt negativePrompt dimensions now =
  Normal (lit "https://image.pollinations.ai/prompt/" ++ encoded
          ++ lit "?nologo=true" ++ lit "&t=" ++ Number_toString now).
Proof.
  intros Henc Hzero. unfold fetchGeneratedImage.
  rewrite ImageGeneratorFacts.sorted_endpoints.
  cbn [endpoints IMAGE_GENERATOR_CONFIG tryEndpoints]. unfold tryEndpoint at 1.
  cbn [name]. rewrite bool_decide_eq_true_2 by reflexivity.
  unfold pollinationsUrl. rewrite Henc. cbn [mbind completion_bind url params nologo].
  replace (negb (width dimensions =? 0)%N && negb (height dimensions =? 0)%N) with false.
  2:{ destruct Hzero as [-> | ->]; cbn; [reflexivity|]. symmetry. apply andb_false_r. }
  assert (Hbare : includes (lit "https://image.pollinations.ai/prompt/" ++ encoded)
                    (lit "?") = false).
  { change (lit "?") with [63%N]. apply includes_unit_absent.
    rewrite forallb_app. apply andb_true_iff. split; [vm_compute; reflexivity|].
    apply no_delimiter_no_question. eapply encodeURIComponent_no_delimiter, Henc. }
  rewrite Hbare.
  rewrite (ImageGeneratorFacts.includes_app_r _ (lit "?nologo=true") (lit "?"))
    by (vm_compute; reflexivity).
  cbn [mret completion_ret]. f_equal. rewrite <- !app_assoc. reflexivity.
Qed.

End Fetch.

Section Run.

Variable toLowerCase : jsstring -> jsstring.
Variable Number_toString : N -> jsstring.
Variable parseInt : jsstring -> option Z.
Variable exceeds : jsstring -> Z -> bool.
Variable toDataURL : Dimensions -> list jsstring -> jsstring.
Variable JSON_stringify_history : list HistoryItem -> jsstring.
Variable JSON_stringify_analytics : Analytics -> jsstring.

Local Arguments lit : simpl never.

Lemma startsWith_self_app (p b : jsstring) : startsWith (p ++ b) p = true.
Proof.
  induction p as [|c p IH]; [destruct b; reflexivity|].
  cbn. rewrite N.eqb_refl, IH. reflexivity.
Qed.

Lemma includes_self_app (a p b : jsstring) : includes (a ++ p ++ b) p = true.
Proof.
  apply ImageGeneratorFacts.includes_app_r.
  rewrite ImageGeneratorFacts.includes_unfold, startsWith_self_app. reflexivity.
Qed.

(** X3. Whatever the configuration and the selected style, the
    enhanced prompt contains the user's prompt unchanged. *)
Theorem enhancePrompt_contains_prompt (cfg : Config) (g : ValleyImageGenerator)
  (prompt : jsstring) :
  includes (enhancePrompt cfg g prompt) prompt = true.
Proof.
  unfold enhancePrompt.
  set (enhanced := match find _ (styles cfg) with
                   | Some style => _
                   | None => prompt
                   end).
  assert (Henhanced : includes enhanced prompt = true).
  { subst enhanced. destruct (find _ (styles cfg)) as [style|].
    - destruct (truthy (promptModifier style)).
      + apply (includes_self_app []).
      + rewrite <- (app_nil_r prompt) at 1. apply (includes_self_app []).
    - rewrite <- (app_nil_r prompt) at 1. apply (includes_self_app []). }
  destruct (truthy (promptPrefix cfg)); [|exact Henhanced].
  do 2 apply ImageGeneratorFacts.includes_app_r. exact Henhanced.
Qed.

Lemma shipped_modifiers_wellFormed :
  forallb (fun style => isWellFormed (promptModifier style))
    (styles IMAGE_GENERATOR_CONFIG) = true.
Proof. vm_compute. reflexivity. Qed.

Lemma enhancePrompt_wellFormed (g : ValleyImageGenerator) (prompt : jsstring) :
  isWellFormed prompt = true ->
  isWellFormed (enhancePrompt IMAGE_GENERATOR_CONFIG g prompt) = true.
Proof.
  intros Hp. unfold enhancePrompt.
  replace (truthy (promptPrefix IMAGE_GENERATOR_CONFIG)) with true
    by (vm_compute; reflexivity).
  apply isWellFormed_app; [vm_compute; reflexivity|].
  apply isWellFormed_app; [vm_compute; reflexivity|].
  destruct (find _ (styles IMAGE_GENERATOR_CONFIG)) as [style|] eqn:Hfind; [|exact Hp].
  destruct (truthy (promptModifier style)); [|exact Hp].
  apply isWellFormed_app; [exact Hp|].
  apply isWellFormed_app; [vm_compute; reflexivity|].
  apply List.find_some in Hfind as [Hin _].
  pose proof shipped_modifiers_wellFormed as Hall.
  rewrite List.forallb_forall in Hall. apply Hall, Hin.
Qed.

Lemma dimensionOf_positive (input : option jsstring) (default : N) :
  (0 < default)%N -> (0 < dimensionOf parseInt input default)%N.
Proof.
  intros Hd. unfold dimensionOf. destruct input as [value|]; [|exact Hd].
  destruct (truthy value); [|exact Hd].
  destruct (parseInt value) as [parsed|]; [|exact Hd].
  destruct (0 <? parsed)%Z eqn:Hpos; [|exact Hd].
  apply Z.ltb_lt in Hpos. lia.
Qed.

Lemma showLoading_frame (cfg : Config) (g : ValleyImageGenerator) :
  isGenerating (showLoading cfg g) = isGenerating g
  /\ selectedStyle (showLoading cfg g) = selectedStyle g
  /\ generationHistory (showLoading cfg g) = generationHistory g
  /\ analytics (showLoading cfg g) = analytics g
  /\ imageOutput (showLoading cfg g) = imageOutput g
  /\ saveImageButton (showLoading cfg g) = saveImageButton g
  /\ localStorage (showLoading cfg g) = localStorage g.
Proof.
  unfold showLoading. destruct (loadingIndicator g); [|tauto].
  destruct (negb (showLoadingAnimation cfg)); [tauto|].
  cbn. destruct (errorMessage g); cbn; tauto.
Qed.

Lemma enhancePrompt_same_style (cfg : Config) (g g' : ValleyImageGenerator)
  (prompt : jsstring) :
  selectedStyle g' = selectedStyle g ->
  enhancePrompt cfg g' prompt = enhancePrompt cfg g prompt.
Proof. intros H. unfold enhancePrompt. rewrite H. reflexivity. Qed.

(** The start of a run on a valid prompt. *)
Lemma generateImage_begin_valid (cfg : Config) (inp : Inputs) (now : N)
  (g : ValleyImageGenerator) :
  readPrompt inp <> [] ->
  length (readPrompt inp) <= maxPromptLength cfg ->
  isGenerating g = false ->
  generateImage_begin Number_toString parseInt exceeds toDataURL cfg inp now g =
  (set_isGenerating true (showLoading cfg g),
   Awaiting (readPrompt inp)
     (fetchGeneratedImage Number_toString exceeds toDataURL cfg
        (enhancePrompt cfg g (readPrompt inp)) (getNegativePrompt cfg inp)
        (getImageDimensions parseInt cfg inp) now)).
Proof.
  intros Hne Hlen Hflag. unfold generateImage_begin.
  rewrite ImageGeneratorFacts.truthy_length
    by (destruct (readPrompt inp); [congruence|simpl; lia]).
  cbn [negb]. rewrite decide_False by lia. rewrite Hflag.
  rewrite (enhancePrompt_same_style cfg g); [reflexivity|].
  cbn [selectedStyle set_isGenerating]. apply showLoading_frame.
Qed.

(** What the rest of a run does once the promise resolved to a URL. *)
Lemma generateImage_resume_resolved (now : N) (prompt url : jsstring)
  (g : ValleyImageGenerator) :
  let g' :=
    generateImage_resume toLowerCase JSON_stringify_history JSON_stringify_analytics
      IMAGE_GENERATOR_CONFIG now prompt (Normal url) g in
  generationHistory g' =
    take 10 ({| prompt := prompt; imageUrl := url;
                style := selectedStyle g; timestamp := now |} :: generationHistory g)
  /\ isGenerating g' = false
  /\ totalGenerations (analytics g') = (totalGenerations (analytics g) + 1)%N
  /\ lastGenerationTime (analytics g') = Some now
  /\ (forall i, imageOutput g = Some i ->
      imageOutput g' = Some {| src := url; alt := lit "Generated image: " ++ prompt |})
  /\ localStorage g' !! historyKey = Some (JSON_stringify_history (generationHistory g')).
Proof.
  cbv zeta. unfold generateImage_resume.
  cbn [analytics_enabled IMAGE_GENERATOR_CONFIG].
  set (shown := match saveImageButton _ with Some _ => _ | None => _ end).
  assert (Hshown : selectedStyle shown = selectedStyle g
                   /\ generationHistory shown = generationHistory g
                   /\ analytics shown = analytics g
                   /\ (forall i, imageOutput g = Some i ->
                       imageOutput shown =
                       Some {| src := url; alt := lit "Generated image: " ++ prompt |})).
  { subst shown. unfold hideLoading.
    destruct g as [flag sty hist an img load err save timers store].
    destruct load, img, save; cbn; repeat split; intros; congruence. }
  destruct Hshown as (Hstyle & Hhist & Han & Himg).
  pose proof (ImageGeneratorFacts.addToHistory_history JSON_stringify_history
                IMAGE_GENERATOR_CONFIG now prompt url shown) as Hadd.
  rewrite Hstyle, Hhist in Hadd.
  change (maxHistoryItems IMAGE_GENERATOR_CONFIG) with 10 in Hadd.
  set (added := addToHistory JSON_stringify_history IMAGE_GENERATOR_CONFIG now prompt url
                  shown) in *.
  assert (Hadded : analytics added = analytics shown
                   /\ imageOutput added = imageOutput shown
                   /\ localStorage added !! historyKey =
                      Some (JSON_stringify_history (generationHistory added))).
  { subst added. unfold addToHistory, saveGenerationHistory. cbn.
    repeat split. apply lookup_insert_eq. }
  destruct Hadded as (Han' & Himg' & Hstore).
  unfold trackGeneration, saveAnalytics.
  cbn [analytics_enabled trackPrompts trackStyles storageKey IMAGE_GENERATOR_CONFIG negb
       isGenerating generationHistory analytics imageOutput localStorage
       set_isGenerating set_localStorage set_analytics
       totalGenerations lastGenerationTime].
  rewrite Han', Han. split; [exact Hadd|]. split; [reflexivity|].
  split; [reflexivity|]. split; [reflexivity|]. split.
  - intros i Hi. rewrite Himg'. apply (Himg i Hi).
  - rewrite lookup_insert_ne by (vm_compute; discriminate). exact Hstore.
Qed.

Lemma fetchGeneratedImage_shape (prompt encoded negativePrompt : jsstring)
  (dimensions : Dimensions) (now : N) :
  encodeURIComponent prompt = Normal encoded ->
  (0 < width dimensions)%N -> (0 < height dimensions)%N ->
  fetchGeneratedImage Number_toString exceeds toDataURL IMAGE_GENERATOR_CONFIG
    prompt negativePrompt dimensions now =
  Normal (lit "https://image.pollinations.ai/prompt/" ++ encoded
          ++ lit "?width=" ++ Number_toString (width dimensions)
          ++ lit "&height=" ++ Number_toString (height dimensions)
          ++ lit "&nologo=true" ++ lit "&t=" ++ Number_toString now).
Proof.
  intros Henc Hw Hh. unfold fetchGeneratedImage.
  rewrite ImageGeneratorFacts.sorted_endpoints.
  cbn [endpoints IMAGE_GENERATOR_CONFIG tryEndpoints]. unfold tryEndpoint at 1.
  cbn [name]. rewrite bool_decide_eq_true_2 by reflexivity.
  erewrite ImageGeneratorFacts.pollinationsUrl_shape;
    [reflexivity | reflexivity | eassumption | assumption..].
Qed.

(** X4. A run of generateImage on a valid, well-formed prompt, from a
    widget that is not generating: the image URL is the pollinations
    URL of the enhanced prompt with the dimensions read from the form
    (always positive); the run puts that image first in the history,
    capped at 10 and saved under the history key, shows it in the image
    element, counts one more generation and leaves isGenerating clear. *)
Theorem generateImage_run_adds_image (inp : Inputs) (nowStart nowEnd : N)
  (g : ValleyImageGenerator) :
  readPrompt inp <> [] ->
  length (readPrompt inp) <= 1000 ->
  isWellFormed (readPrompt inp) = true ->
  isGenerating g = false ->
  exists encoded url,
    encodeURIComponent (enhancePrompt IMAGE_GENERATOR_CONFIG g (readPrompt inp)) =
      Normal encoded
    /\ url =
       lit "https://image.pollinations.ai/prompt/" ++ encoded
       ++ lit "?width="
       ++ Number_toString (width (getImageDimensions parseInt IMAGE_GENERATOR_CONFIG inp))
       ++ lit "&height="
       ++ Number_toString (height (getImageDimensions parseInt IMAGE_GENERATOR_CONFIG inp))
       ++ lit "&nologo=true" ++ lit "&t=" ++ Number_toString nowStart
    /\ generationHistory
         (generateImage toLowerCase Number_toString parseInt exceeds toDataURL
            JSON_stringify_history JSON_stringify_analytics IMAGE_GENERATOR_CONFIG
            inp nowStart nowEnd g) =
       take 10 ({| prompt := readPrompt inp; imageUrl := url;
                   style := selectedStyle g; timestamp := nowEnd |}
                  :: generationHistory g)
    /\ isGenerating
         (generateImage toLowerCase Number_toString parseInt exceeds toDataURL
            JSON_stringify_history JSON_stringify_analytics IMAGE_GENERATOR_CONFIG
            inp nowStart nowEnd g) = false
    /\ totalGenerations
         (analytics
            (generateImage toLowerCase Number_toString parseInt exceeds toDataURL
               JSON_stringify_history JSON_stringify_analytics IMAGE_GENERATOR_CONFIG
               inp nowStart nowEnd g)) = (totalGenerations (analytics g) + 1)%N
    /\ (forall i, imageOutput g = Some i ->
        imageOutput
          (generateImage toLowerCase Number_toString parseInt exceeds toDataURL
             JSON_stringify_history JSON_stringify_analytics IMAGE_GENERATOR_CONFIG
             inp nowStart nowEnd g) =
        Some {| src := url; alt := lit "Generated image: " ++ readPrompt inp |})
    /\ localStorage
         (generateImage toLowerCase Number_toString parseInt exceeds toDataURL
            JSON_stringify_history JSON_stringify_analytics IMAGE_GENERATOR_CONFIG
            inp nowStart nowEnd g) !! historyKey =
       Some (JSON_stringify_history
               (take 10 ({| prompt := readPrompt inp; imageUrl := url;
                            style := selectedStyle g; timestamp := nowEnd |}
                           :: generationHistory g))).
Proof.
  intros Hne Hlen Hwf Hflag.
  destruct (encodeURIComponent_wellFormed
              (enhancePrompt IMAGE_GENERATOR_CONFIG g (readPrompt inp))) as [Henc _].
  destruct (Henc (enhancePrompt_wellFormed g _ Hwf)) as [encoded Hencoded].
  exists encoded. eexists. split; [exact Hencoded|]. split; [reflexivity|].
  unfold generateImage.
  rewrite (generateImage_begin_valid IMAGE_GENERATOR_CONFIG inp nowStart g Hne)
    by (cbn; lia || exact Hflag).
  rewrite (fetchGeneratedImage_shape _ encoded) by
    (exact Hencoded || (apply dimensionOf_positive; reflexivity)).
  pose proof (generateImage_resume_resolved nowEnd (readPrompt inp)
                (lit "https://image.pollinations.ai/prompt/" ++ encoded
                 ++ lit "?width="
                 ++ Number_toString
                      (width (getImageDimensions parseInt IMAGE_GENERATOR_CONFIG inp))
                 ++ lit "&height="
                 ++ Number_toString
                      (height (getImageDimensions parseInt IMAGE_GENERATOR_CONFIG inp))
                 ++ lit "&nologo=true" ++ lit "&t=" ++ Number_toString nowStart)
                (set_isGenerating true (showLoading IMAGE_GENERATOR_CONFIG g))) as Hrun.
  cbv zeta in Hrun. destruct Hrun as (Hhist & Hdone & Htotal & _ & Himg & Hstore).
  destruct (showLoading_frame IMAGE_GENERATOR_CONFIG g)
    as (_ & Hstyle & Hold & Han & Hout & _ & _).
  cbn [selectedStyle generationHistory analytics imageOutput set_isGenerating]
    in Hhist, Htotal, Himg.
  rewrite Hstyle, Hold in Hhist. rewrite Han in Htotal. rewrite Hout in Himg.
  split; [exact Hhist|]. split; [exact Hdone|]. split; [exact Htotal|].
  split; [exact Himg|]. rewrite Hstore, Hhist. reflexivity.
Qed.

Lemma isWellFormed_plain_prefix (a x : jsstring) :
  forallb (fun c => negb (isSurrogate c)) a = true ->
  isWellFormed (a ++ x) = isWellFormed x.
Proof.
  induction a as [|c a IH]; [reflexivity|]. cbn [forallb app]. intros H.
  apply andb_true_iff in H as [Hc Ha]. apply negb_true_iff, orb_false_iff in Hc as [Hl Ht].
  cbn [isWellFormed]. rewrite Hl, Ht. cbn [negb andb]. apply IH, Ha.
Qed.

Lemma isWellFormed_plain_suffix (p b : jsstring) :
  forallb (fun c => negb (isSurrogate c)) b = true ->
  isWellFormed (p ++ b) = isWellFormed p.
Proof.
  intros Hb.
  assert (Hplain : isWellFormed b = true).
  { rewrite <- (app_nil_r b). rewrite isWellFormed_plain_prefix by exact Hb. reflexivity. }
  induction p as [|c|c d r IHr IHd] using pair_induction.
  - exact Hplain.
  - cbn [app]. destruct b as [|x b]; [reflexivity|].
    cbn [forallb] in Hb. apply andb_true_iff in Hb as [Hx _].
    apply negb_true_iff, orb_false_iff in Hx as [_ Hx].
    change (isWellFormed (c :: x :: b)) with
      (if isLeadSurrogate c then isTrailSurrogate x && isWellFormed b
       else negb (isTrailSurrogate c) && isWellFormed (x :: b)).
    rewrite Hx, Hplain. cbn [isWellFormed andb].
    destruct (isLeadSurrogate c); reflexivity.
  - change (isWellFormed ((c :: d :: r) ++ b)) with
      (if isLeadSurrogate c then isTrailSurrogate d && isWellFormed (r ++ b)
       else negb (isTrailSurrogate c) && isWellFormed ((d :: r) ++ b)).
    change (isWellFormed (c :: d :: r)) with
      (if isLeadSurrogate c then isTrailSurrogate d && isWellFormed r
       else negb (isTrailSurrogate c) && isWellFormed (d :: r)).
    rewrite IHr, IHd. reflexivity.
Qed.

Lemma shipped_modifiers_plain :
  forallb (fun style => forallb (fun c => negb (isSurrogate c)) (promptModifier style))
    (styles IMAGE_GENERATOR_CONFIG) = true.
Proof. vm_compute. reflexivity. Qed.

Lemma enhancePrompt_illFormed (g : ValleyImageGenerator) (prompt : jsstring) :
  isWellFormed prompt = false ->
  isWellFormed (enhancePrompt IMAGE_GENERATOR_CONFIG g prompt) = false.
Proof.
  intros Hp. unfold enhancePrompt.
  replace (truthy (promptPrefix IMAGE_GENERATOR_CONFIG)) with true
    by (vm_compute; reflexivity).
  rewrite isWellFormed_plain_prefix by (vm_compute; reflexivity).
  rewrite isWellFormed_plain_prefix by (vm_compute; reflexivity).
  destruct (find _ (styles IMAGE_GENERATOR_CONFIG)) as [style|] eqn:Hfind; [|exact Hp].
  destruct (truthy (promptModifier style)); [|exact Hp].
  rewrite isWellFormed_plain_suffix; [exact Hp|].
  rewrite forallb_app. apply andb_true_iff. split; [vm_compute; reflexivity|].
  apply List.find_some in Hfind as [Hin _].
  pose proof shipped_modifiers_plain as Hall.
  rewrite List.forallb_forall in Hall. apply Hall, Hin.
Qed.

(** X5. A run of generateImage on a prompt that holds an unpaired
    surrogate fails cleanly: the history, the analytics, the image and
    localStorage stay as they were, the failure message is shown in
    the error element, and isGenerating is clear again, so the widget
    accepts the next request. *)
Theorem generateImage_run_fails_cleanly (inp : Inputs) (nowStart nowEnd : N)
  (g : ValleyImageGenerator) :
  readPrompt inp <> [] ->
  length (readPrompt inp) <= 1000 ->
  isWellFormed (readPrompt inp) = false ->
  isGenerating g = false ->
  generationHistory
    (generateImage toLowerCase Number_toString parseInt exceeds toDataURL
       JSON_stringify_history JSON_stringify_analytics IMAGE_GENERATOR_CONFIG
       inp nowStart nowEnd g) = generationHistory g
  /\ analytics
       (generateImage toLowerCase Number_toString parseInt exceeds toDataURL
          JSON_stringify_history JSON_stringify_analytics IMAGE_GENERATOR_CONFIG
          inp nowStart nowEnd g) = analytics g
  /\ imageOutput
       (generateImage toLowerCase Number_toString parseInt exceeds toDataURL
          JSON_stringify_history JSON_stringify_analytics IMAGE_GENERATOR_CONFIG
          inp nowStart nowEnd g) = imageOutput g
  /\ localStorage
       (generateImage toLowerCase Number_toString parseInt exceeds toDataURL
          JSON_stringify_history JSON_stringify_analytics IMAGE_GENERATOR_CONFIG
          inp nowStart nowEnd g) = localStorage g
  /\ isGenerating
       (generateImage toLowerCase Number_toString parseInt exceeds toDataURL
          JSON_stringify_history JSON_stringify_analytics IMAGE_GENERATOR_CONFIG
          inp nowStart nowEnd g) = false
  /\ (forall e, errorMessage g = Some e ->
      errorMessage
        (generateImage toLowerCase Number_toString parseInt exceeds toDataURL
           JSON_stringify_history JSON_stringify_analytics IMAGE_GENERATOR_CONFIG
           inp nowStart nowEnd g) =
      Some {| error_display := lit "block";
              textContent := lit "Failed to generate image. Please try again." |}).
Proof.
  intros Hne Hlen Hill Hflag. unfold generateImage.
  rewrite (generateImage_begin_valid IMAGE_GENERATOR_CONFIG inp nowStart g Hne)
    by (cbn; lia || exact Hflag).
  rewrite (fetchGeneratedImage_illFormed Number_toString exceeds toDataURL)
    by (apply enhancePrompt_illFormed, Hill).
  unfold generateImage_resume, showError, hideLoading, showLoading.
  destruct g as [flag sty hist an img load err save timers store].
  cbn [showLoadingAnimation IMAGE_GENERATOR_CONFIG negb].
  destruct load, err; cbn; repeat split; try reflexivity; intros e0 [= <-];
    try reflexivity.
Qed.

End Run.

End GenerationFacts.

(** ** The placeholder drawn by generateLocalImage *)

Module PlaceholderFacts.
Import JS Text Facts ImageGenerator ImageGeneratorMore.

Local Arguments lit : simpl never.

Lemma split_on_not_nil (sep : N) (s : jsstring) : split_on sep s <> [].
Proof.
  destruct s as [|c s]; cbn; [discriminate|].
  destruct (c =? sep)%N; [discriminate|]. destruct (split_on sep s); discriminate.
Qed.

(** Joining the words, each followed by the separator, gives the text
    back with one separator at its end. *)
Lemma split_on_concat (sep : N) (s : jsstring) :
  concat (map (fun w => w ++ [sep]) (split_on sep s)) = s ++ [sep].
Proof.
  induction s as [|c s IH]; [reflexivity|]. cbn [split_on].
  destruct (c =? sep)%N eqn:Hc.
  - apply N.eqb_eq in Hc as ->. cbn. rewrite IH. reflexivity.
  - destruct (split_on sep s) as [|w ws] eqn:Hsplit.
    + exfalso. apply (split_on_not_nil sep s Hsplit).
    + cbn in IH |- *. rewrite IH. reflexivity.
Qed.

Section Wrapping.

Variable exceeds : jsstring -> Z -> bool.
Variable toDataURL : Dimensions -> list jsstring -> jsstring.

Lemma wrapWords_concat (maxWidth : Z) (words : list jsstring) :
  forall (i : nat) (line : jsstring) (lines : list jsstring),
    concat (wrapWords exceeds maxWidth i line lines words) =
    concat lines ++ line ++ concat (map (fun w => w ++ lit " ") words).
Proof.
  induction words as [|word rest IH]; intros i line lines; cbn [wrapWords map concat].
  - rewrite concat_app. cbn. rewrite !app_nil_r. reflexivity.
  - destruct (exceeds (line ++ word ++ lit " ") maxWidth && bool_decide (0 < i)).
    + rewrite IH, concat_app. cbn. rewrite app_nil_r, <- !app_assoc. reflexivity.
    + rewrite IH, <- !app_assoc. reflexivity.
Qed.

Lemma wrapWords_not_nil (maxWidth : Z) (words : list jsstring) :
  forall (i : nat) (line : jsstring) (lines : list jsstring),
    wrapWords exceeds maxWidth i line lines words <> [].
Proof.
  induction words as [|word rest IH]; intros i line lines; cbn [wrapWords].
  - destruct lines; discriminate.
  - destruct (exceeds _ maxWidth && bool_decide (0 < i)); apply IH.
Qed.

Lemma wrapWords_fit (maxWidth : Z) (all words : list jsstring) :
  forall (i : nat) (line : jsstring) (lines : list jsstring),
    (forall word, In word words -> In word all) ->
    Forall (fitsOrSingle exceeds maxWidth all) lines ->
    (i = 0 /\ line = []) \/ (0 < i /\ fitsOrSingle exceeds maxWidth all line) ->
    (i = 0 -> words <> []) ->
    Forall (fitsOrSingle exceeds maxWidth all) (wrapWords exceeds maxWidth i line lines words).
Proof.
  induction words as [|word rest IH]; intros i line lines Hsub Hlines Hline Hfirst;
    cbn [wrapWords].
  - apply Forall_app. split; [exact Hlines|]. constructor; [|constructor].
    destruct Hline as [[Hi _]|[_ Hfit]]; [|exact Hfit]. exfalso. apply (Hfirst Hi eq_refl).
  - assert (Hword : fitsOrSingle exceeds maxWidth all (word ++ lit " ")).
    { right. exists word. split; [apply Hsub; left; reflexivity|reflexivity]. }
    assert (Hrest : forall w, In w rest -> In w all) by (intros w Hw; apply Hsub; right; exact Hw).
    destruct (exceeds (line ++ word ++ lit " ") maxWidth) eqn:Hexceeds; cbn [andb].
    + case_bool_decide as Hi.
      * apply IH; [exact Hrest| |right; split; [lia|exact Hword]|lia].
        apply Forall_app. split; [exact Hlines|]. constructor; [|constructor].
        destruct Hline as [[Hz _]|[_ Hfit]]; [lia|exact Hfit].
      * apply IH; [exact Hrest|exact Hlines| |lia]. right. split; [lia|].
        destruct Hline as [[_ ->]|[Hpos _]]; [exact Hword|lia].
    + apply IH; [exact Hrest|exact Hlines| |lia]. right. split; [lia|].
      left. exact Hexceeds.
Qed.

(** X6. The word wrapping of generateLocalImage is correct: every line
    it produces either does not exceed the maximum width or holds a
    single word of the prompt (which cannot be broken), and the lines,
    put end to end, are the prompt followed by one space, so no text
    is lost or reordered. *)
Theorem wrapWords_lines_fit_and_keep_text (prompt : jsstring) (maxWidth : Z) :
  Forall (fitsOrSingle exceeds maxWidth (split_on 32 prompt))
    (wrapWords exceeds maxWidth 0 [] [] (split_on 32 prompt))
  /\ concat (wrapWords exceeds maxWidth 0 [] [] (split_on 32 prompt)) = prompt ++ lit " ".
Proof.
  split.
  - apply wrapWords_fit; [auto|constructor|left; split; reflexivity|].
    intros _. apply split_on_not_nil.
  - rewrite wrapWords_concat. cbn [concat app].
    change (lit " ") with [32%N]. apply split_on_concat.
Qed.

(** X7. generateLocalImage draws between one and five lines. When the
    wrapped prompt has at most five lines they are drawn as they are;
    when it has more, the first four are drawn, followed by a line
    that is an ellipsis. *)
Theorem placeholderLines_at_most_five (prompt : jsstring) (dimensions : Dimensions) :
  generateLocalImage exceeds toDataURL prompt dimensions =
    toDataURL dimensions (placeholderLines exceeds prompt dimensions)
  /\ 1 <= length (placeholderLines exceeds prompt dimensions) <= 5
  /\ (length (wrapWords exceeds (Z.of_N (width dimensions) - 40) 0 [] []
                (split_on 32 prompt)) <= 5 ->
      placeholderLines exceeds prompt dimensions =
      wrapWords exceeds (Z.of_N (width dimensions) - 40) 0 [] [] (split_on 32 prompt))
  /\ (5 < length (wrapWords exceeds (Z.of_N (width dimensions) - 40) 0 [] []
                    (split_on 32 prompt)) ->
      placeholderLines exceeds prompt dimensions =
      take 4 (wrapWords exceeds (Z.of_N (width dimensions) - 40) 0 [] []
                (split_on 32 prompt)) ++ [lit "..."]).
Proof.
  split; [reflexivity|]. unfold placeholderLines. cbv zeta.
  pose proof (wrapWords_not_nil (Z.of_N (width dimensions) - 40) (split_on 32 prompt) 0 [] [])
    as Hne.
  set (lines := wrapWords exceeds (Z.of_N (width dimensions) - 40) 0 [] []
                  (split_on 32 prompt)) in *.
  case_decide as Hlen.
  - unfold slice_to. rewrite length_app, length_take. cbn [length].
    split; [lia|]. split; [lia|]. intros _. reflexivity.
  - split; [destruct lines; [congruence|cbn in *; lia]|].
    split; [reflexivity|lia].
Qed.

End Wrapping.

End PlaceholderFacts.

(** ** The chat widget: persistence, welcome, exchanges, suggestions *)

Module ChatSessionFacts.
Import JS Facts Chatbot ChatSession.

Local Arguments lit : simpl never.

Section Widget.

Variable toLowerCase : jsstring -> jsstring.
Variable JSON_stringify : list ChatMessage -> jsstring.
Variable JSON_parse : jsstring -> completion (list ChatMessage).
Variable JSON_stringify_analytics : Analytics -> jsstring.

Lemma saveChatHistory_stored (cfg : Config) (b : ValleyBot) :
  localStorage (saveChatHistory JSON_stringify cfg b) !! historyKey =
  Some (JSON_stringify (chatHistory (saveChatHistory JSON_stringify cfg b))).
Proof. unfold saveChatHistory. cbn. apply lookup_insert_eq. Qed.

Lemma insertMessage_stored (cfg : Config) (b : ValleyBot) (m : ChatMessage) :
  localStorage (insertMessage JSON_stringify cfg b m) !! historyKey =
  Some (JSON_stringify (chatHistory (insertMessage JSON_stringify cfg b m))).
Proof.
  unfold insertMessage, storeMessage. apply saveChatHistory_stored.
Qed.

Lemma new_ValleyBot_restores (storage : gmap jsstring jsstring) (history : list ChatMessage) :
  JSON_parse (JSON_stringify history) = Normal history ->
  JSON_stringify history <> [] ->
  storage !! historyKey = Some (JSON_stringify history) ->
  new_ValleyBot JSON_parse storage =
  Normal {| chatHistory := history; chatMessages := []; typingIndicators := 0;
            localStorage := storage |}.
Proof.
  intros Hround Htruthy Hstored. unfold new_ValleyBot, loadChatHistory, initialState.
  cbn [localStorage chatMessages typingIndicators]. rewrite Hstored.
  destruct (JSON_stringify history) eqn:Htext; [congruence|]. cbn [truthy].
  rewrite Hround. reflexivity.
Qed.

Lemma welcome_stored (now hour : N) (b : ValleyBot) :
  chatHistory
    (storeMessage JSON_stringify CHATBOT_CONFIG assistant (getWelcomeMessage hour) now b) =
  keep_last 50
    (chatHistory b
     ++ [ {| role := assistant; content := getWelcomeMessage hour; timestamp := now |} ]).
Proof.
  rewrite (ChatbotFacts.storeMessage_history JSON_stringify CHATBOT_CONFIG) by (cbn; lia).
  reflexivity.
Qed.

(** X8. A page load over the localStorage that a stored message left,
    given that JSON.parse reads back what JSON.stringify wrote. The
    constructor restores the saved history. On a page without a chat
    element [init] then appends its welcome message, within the cap of
    50, so every page load adds to the conversation. On a page with a
    chat element [init] throws the SyntaxError of processMessageText
    instead: the widget holds the restored history and no welcome. *)
Theorem pageLoad_restores_then_welcomes_or_throws (page : Page) (b : ValleyBot)
  (m : ChatMessage) (now hour : N) :
  (forall history, JSON_parse (JSON_stringify history) = Normal history) ->
  (forall history, JSON_stringify history <> []) ->
  (mainChat page = false -> popupChat page = false ->
   exists loaded,
     pageLoad JSON_stringify JSON_parse CHATBOT_CONFIG page now hour
       (localStorage (insertMessage JSON_stringify CHATBOT_CONFIG b m))
     = Normal (loaded, Normal tt)
     /\ chatHistory loaded =
        keep_last 50
          (chatHistory (insertMessage JSON_stringify CHATBOT_CONFIG b m)
           ++ [ {| role := assistant; content := getWelcomeMessage hour;
                   timestamp := now |} ]))
  /\ (mainChat page = true \/ popupChat page = true ->
      exists loaded,
        pageLoad JSON_stringify JSON_parse CHATBOT_CONFIG page now hour
          (localStorage (insertMessage JSON_stringify CHATBOT_CONFIG b m))
        = Normal (loaded, Throw SyntaxError)
        /\ chatHistory loaded = chatHistory (insertMessage JSON_stringify CHATBOT_CONFIG b m)).
Proof.
  intros Hround Htruthy. unfold pageLoad.
  rewrite (new_ValleyBot_restores _ _ (Hround _) (Htruthy _)
             (insertMessage_stored CHATBOT_CONFIG b m)).
  cbn [mbind completion_bind]. unfold init. split.
  - intros Hmain Hpopup.
    rewrite (ChatbotFacts.addBotMessage_stores JSON_stringify) by assumption.
    eexists. split; [reflexivity|]. rewrite welcome_stored. reflexivity.
  - intros Helement.
    rewrite (ChatbotFacts.addBotMessage_throws JSON_stringify)
      by (reflexivity || exact Helement).
    eexists. split; reflexivity.
Qed.

(** X9. clearChatHistory on a page without a chat element does not
    leave the history empty: afterwards it is exactly the welcome
    message, and the history key is again present in localStorage,
    holding that one-message history. On a page with a chat element it
    throws the SyntaxError of processMessageText after it has cleared
    everything: the history is empty, its key is gone from
    localStorage, and the main chat element shows nothing. *)
Theorem clearChatHistory_welcomes_or_throws (page : Page) (now hour : N) (b : ValleyBot) :
  (mainChat page = false -> popupChat page = false ->
   snd (clearChatHistory JSON_stringify CHATBOT_CONFIG page now hour b) = Normal tt
   /\ chatHistory (fst (clearChatHistory JSON_stringify CHATBOT_CONFIG page now hour b)) =
      [ {| role := assistant; content := getWelcomeMessage hour; timestamp := now |} ]
   /\ localStorage (fst (clearChatHistory JSON_stringify CHATBOT_CONFIG page now hour b))
      !! historyKey =
      Some (JSON_stringify
              [ {| role := assistant; content := getWelcomeMessage hour;
                   timestamp := now |} ]))
  /\ (mainChat page = true \/ popupChat page = true ->
      snd (clearChatHistory JSON_stringify CHATBOT_CONFIG page now hour b)
      = Throw SyntaxError
      /\ chatHistory (fst (clearChatHistory JSON_stringify CHATBOT_CONFIG page now hour b))
         = []
      /\ localStorage (fst (clearChatHistory JSON_stringify CHATBOT_CONFIG page now hour b))
         !! historyKey = None
      /\ (mainChat page = true ->
          chatMessages (fst (clearChatHistory JSON_stringify CHATBOT_CONFIG page now hour b))
          = [])).
Proof.
  unfold clearChatHistory. split.
  - intros Hmain Hpopup.
    rewrite (ChatbotFacts.addBotMessage_stores JSON_stringify) by assumption.
    cbn [fst snd]. split; [reflexivity|].
    assert (Hhistory :
              chatHistory
                (storeMessage JSON_stringify CHATBOT_CONFIG assistant
                   (getWelcomeMessage hour) now
                   {| chatHistory := [];
                      chatMessages := if mainChat page then [] else chatMessages b;
                      typingIndicators :=
                        if mainChat page then 0 else typingIndicators b;
                      localStorage := delete historyKey (localStorage b) |}) =
              [ {| role := assistant; content := getWelcomeMessage hour;
                   timestamp := now |} ]).
    { rewrite welcome_stored. reflexivity. }
    split; [exact Hhistory|].
    unfold storeMessage in *. rewrite saveChatHistory_stored, Hhistory. reflexivity.
  - intros Helement.
    rewrite (ChatbotFacts.addBotMessage_throws JSON_stringify)
      by (reflexivity || exact Helement).
    cbn [fst snd chatHistory localStorage chatMessages].
    split; [reflexivity|]. split; [reflexivity|]. split; [apply lookup_delete_eq|].
    intros ->. reflexivity.
Qed.

(** X10. One exchange. A blank input is ignored: sendMessage changes
    nothing. On a page without a chat element, once the reply has
    arrived, the history has grown by exactly the trimmed message of
    the user followed by the enhanced-table reply, within the cap of
    50; the promise of getBotResponse is fulfilled, the input field is
    empty, and one interaction has been counted. On a page with a chat
    element sendMessage throws the SyntaxError of processMessageText
    before anything is done: the message is not stored, the input is
    not cleared, no reply is asked for and no interaction is
    counted. *)
Theorem exchange_stores_or_throws (page : Page) (s : Session) (now1 now2 : N) :
  (trim (chatInput s) = [] ->
   sendMessage toLowerCase JSON_stringify JSON_stringify_analytics
     CHATBOT_CONFIG CHATBOT_ANALYTICS page now1 s = (s, Normal None))
  /\ (trim (chatInput s) <> [] -> mainChat page = false -> popupChat page = false ->
      snd (sendMessage toLowerCase JSON_stringify JSON_stringify_analytics
             CHATBOT_CONFIG CHATBOT_ANALYTICS page now1 s)
      = Normal (Some (trim (chatInput s)))
      /\ settled
           (getBotResponse_resume toLowerCase JSON_stringify CHATBOT_CONFIG page now2
              (trim (chatInput s))
              (bot (fst (sendMessage toLowerCase JSON_stringify JSON_stringify_analytics
                           CHATBOT_CONFIG CHATBOT_ANALYTICS page now1 s))))
         = Normal tt
      /\ chatHistory
           (bot (receiveReply toLowerCase JSON_stringify CHATBOT_CONFIG page now2
                   (trim (chatInput s))
                   (fst (sendMessage toLowerCase JSON_stringify JSON_stringify_analytics
                           CHATBOT_CONFIG CHATBOT_ANALYTICS page now1 s)))) =
         keep_last 50
           (chatHistory (bot s)
            ++ [ {| role := user; content := trim (chatInput s); timestamp := now1 |};
                 {| role := assistant;
                    content := getEnhancedResponse toLowerCase (trim (chatInput s));
                    timestamp := now2 |} ])
      /\ chatInput
           (receiveReply toLowerCase JSON_stringify CHATBOT_CONFIG page now2
              (trim (chatInput s))
              (fst (sendMessage toLowerCase JSON_stringify JSON_stringify_analytics
                      CHATBOT_CONFIG CHATBOT_ANALYTICS page now1 s))) = []
      /\ totalInteractions
           (analytics
              (receiveReply toLowerCase JSON_stringify CHATBOT_CONFIG page now2
                 (trim (chatInput s))
                 (fst (sendMessage toLowerCase JSON_stringify JSON_stringify_analytics
                         CHATBOT_CONFIG CHATBOT_ANALYTICS page now1 s)))) =
         (totalInteractions (analytics s) + 1)%N)
  /\ (trim (chatInput s) <> [] -> mainChat page = true \/ popupChat page = true ->
      sendMessage toLowerCase JSON_stringify JSON_stringify_analytics
        CHATBOT_CONFIG CHATBOT_ANALYTICS page now1 s = (s, Throw SyntaxError)).
Proof.
  split; [|split].
  - intros Hblank. unfold sendMessage. rewrite Hblank. reflexivity.
  - intros Hmessage Hmain Hpopup. unfold sendMessage.
    destruct (trim (chatInput s)) as [|c message] eqn:Htrim; [congruence|].
    cbn [truthy negb].
    rewrite (ChatbotFacts.addUserMessage_stores JSON_stringify) by assumption.
    cbn [enabled CHATBOT_ANALYTICS fst snd].
    split; [reflexivity|].
    unfold receiveReply, trackInteraction, saveAnalytics.
    cbn [enabled trackQuestions CHATBOT_ANALYTICS negb bot analytics chatInput
         totalInteractions].
    rewrite (ChatbotFacts.getBotResponse_resume_stores toLowerCase JSON_stringify)
      by assumption.
    cbn [settled after].
    split; [reflexivity|]. split; [|split; reflexivity].
    rewrite (ChatbotFacts.storeMessage_history JSON_stringify CHATBOT_CONFIG) by (cbn; lia).
    unfold getBotResponse_begin.
    cbn [chatHistory hideTypingIndicator showTypingIndicator].
    rewrite (ChatbotFacts.storeMessage_history JSON_stringify CHATBOT_CONFIG) by (cbn; lia).
    change (maxHistoryItems CHATBOT_CONFIG) with 50.
    rewrite keep_last_snoc by lia. rewrite <- app_assoc. reflexivity.
  - intros Hmessage Helement. unfold sendMessage.
    destruct (trim (chatInput s)) as [|c message] eqn:Htrim; [congruence|].
    cbn [truthy negb].
    rewrite (ChatbotFacts.addUserMessage_throws JSON_stringify)
      by (reflexivity || exact Helement).
    reflexivity.
Qed.

Lemma slice_last_three (older recent : list ChatMessage) :
  length recent = 3 -> slice_from_end 3 (older ++ recent) = recent.
Proof.
  intros Hlen. unfold slice_from_end. rewrite length_app, Hlen.
  replace (length older + 3 - 3) with (length older) by lia.
  apply drop_app_length.
Qed.

(** X11. The suggestion chips look at the last three messages only:
    whatever was said before them, the suggestions are those of the
    last three, the earliest of which to touch a topic decides. *)
Theorem suggestions_depend_on_last_three (older recent : list ChatMessage) :
  length recent = 3 ->
  suggestionsFor toLowerCase (older ++ recent) = suggestionsFor toLowerCase recent
  /\ suggestionsFor toLowerCase (older ++ recent) =
     match firstTopic toLowerCase recent with
     | Some suggestions => suggestions
     | None => suggestionChips
     end.
Proof.
  intros Hlen. unfold suggestionsFor.
  pose proof (slice_last_three [] recent Hlen) as Hrecent. cbn [app] in Hrecent.
  rewrite (slice_last_three older recent Hlen), Hrecent.
  rewrite !decide_True by (rewrite ?length_app; lia). split; reflexivity.
Qed.

End Widget.

(** X27. How trackInteraction counts a question that has no count
    yet. A text that is no property name of Object.prototype is
    counted right. For an inherited name, [constructor] among them,
    the first count is NaN and the later ones are one short; and
    [__proto__] is never counted. The counts of other texts are left
    alone. *)
Theorem question_counts (key : jsstring) (counts : gmap jsstring Count) (n : nat) :
  counts !! key = None ->
  let counted := Nat.iter (S n) (countQuestion key) counts in
  counted !! key
  = (if bool_decide (key = lit "__proto__") then None
     else if bool_decide (key ∈ inheritedNames) then
       match n with
       | O => Some NaN
       | S _ => Some (Num (N.of_nat n))
       end
     else Some (Num (N.of_nat (S n))))
  /\ forall other, other <> key -> counted !! other = counts !! other.
Proof.
  intros Hfresh. cbv zeta.
  assert (forall m, Nat.iter (S m) (countQuestion key) counts
                    = countQuestion key (Nat.iter m (countQuestion key) counts)) as Hstep
    by reflexivity.
  destruct (bool_decide (key = lit "__proto__")) eqn:Hproto;
    [|destruct (bool_decide (key ∈ inheritedNames)) eqn:Hinherited].
  - induction n as [|n [IHkey IHother]]; rewrite Hstep.
    + cbn [Nat.iter nat_rect]. unfold countQuestion, countUp. rewrite Hfresh, Hproto. auto.
    + set (before := Nat.iter (S n) (countQuestion key) counts) in *.
      unfold countQuestion, countUp. rewrite IHkey, Hproto. auto.
  - induction n as [|n [IHkey IHother]]; rewrite Hstep.
    + cbn [Nat.iter nat_rect]. unfold countQuestion, countUp. rewrite Hfresh, Hproto, Hinherited.
      split; [apply lookup_insert_eq|]. intros other Hother.
      apply lookup_insert_ne. congruence.
    + set (before := Nat.iter (S n) (countQuestion key) counts) in *.
      unfold countQuestion, countUp. rewrite IHkey. destruct n as [|n].
      * split; [apply lookup_insert_eq|]. intros other Hother.
        rewrite lookup_insert_ne by congruence. auto.
      * replace (N.of_nat (S n) =? 0)%N with false by (symmetry; apply N.eqb_neq; lia).
        split; [rewrite lookup_insert_eq; do 2 f_equal; lia|].
        intros other Hother. rewrite lookup_insert_ne by congruence. auto.
  - induction n as [|n [IHkey IHother]]; rewrite Hstep.
    + cbn [Nat.iter nat_rect]. unfold countQuestion, countUp. rewrite Hfresh, Hproto, Hinherited.
      split; [apply lookup_insert_eq|]. intros other Hother.
      apply lookup_insert_ne. congruence.
    + set (before := Nat.iter (S n) (countQuestion key) counts) in *.
      unfold countQuestion, countUp. rewrite IHkey.
      replace (N.of_nat (S n) =? 0)%N with false by (symmetry; apply N.eqb_neq; lia).
      split; [rewrite lookup_insert_eq; do 2 f_equal; lia|].
      intros other Hother. rewrite lookup_insert_ne by congruence. auto.
Qed.

End ChatSessionFacts.

(** ** The generation history across page loads *)

Module GenerationHistoryFacts.
Import JS Facts ImageGenerator ImageGeneratorMore.

Local Arguments lit : simpl never.

Section Widget.

Variable JSON_stringify_history : list HistoryItem -> jsstring.
Variable JSON_parse_history : jsstring -> completion (list HistoryItem).
Variable JSON_parse_analytics : jsstring -> completion Analytics.

Lemma loadGenerationHistory_restores (g : ValleyImageGenerator) (history : list HistoryItem) :
  JSON_parse_history (JSON_stringify_history history) = Normal history ->
  JSON_stringify_history history <> [] ->
  localStorage g !! historyKey = Some (JSON_stringify_history history) ->
  loadGenerationHistory JSON_parse_history g = Normal (set_generationHistory history g).
Proof.
  intros Hround Htruthy Hstored. unfold loadGenerationHistory. rewrite Hstored.
  destruct (JSON_stringify_history history) eqn:Htext; [congruence|]. cbn [truthy].
  rewrite Hround. reflexivity.
Qed.

Lemma constructor_history (cfg : Config) (now : N) (storage : gmap jsstring jsstring)
  (g : ValleyImageGenerator) :
  loadGenerationHistory JSON_parse_history (initialState cfg now storage) = Normal g ->
  exists loaded,
    new_ValleyImageGenerator JSON_parse_history JSON_parse_analytics cfg now storage =
      Normal loaded
    /\ generationHistory loaded = generationHistory g.
Proof.
  intros Hload. unfold new_ValleyImageGenerator. rewrite Hload.
  cbn [mbind completion_bind].
  destruct (analytics_enabled cfg); [|eauto].
  apply HistoryFacts.loadAnalytics_total.
Qed.

(** X12. The generation history survives a reload: addToHistory
    leaves the history it made saved under the history key, and a
    widget constructed over a localStorage that holds a saved history
    starts with exactly that history. This presumes that JSON.parse
    reads back what JSON.stringify wrote. *)
Theorem generation_history_survives_reload (cfg : Config) (now later : N)
  (prompt imageUrl : jsstring) (g : ValleyImageGenerator) :
  (forall history, JSON_parse_history (JSON_stringify_history history) = Normal history) ->
  (forall history, JSON_stringify_history history <> []) ->
  exists loaded,
    new_ValleyImageGenerator JSON_parse_history JSON_parse_analytics cfg later
      (localStorage (addToHistory JSON_stringify_history cfg now prompt imageUrl g)) =
      Normal loaded
    /\ generationHistory loaded =
       generationHistory (addToHistory JSON_stringify_history cfg now prompt imageUrl g).
Proof.
  intros Hround Htruthy.
  set (saved := addToHistory JSON_stringify_history cfg now prompt imageUrl g).
  assert (Hstored : localStorage saved !! historyKey =
                    Some (JSON_stringify_history (generationHistory saved))).
  { subst saved. unfold addToHistory, saveGenerationHistory.
    cbn [localStorage generationHistory set_localStorage set_generationHistory].
    apply lookup_insert_eq. }
  apply (constructor_history cfg later (localStorage saved)
           (set_generationHistory (generationHistory saved)
              (initialState cfg later (localStorage saved)))).
  apply loadGenerationHistory_restores; [apply Hround|apply Htruthy|exact Hstored].
Qed.

(** X13. clearGenerationHistory empties the history and removes the
    history key, and nothing else, from localStorage; a widget
    constructed afterwards over that storage starts with an empty
    history. *)
Theorem clearGenerationHistory_clears (cfg : Config) (later : N) (g : ValleyImageGenerator) :
  generationHistory (clearGenerationHistory g) = []
  /\ localStorage (clearGenerationHistory g) !! historyKey = None
  /\ (forall key, key <> historyKey ->
      localStorage (clearGenerationHistory g) !! key = localStorage g !! key)
  /\ exists loaded,
       new_ValleyImageGenerator JSON_parse_history JSON_parse_analytics cfg later
         (localStorage (clearGenerationHistory g)) = Normal loaded
       /\ generationHistory loaded = [].
Proof.
  assert (Hgone : localStorage (clearGenerationHistory g) !! historyKey = None)
    by apply lookup_delete_eq.
  split; [reflexivity|]. split; [exact Hgone|]. split.
  - intros key Hkey. unfold clearGenerationHistory.
    cbn [localStorage set_localStorage set_generationHistory].
    apply lookup_delete_ne. congruence.
  - apply (constructor_history cfg later _
             (set_generationHistory []
                (initialState cfg later (localStorage (clearGenerationHistory g))))).
    unfold loadGenerationHistory. cbn [localStorage initialState]. rewrite Hgone.
    reflexivity.
Qed.

End Widget.

End GenerationHistoryFacts.

(** ** The pattern matcher *)

Module RegExpFacts.
Import JS RegExp.

Lemma Matches_nil_nullable (r : Regex) : Matches r [] -> nullable r = true.
Proof.
  intros H. remember [] as w eqn:Hw.
  induction H as [|set x Hin|r1 r2 w1 w2 H1 IH1 H2 IH2|r1 r2 w H1 IH1|r1 r2 w H2 IH2
                  |r|r w1 w2 H1 IH1 H2 IH2]; try reflexivity; try discriminate.
  - apply app_eq_nil in Hw as [-> ->]. cbn.
    rewrite IH1, IH2; reflexivity.
  - cbn. rewrite IH1; [reflexivity|exact Hw].
  - cbn. rewrite IH2; [apply orb_true_r|exact Hw].
Qed.

Lemma nullable_Matches_nil (r : Regex) : nullable r = true -> Matches r [].
Proof.
  induction r as [| |set|r1 IH1 r2 IH2|r1 IH1 r2 IH2|r IH]; cbn; intros H;
    try discriminate.
  - constructor.
  - apply andb_true_iff in H as [H1 H2]. change (@nil N) with (@nil N ++ []).
    constructor; auto.
  - apply orb_true_iff in H as [H|H]; [apply MAltL|apply MAltR]; auto.
  - constructor.
Qed.

Lemma Matches_Star_cons (r : Regex) (x : N) (w : jsstring) :
  Matches (Star r) (x :: w) ->
  exists w1 w2, w = w1 ++ w2 /\ Matches r (x :: w1) /\ Matches (Star r) w2.
Proof.
  intros H. remember (Star r) as sr eqn:Hsr. remember (x :: w) as xw eqn:Hxw.
  revert w Hxw.
  induction H as [|set y Hin|r1 r2 w1 w2 H1 IH1 H2 IH2|r1 r2 v H1 IH1|r1 r2 v H2 IH2
                  |r'|r' w1 w2 H1 IH1 H2 IH2]; intros w Hxw; try discriminate.
  injection Hsr as ->. destruct w1 as [|y w1].
  - apply IH2; [reflexivity|exact Hxw].
  - injection Hxw as -> <-. exists w1, w2. auto.
Qed.

Lemma Matches_deriv (r : Regex) (x : N) (w : jsstring) :
  Matches (deriv x r) w <-> Matches r (x :: w).
Proof.
  revert w. induction r as [| |set|r1 IH1 r2 IH2|r1 IH1 r2 IH2|r IH]; intros w; cbn [deriv].
  - split; intros H; inversion H.
  - split; intros H; inversion H.
  - destruct (inSet x set) eqn:Hin.
    + split; intros H; inversion H; subst; constructor; exact Hin.
    + split; intros H; inversion H; subst; congruence.
  - assert (Matches (Seq (deriv x r1) r2) w ->
            Matches (Seq r1 r2) (x :: w)) as Hleft.
    { intros H. inversion H as [| |? ? w1 w2 H1 H2| | | |]; subst.
      apply IH1 in H1. change (x :: w1 ++ w2) with ((x :: w1) ++ w2). constructor; auto. }
    assert (Matches (Seq r1 r2) (x :: w) ->
            Matches (Seq (deriv x r1) r2) w \/ (nullable r1 = true /\ Matches r2 (x :: w)))
      as Hback.
    { intros H. inversion H as [| |? ? w1 w2 H1 H2 [E1 E2] E3| | | |]; subst.
      destruct w1 as [|y w1].
      - right. split; [apply Matches_nil_nullable; exact H1|exact H2].
      - left. cbn in E3. injection E3 as -> <-. constructor; [apply IH1; exact H1|exact H2]. }
    destruct (nullable r1) eqn:Hnull.
    + split.
      * intros H. inversion H as [| | |? ? ? H1|? ? ? H2| |]; subst; [auto|].
        apply IH2 in H2. change (x :: w) with ([] ++ x :: w).
        constructor; [apply nullable_Matches_nil; exact Hnull|exact H2].
      * intros H. destruct (Hback H) as [H1|[_ H2]]; [apply MAltL; exact H1|].
        apply MAltR, IH2. exact H2.
    + split; [exact Hleft|]. intros H. destruct (Hback H) as [H1|[? _]]; [exact H1|discriminate].
  - split; intros H; inversion H; subst;
      first [apply MAltL, IH1; assumption | apply MAltR, IH2; assumption].
  - split.
    + intros H. inversion H as [| |? ? w1 w2 H1 H2| | | |]; subst.
      apply IH in H1. change (x :: w1 ++ w2) with ((x :: w1) ++ w2). constructor; auto.
    + intros H. apply Matches_Star_cons in H as (w1 & w2 & -> & H1 & H2).
      constructor; [apply IH; exact H1|exact H2].
Qed.

Lemma fullMatch_Matches (r : Regex) (s : jsstring) :
  fullMatch r s = true <-> Matches r s.
Proof.
  revert r. induction s as [|x s IH]; intros r; cbn [fullMatch].
  - split; [apply nullable_Matches_nil|apply Matches_nil_nullable].
  - rewrite IH. apply Matches_deriv.
Qed.

Lemma matchesPrefix_Matches (r : Regex) (s : jsstring) :
  matchesPrefix r s = true <-> exists w rest, s = w ++ rest /\ Matches r w.
Proof.
  revert r. induction s as [|x s IH]; intros r; cbn [matchesPrefix].
  - rewrite orb_false_r. split.
    + intros H. exists [], []. split; [reflexivity|apply nullable_Matches_nil; exact H].
    + intros (w & rest & Hs & H). symmetry in Hs. apply app_eq_nil in Hs as [-> _].
      apply Matches_nil_nullable. exact H.
  - rewrite orb_true_iff, IH. split.
    + intros [H|(w & rest & -> & H)].
      * exists [], (x :: s). split; [reflexivity|apply nullable_Matches_nil; exact H].
      * exists (x :: w), rest. split; [reflexivity|apply Matches_deriv; exact H].
    + intros (w & rest & Hs & H). destruct w as [|y w].
      * left. apply Matches_nil_nullable. exact H.
      * right. cbn in Hs. injection Hs as <- ->. exists w, rest.
        split; [reflexivity|apply Matches_deriv; exact H].
Qed.

(** The matcher finds a pattern in a text exactly when some part of
    the text is in the language of the pattern. *)
Lemma test_Matches (r : Regex) (s : jsstring) :
  test r s = true <-> exists before w after, s = before ++ w ++ after /\ Matches r w.
Proof.
  induction s as [|x s IH]; cbn [test].
  - rewrite orb_false_r, matchesPrefix_Matches. split.
    + intros (w & rest & Hs & H). exists [], w, rest. auto.
    + intros (before & w & rest & Hs & H). exists w, rest. split; [|exact H].
      symmetry in Hs. apply app_eq_nil in Hs as [-> Hs]. symmetry. exact Hs.
  - rewrite orb_true_iff, IH, matchesPrefix_Matches. split.
    + intros [(w & rest & Hs & H)|(before & w & rest & -> & H)].
      * exists [], w, rest. auto.
      * exists (x :: before), w, rest. auto.
    + intros (before & w & rest & Hs & H). destruct before as [|y before].
      * left. exists w, rest. auto.
      * right. cbn in Hs. injection Hs as <- ->. exists before, w, rest. auto.
Qed.

Lemma Matches_mustContain (chars : list N) (r : Regex) (w : jsstring) :
  Matches r w -> mustContain chars r = true -> exists c, In c chars /\ In c w.
Proof.
  intros H.
  induction H as [|set x Hin|r1 r2 w1 w2 H1 IH1 H2 IH2|r1 r2 w H1 IH1|r1 r2 w H2 IH2
                  |r|r w1 w2 H1 IH1 H2 IH2]; cbn [mustContain]; intros Hmust;
    try discriminate.
  - destruct set as [|atoms|atoms]; try discriminate. cbn in Hin.
    apply existsb_exists in Hin as (a & Ha & Hx).
    rewrite forallb_forall in Hmust. specialize (Hmust a Ha).
    destruct a as [c| | | | |]; try discriminate. cbn in Hx, Hmust.
    apply N.eqb_eq in Hx as ->. apply existsb_exists in Hmust as (d & Hd & Hcd).
    apply N.eqb_eq in Hcd as ->. exists d. split; [exact Hd|left; reflexivity].
  - apply orb_true_iff in Hmust as [Hmust|Hmust].
    + destruct (IH1 Hmust) as (c & Hc & Hw). exists c. split; [exact Hc|].
      apply in_or_app. left. exact Hw.
    + destruct (IH2 Hmust) as (c & Hc & Hw). exists c. split; [exact Hc|].
      apply in_or_app. right. exact Hw.
  - apply andb_true_iff in Hmust as [Hmust _]. auto.
  - apply andb_true_iff in Hmust as [_ Hmust]. auto.
Qed.

Lemma test_mustContain (chars : list N) (r : Regex) (s : jsstring) :
  mustContain chars r = true ->
  (forall c, In c chars -> ~ In c s) ->
  test r s = false.
Proof.
  intros Hmust Hfree. destruct (test r s) eqn:Htest; [|reflexivity].
  apply test_Matches in Htest as (before & w & rest & -> & H).
  destruct (Matches_mustContain chars r w H Hmust) as (c & Hc & Hw).
  exfalso. apply (Hfree c Hc). apply in_or_app. right. apply in_or_app. left. exact Hw.
Qed.

(** Matching one character class any number of times. *)
Lemma Matches_Star_Chr (set : CharSet) (w : jsstring) :
  Matches (Star (Chr set)) w <-> forallb (fun x => inSet x set) w = true.
Proof.
  split.
  - intros H. remember (Star (Chr set)) as sr eqn:Hsr.
    induction H as [|set' x Hin|r1 r2 w1 w2 H1 IH1 H2 IH2|r1 r2 w H1 IH1|r1 r2 w H2 IH2
                    |r|r w1 w2 H1 IH1 H2 IH2]; try discriminate; [reflexivity|].
    injection Hsr as ->. rewrite forallb_app, (IH2 eq_refl), andb_true_r.
    inversion H1; subst. cbn. rewrite andb_true_r. assumption.
  - induction w as [|x w IH]; cbn [forallb]; intros H; [constructor|].
    apply andb_true_iff in H as [Hx Hw]. change (x :: w) with ([x] ++ w).
    constructor; [constructor; exact Hx|auto].
Qed.

Lemma Matches_plus_Chr (set : CharSet) (w : jsstring) :
  Matches (plus (Chr set)) w <-> w <> [] /\ forallb (fun x => inSet x set) w = true.
Proof.
  unfold plus. split.
  - intros H. inversion H as [| |? ? w1 w2 H1 H2| | | |]; subst.
    inversion H1; subst. apply Matches_Star_Chr in H2. cbn.
    split; [discriminate|]. apply andb_true_iff. auto.
  - intros [Hne H]. destruct w as [|x w]; [contradiction|]. cbn in H.
    apply andb_true_iff in H as [Hx Hw]. change (x :: w) with ([x] ++ w).
    constructor; [constructor; exact Hx|apply Matches_Star_Chr; exact Hw].
Qed.

Lemma isWhiteSpace_range (x : N) :
  isWhiteSpace x = true -> (x <= 32 \/ 160 <= x)%N.
Proof.
  unfold isWhiteSpace.
  rewrite !orb_true_iff, !andb_true_iff, !N.leb_le, !N.eqb_eq. lia.
Qed.

Lemma inAtom_lowerUnit (a : Atom) (x : N) :
  caseBlindAtom a = true -> inAtom (lowerUnit x) a = inAtom x a.
Proof.
  unfold lowerUnit. destruct ((65 <=? x) && (x <=? 90))%N eqn:Hupper; [|reflexivity].
  apply andb_true_iff in Hupper as [Hlo Hhi]. apply N.leb_le in Hlo, Hhi.
  destruct a as [c|c|lo hi| | |]; cbn [caseBlindAtom inAtom]; intros Hblind.
  - apply negb_true_iff, orb_false_iff in Hblind as [Hu Hl].
    unfold isUpper, isLower in Hu, Hl.
    apply andb_false_iff in Hu, Hl. rewrite !N.leb_gt in Hu, Hl.
    transitivity false; [|symmetry]; apply N.eqb_neq; lia.
  - unfold isLower in Hblind. apply andb_true_iff in Hblind as [Hl1 Hl2].
    apply N.leb_le in Hl1, Hl2.
    destruct (N.eqb_spec x (c - 32)).
    + rewrite orb_true_r. apply orb_true_iff. left. apply N.eqb_eq. lia.
    + rewrite orb_false_r. transitivity false; [|symmetry].
      * apply orb_false_iff. split; apply N.eqb_neq; lia.
      * apply N.eqb_neq. lia.
  - discriminate.
  - transitivity false; [|symmetry].
    + destruct (isWhiteSpace (x + 32)) eqn:H; [|reflexivity].
      apply isWhiteSpace_range in H. lia.
    + destruct (isWhiteSpace x) eqn:H; [|reflexivity].
      apply isWhiteSpace_range in H. lia.
  - unfold isDigit. transitivity false; [|symmetry]; apply andb_false_iff;
      rewrite !N.leb_gt; lia.
  - unfold isWord, isUpper, isLower, isDigit. transitivity true; [|symmetry].
    + apply orb_true_iff. left. apply orb_true_iff. left. apply orb_true_iff. right.
      apply andb_true_iff. rewrite !N.leb_le. lia.
    + apply orb_true_iff. left. apply orb_true_iff. left. apply orb_true_iff. left.
      apply andb_true_iff. rewrite !N.leb_le. lia.
Qed.

Lemma inSet_lowerUnit (set : CharSet) (x : N) :
  caseBlindSet set = true -> inSet (lowerUnit x) set = inSet x set.
Proof.
  assert (forall atoms, forallb caseBlindAtom atoms = true ->
                        existsb (inAtom (lowerUnit x)) atoms = existsb (inAtom x) atoms)
    as Hatoms.
  { induction atoms as [|a atoms IH]; cbn; [reflexivity|]. intros H.
    apply andb_true_iff in H as [Ha Hrest]. rewrite inAtom_lowerUnit, IH; auto. }
  destruct set as [|atoms|atoms]; cbn [caseBlindSet inSet]; intros Hblind.
  - unfold lowerUnit. destruct ((65 <=? x) && (x <=? 90))%N eqn:Hupper; [|reflexivity].
    apply andb_true_iff in Hupper as [Hlo Hhi]. apply N.leb_le in Hlo, Hhi.
    unfold isLineTerminator. f_equal.
    transitivity false; [|symmetry]; rewrite !orb_false_iff, !N.eqb_neq; lia.
  - auto.
  - rewrite Hatoms; auto.
Qed.

Lemma deriv_lowerUnit (r : Regex) (x : N) :
  caseBlind r = true -> deriv (lowerUnit x) r = deriv x r.
Proof.
  induction r as [| |set|r1 IH1 r2 IH2|r1 IH1 r2 IH2|r IH]; cbn [caseBlind deriv];
    intros Hblind; try reflexivity.
  - rewrite inSet_lowerUnit by exact Hblind. reflexivity.
  - apply andb_true_iff in Hblind as [H1 H2]. rewrite IH1, IH2; auto.
  - apply andb_true_iff in Hblind as [H1 H2]. rewrite IH1, IH2; auto.
  - rewrite IH; auto.
Qed.

Lemma caseBlind_deriv (r : Regex) (x : N) : caseBlind r = true -> caseBlind (deriv x r) = true.
Proof.
  induction r as [| |set|r1 IH1 r2 IH2|r1 IH1 r2 IH2|r IH]; cbn [caseBlind deriv];
    intros Hblind; try reflexivity.
  - destruct (inSet x set); reflexivity.
  - apply andb_true_iff in Hblind as [H1 H2].
    destruct (nullable r1); cbn [caseBlind]; rewrite ?IH1, ?IH2, ?H2; auto.
  - apply andb_true_iff in Hblind as [H1 H2]. rewrite IH1, IH2; auto.
  - rewrite IH, Hblind; auto.
Qed.

Lemma matchesPrefix_asciiLower (s : jsstring) (r : Regex) :
  caseBlind r = true -> matchesPrefix r (asciiLower s) = matchesPrefix r s.
Proof.
  revert r. induction s as [|x s IH]; intros r Hblind; [reflexivity|].
  cbn [asciiLower map matchesPrefix]. f_equal.
  change (if ((65 <=? x) && (x <=? 90))%N then (x + 32)%N else x) with (lowerUnit x).
  rewrite deriv_lowerUnit by exact Hblind. apply IH, caseBlind_deriv, Hblind.
Qed.

Lemma test_asciiLower (s : jsstring) (r : Regex) :
  caseBlind r = true -> test r (asciiLower s) = test r s.
Proof.
  intros Hblind. induction s as [|x s IH]; [reflexivity|].
  change (asciiLower (x :: s)) with (lowerUnit x :: asciiLower s).
  cbn [test]. rewrite IH. f_equal.
  change (lowerUnit x :: asciiLower s) with (asciiLower (x :: s)).
  apply matchesPrefix_asciiLower, Hblind.
Qed.

End RegExpFacts.

(** ** The security manager: token, rate limit, blocking *)

Module SecurityMoreFacts.
Import JS Facts RegExp Security SecurityMore.

Local Arguments lit : simpl never.

Lemma padded_byte (b : N) :
  (b < 256)%N ->
  padStart0 2 (toString16 b) = [hexChar (b / 16); hexChar (b mod 16)].
Proof.
  intros Hb. unfold padStart0, toString16. destruct (b <? 16)%N eqn:Hsmall.
  - apply N.ltb_lt in Hsmall. cbn.
    rewrite N.div_small, N.mod_small by lia. reflexivity.
  - reflexivity.
Qed.

Lemma hexChar_lowerHex (d : N) : (d < 16)%N -> isLowerHex (hexChar d) = true.
Proof.
  intros Hd. unfold isLowerHex, hexChar. destruct (d <? 10)%N eqn:Hten.
  - apply N.ltb_lt in Hten. apply orb_true_iff. left.
    apply andb_true_iff. rewrite !N.leb_le. lia.
  - apply N.ltb_ge in Hten. apply orb_true_iff. right.
    apply andb_true_iff. rewrite !N.leb_le. lia.
Qed.

Lemma hexChar_inj (d e : N) : (d < 16)%N -> (e < 16)%N -> hexChar d = hexChar e -> d = e.
Proof.
  unfold hexChar. intros Hd He.
  destruct (d <? 10)%N eqn:H1, (e <? 10)%N eqn:H2;
    try apply N.ltb_lt in H1; try apply N.ltb_lt in H2;
    try apply N.ltb_ge in H1; try apply N.ltb_ge in H2; lia.
Qed.

Lemma generateCsrfToken_cons (b : N) (array : list N) :
  (b < 256)%N ->
  generateCsrfToken (b :: array) =
  hexChar (b / 16) :: hexChar (b mod 16) :: generateCsrfToken array.
Proof.
  intros Hb. unfold generateCsrfToken. cbn [map concat]. rewrite padded_byte by exact Hb.
  reflexivity.
Qed.

(** X14. generateCsrfToken writes every byte of the array as exactly
    two lower-case hexadecimal digits: the token is twice as long as
    the array (64 characters for its 32 bytes), holds nothing but the
    characters 0-9 and a-f, and different arrays give different
    tokens. *)
Theorem generateCsrfToken_hex (array : list N) :
  Forall (fun b => (b < 256)%N) array ->
  length (generateCsrfToken array) = 2 * length array
  /\ forallb isLowerHex (generateCsrfToken array) = true
  /\ forall other,
       Forall (fun b => (b < 256)%N) other ->
       generateCsrfToken other = generateCsrfToken array -> other = array.
Proof.
  intros Hbytes. induction Hbytes as [|b array Hb Hrest (IHlen & IHhex & IHinj)].
  - split; [reflexivity|]. split; [reflexivity|].
    intros other Hother. destruct Hother as [|c other Hc _]; [reflexivity|].
    rewrite generateCsrfToken_cons by exact Hc. discriminate.
  - rewrite generateCsrfToken_cons by exact Hb. split; [cbn [length]; lia|]. split.
    + cbn [forallb]. rewrite !hexChar_lowerHex, IHhex; [reflexivity| |].
      * apply N.mod_lt. lia.
      * apply N.Div0.div_lt_upper_bound. lia.
    + intros other Hother. destruct Hother as [|c other Hc Hother]; [discriminate|].
      rewrite generateCsrfToken_cons by exact Hc. intros [= Hhigh Hlow Htail].
      apply hexChar_inj in Hhigh;
        [|apply N.Div0.div_lt_upper_bound; lia|apply N.Div0.div_lt_upper_bound; lia].
      apply hexChar_inj in Hlow; [|apply N.mod_lt; lia|apply N.mod_lt; lia].
      f_equal; [|apply IHinj; assumption].
      rewrite (N.div_mod c 16), (N.div_mod b 16) by lia. congruence.
Qed.

Section Events.

Variable toISOString : N -> jsstring.
Variable Number_toString : N -> jsstring.
Variable addLocalSeconds : N -> N -> N.

Abbreviation run := (run toISOString Number_toString addLocalSeconds).
Abbreviation handle := (handle toISOString Number_toString addLocalSeconds).
Abbreviation onRequest := (onRequest toISOString Number_toString addLocalSeconds).
Abbreviation onInput := (onInput toISOString Number_toString addLocalSeconds).
Abbreviation flagInput := (flagInput toISOString Number_toString addLocalSeconds).
Abbreviation checkFailedAttempts := (checkFailedAttempts toISOString Number_toString addLocalSeconds).
Abbreviation blockUser := (blockUser toISOString addLocalSeconds).

Lemma run_snoc (cfg : Config) (policy : Policy) (m : SecurityManager)
  (events : list Event) (e : Event) :
  run cfg policy m (events ++ [e]) = handle cfg policy (run cfg policy m events) e.
Proof. unfold SecurityMore.run. apply foldl_snoc. Qed.

(** X15. Clicks on a freshly loaded page, with no minute timer in
    between: the request count is the number of clicks, every click
    beyond maxRequestsPerMinute adds one entry to the activity log, and
    the visitor is blocked from the click on which the log reaches
    blockThreshold; from then on every click stacks one more overlay
    and one more unblock timer. With the shipped limits of 60 and 10
    the block comes with click 70. *)
Theorem clicks_until_blocked (cfg : Config) (policy : Policy) (token : jsstring)
  (storage : gmap jsstring jsstring) (times : list N) :
  let m := run cfg policy (pageLoad cfg token storage) (map Request times) in
  let n := length times in
  let limit := N.to_nat (maxRequestsPerMinute cfg) in
  requestCount m = N.of_nat n
  /\ length (suspiciousActivities m) = n - limit
  /\ isBlocked m = bool_decide (limit < n /\ blockThreshold cfg <= n - limit)
  /\ blockMessages m = n - (limit + pred (blockThreshold cfg))
  /\ length (unblockTimers m) = n - (limit + pred (blockThreshold cfg)).
Proof.
  cbv zeta. induction times as [|t times IH] using rev_ind.
  - cbn. split; [reflexivity|]. split; [reflexivity|]. split; [|split; reflexivity].
    symmetry. apply bool_decide_eq_false_2. lia.
  - rewrite map_app. cbn [map]. rewrite run_snoc, length_app. cbn [length].
    destruct IH as (Hcount & Hlog & Hblocked & Hmessages & Htimers).
    set (m := run cfg policy (pageLoad cfg token storage) (map Request times)) in *.
    cbn [SecurityMore.handle]. unfold Security.onRequest, checkRequestRate.
    cbn [requestCount]. rewrite Hcount.
    destruct (maxRequestsPerMinute cfg <? N.of_nat (length times) + 1)%N eqn:Hrate.
    + apply N.ltb_lt in Hrate.
      cbn [logSuspiciousActivity suspiciousActivities]. rewrite length_app. cbn [length].
      rewrite Hlog.
      destruct (decide (blockThreshold cfg <= _)) as [Hthreshold|Hthreshold].
      * cbn [Security.blockUser requestCount suspiciousActivities isBlocked blockMessages
               unblockTimers logSuspiciousActivity].
        rewrite ?length_app, ?Hlog, Hmessages, Htimers. cbn [length].
        split; [lia|]. split; [lia|]. split; [|split; lia].
        symmetry. apply bool_decide_eq_true_2. lia.
      * cbn [requestCount suspiciousActivities isBlocked blockMessages unblockTimers
               logSuspiciousActivity].
        rewrite ?length_app, ?Hlog, Hmessages, Htimers, Hblocked. cbn [length].
        split; [lia|]. split; [lia|]. split; [|split; lia].
        rewrite bool_decide_eq_false_2 by lia. symmetry. apply bool_decide_eq_false_2. lia.
    + apply N.ltb_ge in Hrate.
      cbn [requestCount suspiciousActivities isBlocked blockMessages unblockTimers].
      rewrite Hlog, Hmessages, Htimers, Hblocked.
      split; [lia|]. split; [lia|]. split; [|split; lia].
      rewrite bool_decide_eq_false_2 by lia. symmetry. apply bool_decide_eq_false_2. lia.
Qed.

Lemma checkFailedAttempts_log (cfg : Config) (now : N) (m : SecurityManager) :
  suspiciousActivities m `prefix_of`
  suspiciousActivities (checkFailedAttempts cfg now m).
Proof.
  unfold Security.checkFailedAttempts.
  destruct (maxFailedAttempts cfg <=? failedAttempts m)%N; [|reflexivity].
  case_decide; cbn; apply prefix_app_r; reflexivity.
Qed.

Lemma flagInput_log (cfg : Config) (now : N) (type value : jsstring) (m : SecurityManager) :
  suspiciousActivities m `prefix_of`
  suspiciousActivities (flagInput cfg now type value m).
Proof.
  unfold SecurityMore.flagInput.
  etrans; [|apply checkFailedAttempts_log]. cbn. apply prefix_app_r. reflexivity.
Qed.

Lemma sanitizeInput_log (policy : Policy) (now : N) (input : jsstring) (m : SecurityManager) :
  suspiciousActivities m `prefix_of`
  suspiciousActivities (snd (sanitizeInput policy now input m)).
Proof.
  unfold sanitizeInput. destruct (negb (truthy input)); [reflexivity|].
  destruct (blockXssPatterns policy && anyMatches xssPatterns input); [|reflexivity].
  cbn. apply prefix_app_r. reflexivity.
Qed.

Lemma onInput_log (cfg : Config) (policy : Policy) (now : N) (value : jsstring)
  (m : SecurityManager) :
  suspiciousActivities m `prefix_of`
  suspiciousActivities (snd (onInput cfg policy now value m)).
Proof.
  unfold SecurityMore.onInput.
  pose proof (sanitizeInput_log policy now value m) as Hsanitize.
  destruct (xss_enabled policy && sanitizeInputs policy).
  - destruct (sanitizeInput policy now value m) as [seen m1]. cbn [snd] in *.
    destruct (activityMonitoring_enabled cfg && trackInvalidInputs policy); [|exact Hsanitize].
    etrans; [exact Hsanitize|].
    destruct (blockSqlInjection policy && detectSqlInjection seen);
      destruct (blockCommonAttackPatterns policy && detectCommonAttackPatterns seen);
      cbn [snd]; try reflexivity;
      repeat (etrans; [|apply flagInput_log]); reflexivity.
  - destruct (activityMonitoring_enabled cfg && trackInvalidInputs policy); [|reflexivity].
    destruct (blockSqlInjection policy && detectSqlInjection value);
      destruct (blockCommonAttackPatterns policy && detectCommonAttackPatterns value);
      cbn [snd]; try reflexivity;
      repeat (etrans; [|apply flagInput_log]); reflexivity.
Qed.

Lemma onRequest_log (cfg : Config) (now : N) (m : SecurityManager) :
  suspiciousActivities m `prefix_of` suspiciousActivities (onRequest cfg now m).
Proof.
  unfold Security.onRequest, checkRequestRate. cbn [requestCount].
  destruct (maxRequestsPerMinute cfg <? requestCount m + 1)%N; [|reflexivity].
  case_decide; cbn; apply prefix_app_r; reflexivity.
Qed.

Lemma handle_log (cfg : Config) (policy : Policy) (m : SecurityManager) (e : Event) :
  suspiciousActivities m `prefix_of` suspiciousActivities (handle cfg policy m e).
Proof.
  destruct e as [now|now value| |]; cbn [SecurityMore.handle].
  - apply onRequest_log.
  - apply onInput_log.
  - reflexivity.
  - reflexivity.
Qed.

Lemma run_log (cfg : Config) (policy : Policy) (events : list Event) (m : SecurityManager) :
  suspiciousActivities m `prefix_of` suspiciousActivities (run cfg policy m events).
Proof.
  induction events as [|e events IH] using rev_ind; [reflexivity|].
  rewrite run_snoc. etrans; [exact IH|]. apply handle_log.
Qed.

(** X16. Nothing removes an entry from the activity log: whatever
    happens on the page, the end of a block and the minute timer
    included, the log only grows at its end. So once blockThreshold
    entries are logged, the first click beyond the rate limit blocks
    the visitor again at once, however long ago the earlier entries
    were logged. *)
Theorem log_only_grows_so_blocks_recur (cfg : Config) (policy : Policy)
  (m : SecurityManager) (events : list Event) (now : N) :
  let later := run cfg policy m events in
  suspiciousActivities m `prefix_of` suspiciousActivities later
  /\ (blockThreshold cfg <= length (suspiciousActivities m) ->
      (maxRequestsPerMinute cfg <= requestCount later)%N ->
      isBlocked (handle cfg policy later (Request now)) = true
      /\ blockExpiry (handle cfg policy later (Request now))
         = Some (addLocalSeconds now (blockDuration cfg))).
Proof.
  cbv zeta. pose proof (run_log cfg policy events m) as Hlog.
  split; [exact Hlog|]. intros Hthreshold Hrate.
  apply prefix_length in Hlog.
  cbn [SecurityMore.handle]. unfold Security.onRequest, checkRequestRate.
  cbn [requestCount].
  destruct (maxRequestsPerMinute cfg <? requestCount (run cfg policy m events) + 1)%N
    eqn:Hover; [|apply N.ltb_ge in Hover; lia].
  cbn [logSuspiciousActivity suspiciousActivities].
  rewrite decide_True by (rewrite length_app; lia).
  split; reflexivity.
Qed.

Lemma flagged_inputs_invariant (token : jsstring) (storage : gmap jsstring jsstring)
  (flags : list (N * jsstring * jsstring)) :
  let m :=
    foldl (fun m '(now, type, value) => flagInput SECURITY_CONFIG now type value m)
      (pageLoad SECURITY_CONFIG token storage) flags in
  exists q r,
    length flags = 5 * q + r /\ r < 5
    /\ failedAttempts m = N.of_nat r
    /\ length (suspiciousActivities m) = length flags + q
    /\ isBlocked m = bool_decide (2 <= q)
    /\ blockMessages m = pred q.
Proof.
  cbv zeta. induction flags as [|[[now type] value] flags IH] using rev_ind.
  - exists 0, 0. cbn. split; [reflexivity|]. split; [lia|]. auto.
  - rewrite foldl_snoc, length_app. cbn [length].
    destruct IH as (q & r & Hlen & Hr & Hfailed & Hlog & Hblocked & Hmessages).
    set (m := foldl _ _ flags) in *.
    unfold SecurityMore.flagInput, Security.checkFailedAttempts.
    cbn [set_failedAttempts logSuspiciousActivity failedAttempts suspiciousActivities
         SECURITY_CONFIG maxFailedAttempts blockThreshold].
    rewrite Hfailed.
    destruct (5 <=? N.of_nat r + 1)%N eqn:Hfive.
    + apply N.leb_le in Hfive. assert (r = 4) as -> by lia.
      exists (S q), 0.
      destruct (decide (10 <= _)) as [Hten|Hten];
        rewrite !length_app, Hlog in Hten; cbn [length] in Hten;
        cbn [Security.blockUser set_failedAttempts failedAttempts suspiciousActivities
             isBlocked blockMessages logSuspiciousActivity];
        rewrite !length_app, ?Hlog, ?Hmessages, ?Hblocked; cbn [length].
      * split; [lia|]. split; [lia|]. split; [reflexivity|]. split; [lia|].
        split; [symmetry; apply bool_decide_eq_true_2; lia|lia].
      * split; [lia|]. split; [lia|]. split; [reflexivity|]. split; [lia|].
        assert (q = 0) as -> by lia.
        split; [reflexivity|reflexivity].
    + apply N.leb_gt in Hfive. exists q, (S r).
      cbn [set_failedAttempts logSuspiciousActivity failedAttempts suspiciousActivities
           isBlocked blockMessages].
      rewrite !length_app, Hlog, Hmessages, Hblocked. cbn [length].
      split; [lia|]. split; [lia|]. split; [lia|]. split; [lia|]. auto.
Qed.

(** X28. Flagged inputs on a freshly loaded page, under the shipped
    limits: every flag is logged, every fifth one also logs the
    excessive failed attempts and resets the counter, and the block
    threshold is only looked at on those fifth flags. So after [n]
    flags the log holds [n + n / 5] entries, and the visitor is blocked
    from the tenth flag on, although the log reaches the threshold of
    ten entries with the ninth. *)
Theorem flagged_inputs_until_blocked (token : jsstring) (storage : gmap jsstring jsstring)
  (flags : list (N * jsstring * jsstring)) :
  let m :=
    foldl (fun m '(now, type, value) => flagInput SECURITY_CONFIG now type value m)
      (pageLoad SECURITY_CONFIG token storage) flags in
  let n := length flags in
  failedAttempts m = N.of_nat (n mod 5)
  /\ length (suspiciousActivities m) = n + n / 5
  /\ isBlocked m = bool_decide (10 <= n)
  /\ blockMessages m = pred (n / 5).
Proof.
  cbv zeta.
  destruct (flagged_inputs_invariant token storage flags)
    as (q & r & Hlen & Hr & Hfailed & Hlog & Hblocked & Hmessages).
  assert (length flags / 5 = q) as Hq.
  { symmetry. apply (Nat.div_unique _ 5 q r); [exact Hr|exact Hlen]. }
  assert (length flags mod 5 = r) as Hmod.
  { symmetry. apply (Nat.mod_unique _ 5 q r); [exact Hr|exact Hlen]. }
  rewrite Hq, Hmod. split; [exact Hfailed|]. split; [exact Hlog|]. split; [|exact Hmessages].
  rewrite Hblocked. destruct (decide (2 <= q)).
  - rewrite !bool_decide_eq_true_2 by lia. reflexivity.
  - rewrite !bool_decide_eq_false_2 by lia. reflexivity.
Qed.

End Events.

(** *** sanitizeInput *)

Lemma replaceAll_app (c : N) (replacement a b : jsstring) :
  replaceAll c replacement (a ++ b) = replaceAll c replacement a ++ replaceAll c replacement b.
Proof. unfold replaceAll. rewrite map_app, concat_app. reflexivity. Qed.

Lemma escapeHtml_app (a b : jsstring) : escapeHtml (a ++ b) = escapeHtml a ++ escapeHtml b.
Proof. unfold escapeHtml. rewrite !replaceAll_app. reflexivity. Qed.

Lemma replaceAll_other (c : N) (replacement : jsstring) (x : N) :
  x <> c -> replaceAll c replacement [x] = [x].
Proof.
  intros Hne. unfold replaceAll. cbn [map concat].
  apply N.eqb_neq in Hne. rewrite Hne. reflexivity.
Qed.

Lemma escapeHtml_unit (x : N) : escapeHtml [x] = escapeUnit x.
Proof.
  unfold escapeUnit.
  destruct (N.eqb_spec x 38) as [->|H38]; [vm_compute; reflexivity|].
  destruct (N.eqb_spec x 60) as [->|H60]; [vm_compute; reflexivity|].
  destruct (N.eqb_spec x 62) as [->|H62]; [vm_compute; reflexivity|].
  destruct (N.eqb_spec x 34) as [->|H34]; [vm_compute; reflexivity|].
  destruct (N.eqb_spec x 39) as [->|H39]; [vm_compute; reflexivity|].
  destruct (N.eqb_spec x 47) as [->|H47]; [vm_compute; reflexivity|].
  unfold escapeHtml. rewrite !replaceAll_other by assumption. reflexivity.
Qed.

Lemma escapeHtml_cons (x : N) (input : jsstring) :
  escapeHtml (x :: input) = escapeUnit x ++ escapeHtml input.
Proof.
  change (x :: input) with ([x] ++ input). rewrite escapeHtml_app, escapeHtml_unit.
  reflexivity.
Qed.

Lemma escapeHtml_concat (input : jsstring) :
  escapeHtml input = concat (map escapeUnit input).
Proof.
  induction input as [|x input IH]; [reflexivity|].
  rewrite escapeHtml_cons, IH. reflexivity.
Qed.

Lemma needsEscape_cases (x : N) :
  needsEscape x = true ->
  x = 38%N \/ x = 60%N \/ x = 62%N \/ x = 34%N \/ x = 39%N \/ x = 47%N.
Proof.
  unfold needsEscape. cbn [existsb]. rewrite orb_false_r, !orb_true_iff, !N.eqb_eq. tauto.
Qed.

Lemma escapeUnit_plain (x : N) : needsEscape x = false -> escapeUnit x = [x].
Proof.
  unfold needsEscape, escapeUnit. cbn [existsb]. rewrite !orb_false_iff.
  intros (-> & -> & -> & -> & -> & -> & _). reflexivity.
Qed.

Lemma escapeUnit_special (x : N) :
  needsEscape x = true -> exists rest, escapeUnit x = 38%N :: rest /\ 3 <= length rest.
Proof.
  intros H. apply needsEscape_cases in H as [-> | [-> | [-> | [-> | [-> | ->]]]]];
    eexists; (split; [vm_compute; reflexivity|cbn; lia]).
Qed.

Lemma escapeUnit_safe (x c : N) : In c escapedChars -> ~ In c (escapeUnit x).
Proof.
  intros Hc Hin. destruct (needsEscape x) eqn:Hx.
  - apply needsEscape_cases in Hx.
    cbn in Hc.
    destruct Hx as [-> | [-> | [-> | [-> | [-> | ->]]]]];
      vm_compute in Hin;
      repeat (destruct Hin as [Hin|Hin]; [subst c; repeat (destruct Hc as [Hc|Hc]; try discriminate)|]);
      try contradiction.
  - rewrite escapeUnit_plain in Hin by exact Hx. destruct Hin as [->|[]].
    unfold needsEscape in Hx. cbn [existsb] in Hx. rewrite !orb_false_iff, !N.eqb_neq in Hx.
    cbn in Hc. intuition congruence.
Qed.

Lemma escapeHtml_safe (input : jsstring) (c : N) :
  In c escapedChars -> ~ In c (escapeHtml input).
Proof.
  intros Hc. induction input as [|x input IH]; [intros []|].
  rewrite escapeHtml_cons. intros Hin. apply in_app_or in Hin as [Hin|Hin].
  - exact (escapeUnit_safe x c Hc Hin).
  - exact (IH Hin).
Qed.

Lemma placeholder_safe (c : N) :
  In c escapedChars -> ~ In c (lit "[removed for security]").
Proof.
  intros Hc. cbn in Hc. vm_compute. intros Hin.
  repeat (destruct Hin as [Hin|Hin];
          [subst c; repeat (destruct Hc as [Hc|Hc]; try discriminate)|]);
    try contradiction.
Qed.

(** X17. Whatever the configuration and the input, the text that
    sanitizeInput returns holds none of the characters [<], [>], the
    two quotes and the slash. *)
Theorem sanitizeInput_output_is_escaped (policy : Policy) (now : N) (input : jsstring)
  (m : SecurityManager) (c : N) :
  In c escapedChars -> ~ In c (fst (sanitizeInput policy now input m)).
Proof.
  intros Hc. unfold sanitizeInput. destruct input as [|x input]; [intros []|].
  cbn [truthy negb].
  destruct (blockXssPatterns policy && anyMatches xssPatterns (x :: input)); cbn [fst].
  - apply placeholder_safe. exact Hc.
  - apply escapeHtml_safe. exact Hc.
Qed.

Lemma escapeHtml_length (input : jsstring) : length input <= length (escapeHtml input).
Proof.
  induction input as [|x input IH]; [reflexivity|].
  rewrite escapeHtml_cons, length_app. cbn [length].
  destruct (needsEscape x) eqn:Hx.
  - destruct (escapeUnit_special x Hx) as (rest & -> & Hrest). cbn [length]. lia.
  - rewrite escapeUnit_plain by exact Hx. cbn [length]. lia.
Qed.

Lemma escapeHtml_grows (input : jsstring) :
  existsb needsEscape input = true ->
  length input < length (escapeHtml input)
  /\ existsb needsEscape (escapeHtml input) = true.
Proof.
  induction input as [|x input IH]; [discriminate|].
  cbn [existsb]. rewrite escapeHtml_cons, length_app, existsb_app. cbn [length].
  pose proof (escapeHtml_length input) as Hlen.
  destruct (needsEscape x) eqn:Hx.
  - intros _. destruct (escapeUnit_special x Hx) as (rest & -> & Hrest).
    cbn [length existsb]. split; [lia|reflexivity].
  - cbn [orb]. intros Hrest. destruct (IH Hrest) as [Hlt Hexists].
    rewrite escapeUnit_plain by exact Hx. cbn [length]. split; [lia|].
    rewrite Hexists. apply orb_true_r.
Qed.

Lemma escapeHtml_plain (input : jsstring) :
  existsb needsEscape input = false -> escapeHtml input = input.
Proof.
  induction input as [|x input IH]; [reflexivity|].
  cbn [existsb]. intros H. apply orb_false_iff in H as [Hx Hrest].
  rewrite escapeHtml_cons, escapeUnit_plain, IH by assumption. reflexivity.
Qed.

(** X18. The chain of six replacements of sanitizeInput gives what
    one pass that escapes each character on its own gives: the
    ampersands it writes are not escaped again within a call. A text
    is left as it is exactly when it holds none of the six characters;
    any other text gets longer, and longer again each time it is
    sanitized, as happens to the value of a field on every input
    event. *)
Theorem escapeHtml_single_pass (input : jsstring) :
  escapeHtml input = concat (map escapeUnit input)
  /\ (escapeHtml input = input <-> existsb needsEscape input = false)
  /\ (existsb needsEscape input = true ->
      length input < length (escapeHtml input)
      /\ length (escapeHtml input) < length (escapeHtml (escapeHtml input))).
Proof.
  split; [apply escapeHtml_concat|]. split.
  - split; [|apply escapeHtml_plain].
    intros Hfixed. destruct (existsb needsEscape input) eqn:Hspecial; [|reflexivity].
    apply escapeHtml_grows in Hspecial as [Hlt _]. rewrite Hfixed in Hlt. lia.
  - intros Hspecial. apply escapeHtml_grows in Hspecial as [Hlt Hagain].
    split; [exact Hlt|]. apply escapeHtml_grows in Hagain as [Hlt' _]. exact Hlt'.
Qed.

(** *** The detectors *)

Lemma xssPatterns_among_attackPatterns (pattern : Regex) :
  In pattern xssPatterns -> In pattern attackPatterns.
Proof.
  unfold xssPatterns. intros Hin.
  repeat (destruct Hin as [<-|Hin];
          [unfold attackPatterns; cbn [In];
           repeat (first [left; reflexivity | right])|]).
  destruct Hin.
Qed.

Section Inputs.

Variable toISOString : N -> jsstring.
Variable Number_toString : N -> jsstring.
Variable addLocalSeconds : N -> N -> N.

Abbreviation onInput := (onInput toISOString Number_toString addLocalSeconds).

(** X19. An input in which sanitizeInput finds one of its XSS
    patterns is replaced by the placeholder and logged once. The
    listener of the activity monitor runs after that and checks the
    placeholder, not what was typed: although what was typed is also
    one of its attack patterns, it logs nothing and counts no failed
    attempt. *)
Theorem xss_input_is_logged_once (cfg : Config) (now : N) (value : jsstring)
  (m : SecurityManager) :
  anyMatches xssPatterns value = true ->
  onInput cfg SECURITY_POLICY now value m
  = (lit "[removed for security]",
     logSuspiciousActivity now (lit "Potential XSS attack") value m)
  /\ detectCommonAttackPatterns value = true.
Proof.
  intros Hxss. assert (truthy value = true) as Htruthy.
  { destruct value; [vm_compute in Hxss; discriminate|reflexivity]. }
  split.
  - unfold SecurityMore.onInput, sanitizeInput.
    cbn [SECURITY_POLICY xss_enabled sanitizeInputs blockXssPatterns trackInvalidInputs
         blockSqlInjection blockCommonAttackPatterns andb].
    rewrite Htruthy, Hxss. cbn [negb].
    replace (detectSqlInjection (lit "[removed for security]")) with false
      by (vm_compute; reflexivity).
    replace (detectCommonAttackPatterns (lit "[removed for security]")) with false
      by (vm_compute; reflexivity).
    destruct (activityMonitoring_enabled cfg); reflexivity.
  - unfold detectCommonAttackPatterns. rewrite Htruthy. cbn [negb].
    unfold anyMatches in *. apply existsb_exists in Hxss as (pattern & Hin & Htest).
    apply existsb_exists. exists pattern.
    split; [apply xssPatterns_among_attackPatterns; exact Hin|exact Htest].
Qed.

End Inputs.

Lemma anyMatches_asciiLower (patterns : list Regex) (s : jsstring) :
  forallb caseBlind patterns = true ->
  anyMatches patterns (asciiLower s) = anyMatches patterns s.
Proof.
  unfold anyMatches. induction patterns as [|pattern patterns IH]; [reflexivity|].
  cbn [forallb existsb]. intros H. apply andb_true_iff in H as [Hblind Hrest].
  rewrite RegExpFacts.test_asciiLower, IH by assumption. reflexivity.
Qed.

Lemma truthy_asciiLower (s : jsstring) : truthy (asciiLower s) = truthy s.
Proof. destruct s; reflexivity. Qed.

Lemma detectors_asciiLower (s : jsstring) :
  detectSqlInjection (asciiLower s) = detectSqlInjection s
  /\ detectCommonAttackPatterns (asciiLower s) = detectCommonAttackPatterns s
  /\ anyMatches xssPatterns (asciiLower s) = anyMatches xssPatterns s.
Proof.
  unfold detectSqlInjection, detectCommonAttackPatterns.
  rewrite truthy_asciiLower, !anyMatches_asciiLower by (vm_compute; reflexivity).
  split; [|split]; reflexivity.
Qed.

(** X20. The three pattern lists carry the i flag on every pattern:
    two inputs that differ only in the case of ASCII letters get the
    same verdict from detectSqlInjection, from
    detectCommonAttackPatterns and from the XSS patterns of
    sanitizeInput. *)
Theorem detectors_ignore_case (s t : jsstring) :
  asciiLower s = asciiLower t ->
  detectSqlInjection s = detectSqlInjection t
  /\ detectCommonAttackPatterns s = detectCommonAttackPatterns t
  /\ anyMatches xssPatterns s = anyMatches xssPatterns t.
Proof.
  intros Hsame.
  destruct (detectors_asciiLower s) as (Hs1 & Hs2 & Hs3).
  destruct (detectors_asciiLower t) as (Ht1 & Ht2 & Ht3).
  rewrite <- Hs1, <- Hs2, <- Hs3, <- Ht1, <- Ht2, <- Ht3, Hsame.
  split; [|split]; reflexivity.
Qed.

Section Monitor.

Variable toISOString : N -> jsstring.
Variable Number_toString : N -> jsstring.
Variable addLocalSeconds : N -> N -> N.

Abbreviation onInput := (onInput toISOString Number_toString addLocalSeconds).

Lemma onInput_value (cfg : Config) (policy : Policy) (now : N) (value : jsstring)
  (m : SecurityManager) :
  xss_enabled policy = true -> sanitizeInputs policy = true ->
  fst (onInput cfg policy now value m) = fst (sanitizeInput policy now value m).
Proof.
  intros Hxss Hsanitize. unfold SecurityMore.onInput. rewrite Hxss, Hsanitize. cbn [andb].
  destruct (sanitizeInput policy now value m) as [seen m1]. reflexivity.
Qed.

(** X21. With input sanitizing on, the listener of the activity
    monitor never sees a quote, an angle bracket or a slash: the field
    holds the sanitized text by the time it runs. So no pattern whose
    every match holds one of these characters can fire on an input
    event; these are the nine SQL patterns that begin with a quote,
    the classic [' OR '1'='1] among them. *)
Theorem typed_quotes_never_reach_monitor (cfg : Config) (policy : Policy) (now : N)
  (value : jsstring) (m : SecurityManager) :
  xss_enabled policy = true ->
  sanitizeInputs policy = true ->
  let seen := fst (onInput cfg policy now value m) in
  (forall c, In c escapedChars -> ~ In c seen)
  /\ (forall pattern, mustContain escapedChars pattern = true -> test pattern seen = false)
  /\ anyMatches (take 9 sqlPatterns) seen = false.
Proof.
  intros Hxss Hsanitize seen.
  assert (forall c, In c escapedChars -> ~ In c seen) as Hfree.
  { intros c Hc. unfold seen. rewrite onInput_value by assumption.
    unfold sanitizeInput. destruct value as [|x value]; [intros []|].
    cbn [truthy negb].
    destruct (blockXssPatterns policy && anyMatches xssPatterns (x :: value)); cbn [fst].
    - apply placeholder_safe. exact Hc.
    - apply escapeHtml_safe. exact Hc. }
  assert (forall pattern, mustContain escapedChars pattern = true -> test pattern seen = false)
    as Hnever.
  { intros pattern Hmust. apply (RegExpFacts.test_mustContain escapedChars); assumption. }
  split; [exact Hfree|]. split; [exact Hnever|].
  unfold anyMatches.
  destruct (existsb (fun pattern => test pattern seen) (take 9 sqlPatterns)) eqn:Hany;
    [|reflexivity].
  apply existsb_exists in Hany as (pattern & Hin & Htest).
  rewrite Hnever in Htest; [discriminate|].
  assert (forallb (mustContain escapedChars) (take 9 sqlPatterns) = true) as Hall
    by (vm_compute; reflexivity).
  rewrite forallb_forall in Hall. apply Hall. exact Hin.
Qed.

End Monitor.

(** *** The validators *)

Lemma digits_escapeUnit (x : N) :
  length (filter (fun y => isDigit y = true) (escapeUnit x))
  = length (filter (fun y => isDigit y = true) [x])
    + length (filter (fun y => y = 47%N) [x])
    + 2 * length (filter (fun y => y = 39%N) [x]).
Proof.
  destruct (needsEscape x) eqn:Hx.
  - apply needsEscape_cases in Hx as [-> | [-> | [-> | [-> | [-> | ->]]]]];
      vm_compute; reflexivity.
  - rewrite escapeUnit_plain by exact Hx.
    unfold needsEscape in Hx. cbn [existsb] in Hx.
    rewrite !orb_false_iff, !N.eqb_neq in Hx.
    rewrite (filter_cons (fun y => y = 47%N)), (filter_cons (fun y => y = 39%N)).
    rewrite !decide_False by tauto. cbn [filter list_filter length]. lia.
Qed.

Lemma digits_escapeHtml (phone : jsstring) :
  length (filter (fun y => isDigit y = true) (escapeHtml phone))
  = length (filter (fun y => isDigit y = true) phone)
    + length (filter (fun y => y = 47%N) phone)
    + 2 * length (filter (fun y => y = 39%N) phone).
Proof.
  induction phone as [|x phone IH]; [reflexivity|].
  rewrite escapeHtml_cons, filter_app, length_app, IH, digits_escapeUnit.
  change (x :: phone) with ([x] ++ phone). rewrite !filter_app, !length_app. lia.
Qed.

Lemma validatePhone_digits (phone : jsstring) :
  validatePhone phone =
  bool_decide (7 <= length (filter (fun y => isDigit y = true) phone) <= 15).
Proof.
  unfold validatePhone. destruct phone as [|x phone].
  - cbn. symmetry. apply bool_decide_eq_false_2. lia.
  - cbn [truthy negb]. set (digits := length _).
    destruct (decide (7 <= digits)) as [H7|H7], (decide (digits <= 15)) as [H15|H15].
    + rewrite !bool_decide_eq_true_2 by (try split; assumption). reflexivity.
    + rewrite (bool_decide_eq_false_2 (digits <= 15)) by assumption.
      rewrite andb_false_r. symmetry. apply bool_decide_eq_false_2. lia.
    + rewrite (bool_decide_eq_false_2 (7 <= digits)) by assumption.
      symmetry. apply bool_decide_eq_false_2. lia.
    + rewrite (bool_decide_eq_false_2 (7 <= digits)) by assumption.
      symmetry. apply bool_decide_eq_false_2. lia.
Qed.

(** X22. validatePhone counts digits and nothing else, so it counts
    the digits that sanitizeInput writes: in a sanitized phone number
    every slash counts as one digit more and every apostrophe as two
    (from [&#x2F;] and [&#x27;]). The submit listener that validates a
    form runs after the one that sanitizes its fields. *)
Theorem validatePhone_counts_escapes (phone : jsstring) :
  let digits := length (filter (fun y => isDigit y = true) phone) in
  let slashes := length (filter (fun y => y = 47%N) phone) in
  let apostrophes := length (filter (fun y => y = 39%N) phone) in
  validatePhone phone = bool_decide (7 <= digits <= 15)
  /\ validatePhone (escapeHtml phone)
     = bool_decide (7 <= digits + slashes + 2 * apostrophes <= 15).
Proof.
  cbv zeta. split; [apply validatePhone_digits|].
  rewrite validatePhone_digits, digits_escapeHtml. reflexivity.
Qed.

Lemma validateEmail_fullMatch (email : jsstring) :
  validateEmail email = fullMatch emailRegex email.
Proof. destruct email; reflexivity. Qed.

Lemma Matches_Seq_inv (r1 r2 : Regex) (w : jsstring) :
  Matches (Seq r1 r2) w -> exists w1 w2, w = w1 ++ w2 /\ Matches r1 w1 /\ Matches r2 w2.
Proof. intros H. inversion H; subst. eauto. Qed.

Lemma Matches_unit_inv (c : N) (w : jsstring) :
  Matches (Chr (OneOf [Exactly c])) w -> w = [c].
Proof.
  intros H. inversion H as [|? x Hin| | | | |]; subst. cbn in Hin.
  rewrite orb_false_r in Hin. apply N.eqb_eq in Hin as ->. reflexivity.
Qed.

Lemma Matches_unit (c : N) : Matches (Chr (OneOf [Exactly c])) [c].
Proof. constructor. cbn. rewrite N.eqb_refl. reflexivity. Qed.

Lemma validateEmail_parts (email : jsstring) :
  validateEmail email = true ->
  exists name domain tld,
    email = name ++ lit "@" ++ domain ++ lit "." ++ tld
    /\ name <> [] /\ forallb (fun x => inSet x localPart) name = true
    /\ domain <> [] /\ forallb (fun x => inSet x domainPart) domain = true
    /\ 2 <= length tld /\ forallb (fun x => inSet x letters) tld = true.
Proof.
  rewrite validateEmail_fullMatch, RegExpFacts.fullMatch_Matches.
  unfold emailRegex, seq. cbn [foldr]. intros H.
  apply Matches_Seq_inv in H as (name & rest & -> & Hname & H).
  apply Matches_Seq_inv in H as (at_ & rest1 & -> & Hat & H).
  apply Matches_Seq_inv in H as (domain & rest2 & -> & Hdomain & H).
  apply Matches_Seq_inv in H as (dot & rest3 & -> & Hdot & H).
  apply Matches_Seq_inv in H as (first & rest4 & -> & Hfirst & H).
  apply Matches_Seq_inv in H as (more & rest5 & -> & Hmore & H).
  inversion H; subst.
  apply Matches_unit_inv in Hat as ->. apply Matches_unit_inv in Hdot as ->.
  apply RegExpFacts.Matches_plus_Chr in Hname as [Hname1 Hname2].
  apply RegExpFacts.Matches_plus_Chr in Hdomain as [Hdomain1 Hdomain2].
  apply RegExpFacts.Matches_plus_Chr in Hmore as [Hmore1 Hmore2].
  inversion Hfirst as [|? x Hx| | | | |]; subst.
  exists name, domain, (x :: more). rewrite app_nil_r.
  split; [reflexivity|]. split; [exact Hname1|]. split; [exact Hname2|].
  split; [exact Hdomain1|]. split; [exact Hdomain2|]. split.
  - destruct more; [contradiction|cbn [length]; lia].
  - cbn [forallb]. rewrite Hx, Hmore2. reflexivity.
Qed.

(** X23. validateEmail accepts exactly the texts made of a non-empty
    local part of letters, digits and [._%+-], an [@], a non-empty
    domain of letters, digits, dots and hyphens, a dot, and at least
    two letters. Nothing more is asked of the domain: it may begin or
    end with a dot or a hyphen. *)
Theorem validateEmail_shape (email : jsstring) :
  validateEmail email = true <->
  exists name domain tld,
    email = name ++ lit "@" ++ domain ++ lit "." ++ tld
    /\ name <> [] /\ forallb (fun x => inSet x localPart) name = true
    /\ domain <> [] /\ forallb (fun x => inSet x domainPart) domain = true
    /\ 2 <= length tld /\ forallb (fun x => inSet x letters) tld = true.
Proof.
  split; [apply validateEmail_parts|].
  rewrite validateEmail_fullMatch, RegExpFacts.fullMatch_Matches.
  unfold emailRegex, seq. cbn [foldr].
  intros (name & domain & tld & -> & Hname1 & Hname2 & Hdomain1 & Hdomain2 & Hlen & Htld).
  destruct tld as [|x [|y more]]; try (cbn in Hlen; lia).
  cbn [forallb] in Htld. apply andb_true_iff in Htld as [Hx Hmore].
  constructor; [apply RegExpFacts.Matches_plus_Chr; auto|].
  constructor; [apply Matches_unit|].
  constructor; [apply RegExpFacts.Matches_plus_Chr; auto|].
  constructor; [apply Matches_unit|].
  replace (x :: y :: more) with ([x] ++ (y :: more) ++ [])
    by (cbn [app]; rewrite app_nil_r; reflexivity).
  constructor; [constructor; exact Hx|].
  constructor; [|constructor].
  apply RegExpFacts.Matches_plus_Chr. split; [discriminate|exact Hmore].
Qed.

Lemma email_classes_plain (x : N) :
  needsEscape x = true ->
  inSet x localPart = false /\ inSet x domainPart = false /\ inSet x letters = false.
Proof.
  intros H. apply needsEscape_cases in H as [-> | [-> | [-> | [-> | [-> | ->]]]]];
    vm_compute; auto.
Qed.

Lemma class_plain (set : CharSet) (text : jsstring) :
  (forall x, needsEscape x = true -> inSet x set = false) ->
  forallb (fun x => inSet x set) text = true ->
  existsb needsEscape text = false.
Proof.
  intros Hset. induction text as [|x text IH]; [reflexivity|].
  cbn [forallb existsb]. intros H. apply andb_true_iff in H as [Hx Hrest].
  rewrite IH by exact Hrest. rewrite orb_false_r.
  destruct (needsEscape x) eqn:Hspecial; [|reflexivity].
  rewrite Hset in Hx by exact Hspecial. discriminate.
Qed.

Lemma valid_email_plain (email : jsstring) :
  validateEmail email = true -> existsb needsEscape email = false.
Proof.
  intros H.
  apply validateEmail_parts in H
    as (name & domain & tld & -> & _ & Hname & _ & Hdomain & _ & Htld).
  rewrite !existsb_app.
  rewrite (class_plain localPart name), (class_plain domainPart domain),
    (class_plain letters tld); try assumption;
    try (intros x Hx; apply email_classes_plain in Hx; tauto).
  vm_compute. reflexivity.
Qed.

(** X24. Sanitizing does not change what validateEmail says: an
    address it accepts holds none of the escaped characters and is
    left as it is, and an address it rejects is still rejected after
    escaping. *)
Theorem validateEmail_unaffected_by_escaping (email : jsstring) :
  validateEmail (escapeHtml email) = validateEmail email
  /\ (validateEmail email = true -> escapeHtml email = email).
Proof.
  assert (validateEmail email = true -> escapeHtml email = email) as Hsame.
  { intros Hvalid. apply escapeHtml_plain, valid_email_plain. exact Hvalid. }
  split; [|exact Hsame].
  destruct (existsb needsEscape email) eqn:Hspecial.
  - apply escapeHtml_grows in Hspecial as Hgrown. destruct Hgrown as [_ Hagain].
    transitivity false; [|symmetry].
    + destruct (validateEmail (escapeHtml email)) eqn:Hvalid; [|reflexivity].
      apply valid_email_plain in Hvalid. congruence.
    + destruct (validateEmail email) eqn:Hvalid; [|reflexivity].
      apply valid_email_plain in Hvalid. congruence.
  - rewrite escapeHtml_plain by exact Hspecial. reflexivity.
Qed.

End SecurityMoreFacts.

(** ** The image generator script *)

Module LegacyFacts.
Import JS Text Facts ImageHistory LegacyGenerator.

Local Arguments lit : simpl never.

Lemma unescaped_not_dollar (c : N) : isUnescaped c = true -> (c =? 36)%N = false.
Proof.
  unfold isUnescaped. intros H.
  repeat match type of H with
         | (_ || _)%bool = true => apply orb_true_iff in H as [H|H]
         | (_ && _)%bool = true => apply andb_true_iff in H as [? H]
         end;
    repeat match goal with
           | K : (_ <=? _)%N = true |- _ => apply N.leb_le in K
           | K : (_ =? _)%N = true |- _ => apply N.eqb_eq in K
           end;
    apply N.eqb_neq; lia.
Qed.

Lemma escape_octets_no_dollar (octets : list N) :
  forallb (fun c => negb (c =? 36)%N) (escape_octets octets) = true.
Proof.
  unfold escape_octets. induction octets as [|o octets IH]; [reflexivity|].
  cbn [map concat percent app forallb]. rewrite IH, andb_true_r.
  assert (forall d, (hexDigit d =? 36)%N = false) as Hhex.
  { intros d. unfold hexDigit. destruct (d <? 10)%N eqn:Hd.
    - apply N.eqb_neq. lia.
    - apply N.ltb_ge in Hd. apply N.eqb_neq. lia. }
  rewrite !Hhex. reflexivity.
Qed.

(** An encoded string holds no dollar sign. *)
Lemma encodeURIComponent_no_dollar (s encoded : jsstring) :
  encodeURIComponent s = Normal encoded ->
  forallb (fun c => negb (c =? 36)%N) encoded = true.
Proof.
  revert encoded.
  induction s as [|c|c d r IHr IHd] using EncodingFacts.pair_induction; intros encoded.
  - intros [= <-]. reflexivity.
  - cbn. destruct (isUnescaped c) eqn:Hu.
    + intros [= <-]. cbn. rewrite (unescaped_not_dollar c Hu). reflexivity.
    + destruct (isLeadSurrogate c); [discriminate|].
      destruct (isTrailSurrogate c); [discriminate|]. intros [= <-].
      rewrite app_nil_r. apply escape_octets_no_dollar.
  - change (encodeURIComponent (c :: d :: r)) with
      (if isUnescaped c then rest ← encodeURIComponent (d :: r); Normal (c :: rest)
       else if isLeadSurrogate c then
         if isTrailSurrogate d then
           rest ← encodeURIComponent r;
           Normal (escape_octets
                     (utf8_octets (65536 + (c - 55296) * 1024 + (d - 56320))%N) ++ rest)
         else Throw URIError
       else if isTrailSurrogate c then Throw URIError
       else rest ← encodeURIComponent (d :: r);
            Normal (escape_octets (utf8_octets c) ++ rest)).
    destruct (isUnescaped c) eqn:Hu.
    + destruct (encodeURIComponent (d :: r)) as [rest|]; [|discriminate].
      intros [= <-]. cbn [forallb]. rewrite (unescaped_not_dollar c Hu), (IHd rest eq_refl).
      reflexivity.
    + destruct (isLeadSurrogate c).
      * destruct (isTrailSurrogate d); [|discriminate].
        destruct (encodeURIComponent r) as [rest|]; [|discriminate].
        intros [= <-]. rewrite forallb_app, escape_octets_no_dollar, (IHr rest eq_refl).
        reflexivity.
      * destruct (isTrailSurrogate c); [discriminate|].
        destruct (encodeURIComponent (d :: r)) as [rest|]; [|discriminate].
        intros [= <-]. rewrite forallb_app, escape_octets_no_dollar, (IHd rest eq_refl).
        reflexivity.
Qed.

(** A replacement without dollar signs is put in as it is. *)
Lemma getSubstitution_plain (matched before after replacement : jsstring) :
  forallb (fun c => negb (c =? 36)%N) replacement = true ->
  getSubstitution matched before after replacement = replacement.
Proof.
  induction replacement as [|c rest IH]; [reflexivity|].
  cbn [forallb]. intros H. apply andb_true_iff in H as [Hc Hrest].
  apply negb_true_iff in Hc. cbn [getSubstitution]. rewrite Hc, IH by exact Hrest.
  reflexivity.
Qed.

Lemma callImageAPI_primary (prompt encoded : jsstring) (size : Size) :
  encodeURIComponent prompt = Normal encoded ->
  callImageAPI (primary apiConfig) prompt
    (width (SIZE_DIMENSIONS size)) (height (SIZE_DIMENSIONS size))
  = Normal (lit "https://image.pollinations.ai/prompt/"
            ++ decimal (width (SIZE_DIMENSIONS size)) ++ lit "x"
            ++ decimal (height (SIZE_DIMENSIONS size)) ++ lit "/" ++ encoded).
Proof.
  intros Hencoded. unfold callImageAPI. rewrite Hencoded.
  pose proof (encodeURIComponent_no_dollar prompt encoded Hencoded) as Hplain.
  cbn [mbind completion_bind]. f_equal.
  destruct size; cbn [SIZE_DIMENSIONS width height apiConfig primary endpoint parameterFormat].
  - replace (replaceFirst (lit "%height%") (decimal 512)
               (replaceFirst (lit "%width%") (decimal 512) (lit "%width%x%height%/%prompt%")))
      with (lit "512x512/%prompt%") by (vm_compute; reflexivity).
    unfold replaceFirst.
    replace (breakOn (lit "%prompt%") (lit "512x512/%prompt%"))
      with (Some (lit "512x512/", @nil N)) by (vm_compute; reflexivity).
    rewrite getSubstitution_plain, app_nil_r by exact Hplain.
    replace (decimal 512) with (lit "512") by (vm_compute; reflexivity).
    reflexivity.
  - replace (replaceFirst (lit "%height%") (decimal 512)
               (replaceFirst (lit "%width%") (decimal 768) (lit "%width%x%height%/%prompt%")))
      with (lit "768x512/%prompt%") by (vm_compute; reflexivity).
    unfold replaceFirst.
    replace (breakOn (lit "%prompt%") (lit "768x512/%prompt%"))
      with (Some (lit "768x512/", @nil N)) by (vm_compute; reflexivity).
    rewrite getSubstitution_plain, app_nil_r by exact Hplain.
    replace (decimal 512) with (lit "512") by (vm_compute; reflexivity).
    replace (decimal 768) with (lit "768") by (vm_compute; reflexivity).
    reflexivity.
  - replace (replaceFirst (lit "%height%") (decimal 576)
               (replaceFirst (lit "%width%") (decimal 1024) (lit "%width%x%height%/%prompt%")))
      with (lit "1024x576/%prompt%") by (vm_compute; reflexivity).
    unfold replaceFirst.
    replace (breakOn (lit "%prompt%") (lit "1024x576/%prompt%"))
      with (Some (lit "1024x576/", @nil N)) by (vm_compute; reflexivity).
    rewrite getSubstitution_plain, app_nil_r by exact Hplain.
    replace (decimal 576) with (lit "576") by (vm_compute; reflexivity).
    replace (decimal 1024) with (lit "1024") by (vm_compute; reflexivity).
    reflexivity.
Qed.

Lemma callImageAPI_rejects (api : Api) (prompt : jsstring) (w h : N) :
  encodeURIComponent prompt = Throw URIError ->
  callImageAPI api prompt w h = Throw URIError.
Proof. intros Hencoded. unfold callImageAPI. rewrite Hencoded. reflexivity. Qed.

Lemma keywords_plain (style : Style) :
  forallb (fun c => negb (isSurrogate c)) (lit ", " ++ STYLE_PROMPTS style) = true.
Proof. destruct style; vm_compute; reflexivity. Qed.

Lemma legacy_enhancePrompt_wellFormed (prompt : jsstring) (style : Style) :
  isWellFormed (LegacyGenerator.enhancePrompt prompt style) = isWellFormed prompt.
Proof.
  unfold LegacyGenerator.enhancePrompt.
  apply GenerationFacts.isWellFormed_plain_suffix, keywords_plain.
Qed.

Lemma generateImageFromPrompt_result (roll : N) (prompt : jsstring) (style : Style)
  (size : Size) :
  (isWellFormed prompt = true ->
   exists encoded,
     encodeURIComponent (LegacyGenerator.enhancePrompt prompt style) = Normal encoded
     /\ generateImageFromPrompt apiConfig roll prompt style size
        = Normal (lit "https://image.pollinations.ai/prompt/"
                  ++ decimal (width (SIZE_DIMENSIONS size)) ++ lit "x"
                  ++ decimal (height (SIZE_DIMENSIONS size)) ++ lit "/" ++ encoded))
  /\ (isWellFormed prompt = false ->
      generateImageFromPrompt apiConfig roll prompt style size
      = Normal (lit "images/placeholder-" ++ decimal (roll + 1) ++ lit ".jpg")).
Proof.
  pose proof (EncodingFacts.encodeURIComponent_wellFormed
                (LegacyGenerator.enhancePrompt prompt style)) as [Hgood Hbad].
  rewrite legacy_enhancePrompt_wellFormed in Hgood, Hbad.
  unfold generateImageFromPrompt. split; intros Hprompt.
  - destruct (Hgood Hprompt) as [encoded Hencoded]. exists encoded.
    split; [exact Hencoded|].
    rewrite (callImageAPI_primary _ encoded size Hencoded). reflexivity.
  - rewrite !callImageAPI_rejects by (apply Hbad; exact Hprompt). reflexivity.
Qed.

(** X25. With the shipped apiConfig the promise of
    generateImageFromPrompt is never rejected. For a well-formed prompt
    it resolves with the URL of the primary API: the endpoint, the
    dimensions of the chosen size, a slash and the encoded prompt with
    its style keywords. For a prompt that encodeURIComponent refuses,
    the fallback API is called with the same prompt and fails the same
    way, so the result is one of the local placeholder images; the URL
    of the fallback API is never the result. *)
Theorem generateImageFromPrompt_never_rejects (roll : N) (prompt : jsstring)
  (style : Style) (size : Size) :
  exists imageUrl,
    generateImageFromPrompt apiConfig roll prompt style size = Normal imageUrl
    /\ (if isWellFormed prompt
        then exists encoded,
               encodeURIComponent (prompt ++ lit ", " ++ STYLE_PROMPTS style) = Normal encoded
               /\ imageUrl = lit "https://image.pollinations.ai/prompt/"
                             ++ decimal (width (SIZE_DIMENSIONS size)) ++ lit "x"
                             ++ decimal (height (SIZE_DIMENSIONS size)) ++ lit "/"
                             ++ encoded
        else imageUrl = lit "images/placeholder-" ++ decimal (roll + 1) ++ lit ".jpg")
    /\ startsWith imageUrl (endpoint (fallback apiConfig)) = false.
Proof.
  destruct (generateImageFromPrompt_result roll prompt style size) as [Hgood Hbad].
  destruct (isWellFormed prompt) eqn:Hprompt.
  - destruct (Hgood eq_refl) as (encoded & Hencoded & ->). eexists.
    split; [reflexivity|]. split; [exists encoded; split; [exact Hencoded|reflexivity]|].
    vm_compute. reflexivity.
  - rewrite (Hbad eq_refl). eexists. split; [reflexivity|]. split; [reflexivity|].
    vm_compute. reflexivity.
Qed.

Section Script.

Variable JSON_stringify : list HistoryItem -> jsstring.

Abbreviation generateImage := (LegacyGenerator.generateImage JSON_stringify).

(** X26. A click with a non-blank prompt while nothing is being
    generated always ends with an image: the result of
    generateImageFromPrompt is shown with the trimmed prompt as its alt
    text and put at the front of the history, under the names of the
    chosen style and size; the flag isGenerating is down again, no
    loading overlay is left and no error toast is shown. The
    [catch] callback of generateImage never runs. *)
Theorem legacy_click_adds_image (roll now : N) (controls : Controls) (p : Page) :
  trim (promptInput controls) <> [] ->
  isGenerating p = false ->
  length (imageHistory (script p)) <= maxHistory ->
  let after := generateImage apiConfig roll now controls p in
  exists imageUrl,
    generateImageFromPrompt apiConfig roll (trim (promptInput controls))
      (styleSelect controls) (sizeSelect controls) = Normal imageUrl
    /\ imageHistory (script after)
       = take maxHistory
           ({| imageUrl := imageUrl;
               prompt := trim (promptInput controls);
               style := styleName (styleSelect controls);
               size := sizeName (sizeSelect controls);
               timestamp := now |} :: imageHistory (script p))
    /\ shownImage after = Some (imageUrl, trim (promptInput controls))
    /\ isGenerating after = false
    /\ loadingOverlays after = 0
    /\ errorToasts after = errorToasts p.
Proof.
  intros Hprompt Hidle Hlength after.
  assert (exists imageUrl,
             generateImageFromPrompt apiConfig roll (trim (promptInput controls))
               (styleSelect controls) (sizeSelect controls) = Normal imageUrl)
    as [imageUrl Hurl].
  { destruct (generateImageFromPrompt_result roll (trim (promptInput controls))
                (styleSelect controls) (sizeSelect controls)) as [Hgood Hbad].
    destruct (isWellFormed (trim (promptInput controls))) eqn:Hwf.
    - destruct (Hgood eq_refl) as (encoded & _ & ->). eauto.
    - rewrite (Hbad eq_refl). eauto. }
  exists imageUrl. split; [exact Hurl|].
  unfold after, LegacyGenerator.generateImage, generateImage_begin.
  rewrite bool_decide_eq_false_2 by exact Hprompt. rewrite Hidle.
  unfold generateImage_settle.
  cbn [userPrompt selectedStyle selectedSize LegacyGenerator.script
       LegacyGenerator.isGenerating loadingOverlays shownImage errorToasts].
  rewrite Hurl.
  unfold displayGeneratedImage, hideLoadingIndicator.
  cbn [LegacyGenerator.script LegacyGenerator.isGenerating loadingOverlays shownImage
       errorToasts Nat.pred].
  split; [|split; [reflexivity|split; [reflexivity|split; reflexivity]]].
  unfold addToImageHistory, saveImageHistory. cbn [imageHistory].
  case_decide as Hfull.
  - rewrite removelast_firstn_len. f_equal. cbn [length] in *. unfold maxHistory in *. lia.
  - symmetry. apply take_ge. cbn [length] in *. lia.
Qed.

End Script.

End LegacyFacts.

(** ** The further properties on sample pages *)

Module MoreExamples.
Import JS.

(** A plain prompt is well formed, so its image is fetched. *)
Lemma fetch_resolves_witness :
  Text.isWellFormed (lit "cat") = true
  /\ exists url,
       ImageGenerator.fetchGeneratedImage decimal Sample.exceeds Sample.toDataURL
         ImageGenerator.IMAGE_GENERATOR_CONFIG (lit "cat") [] SampleMore.square 7 = Normal url.
Proof.
  assert (Text.isWellFormed (lit "cat") = true) as Hprompt by (vm_compute; reflexivity).
  split; [exact Hprompt|].
  apply (proj1 (proj1 (GenerationFacts.fetchGeneratedImage_resolves_iff_wellFormed
                         decimal Sample.exceeds Sample.toDataURL
                         (lit "cat") [] SampleMore.square 7))).
  exact Hprompt.
Defined.

(** A width of zero leaves both dimensions out of the URL. *)
Lemma url_without_dimensions_witness :
  encodeURIComponent (lit "cat") = Normal (lit "cat")
  /\ ImageGenerator.fetchGeneratedImage decimal Sample.exceeds Sample.toDataURL
       ImageGenerator.IMAGE_GENERATOR_CONFIG (lit "cat") [] SampleMore.noWidth 7
     = Normal (lit "https://image.pollinations.ai/prompt/" ++ lit "cat"
               ++ lit "?nologo=true" ++ lit "&t=" ++ decimal 7).
Proof.
  split; [vm_compute; reflexivity|].
  apply (GenerationFacts.pollinations_url_without_dimensions
           decimal Sample.exceeds Sample.toDataURL (lit "cat") (lit "cat") []
           SampleMore.noWidth 7).
  - vm_compute. reflexivity.
  - left. reflexivity.
Defined.

(** A run on the prompt [cat] leaves the widget ready again. *)
Lemma run_adds_image_witness :
  ImageGenerator.readPrompt (Sample.typed (lit "cat")) <> []
  /\ ImageGenerator.isGenerating
       (ImageGeneratorMore.generateImage asciiLower decimal Sample.parseInt Sample.exceeds
          Sample.toDataURL Sample.stringify Sample.stringify
          ImageGenerator.IMAGE_GENERATOR_CONFIG (Sample.typed (lit "cat")) 5 6
          Sample.generator) = false.
Proof.
  assert (ImageGenerator.readPrompt (Sample.typed (lit "cat")) <> []) as Hprompt
    by (vm_compute; discriminate).
  split; [exact Hprompt|].
  destruct (GenerationFacts.generateImage_run_adds_image
              asciiLower decimal Sample.parseInt Sample.exceeds Sample.toDataURL
              Sample.stringify Sample.stringify (Sample.typed (lit "cat")) 5 6
              Sample.generator Hprompt)
    as (encoded & url & _ & _ & _ & Hready & _).
  - vm_compute. lia.
  - vm_compute. reflexivity.
  - reflexivity.
  - exact Hready.
Defined.

(** A run on a lone surrogate leaves the history as it was. *)
Lemma run_fails_cleanly_witness :
  Text.isWellFormed (ImageGenerator.readPrompt (Sample.typed [55357%N])) = false
  /\ ImageGenerator.generationHistory
       (ImageGeneratorMore.generateImage asciiLower decimal Sample.parseInt Sample.exceeds
          Sample.toDataURL Sample.stringify Sample.stringify
          ImageGenerator.IMAGE_GENERATOR_CONFIG (Sample.typed [55357%N]) 5 6
          Sample.generator)
     = ImageGenerator.generationHistory Sample.generator.
Proof.
  split; [vm_compute; reflexivity|].
  apply (GenerationFacts.generateImage_run_fails_cleanly
           asciiLower decimal Sample.parseInt Sample.exceeds Sample.toDataURL
           Sample.stringify Sample.stringify (Sample.typed [55357%N]) 5 6 Sample.generator).
  - vm_compute. discriminate.
  - vm_compute. lia.
  - vm_compute. reflexivity.
  - reflexivity.
Defined.

(** A short prompt is drawn as it is wrapped. *)
Lemma placeholder_lines_witness :
  ImageGeneratorMore.placeholderLines Sample.exceeds (lit "neon city") SampleMore.square
  = ImageGenerator.wrapWords Sample.exceeds
      (Z.of_N (ImageGenerator.width SampleMore.square) - 40) 0 [] []
      (ImageGenerator.split_on 32 (lit "neon city")).
Proof.
  apply (proj1 (proj2 (proj2 (PlaceholderFacts.placeholderLines_at_most_five
                                Sample.exceeds Sample.toDataURL (lit "neon city")
                                SampleMore.square)))).
  vm_compute. lia.
Defined.

Lemma codec_round_trip {A : Type} `{Countable A} (value : A) :
  Codec.parse (Codec.stringify value) = Normal value.
Proof. unfold Codec.parse, Codec.stringify. rewrite decode_encode. reflexivity. Defined.

(** With a codec for JSON, a page load on the page with the chat
    element restores a stored message and throws in [init]. *)
Lemma page_load_witness :
  (Chatbot.mainChat Sample.chatPage = true \/ Chatbot.popupChat Sample.chatPage = true)
  /\ exists loaded,
       ChatSession.pageLoad Codec.stringify Codec.parse Chatbot.CHATBOT_CONFIG
         Sample.chatPage 5 9
         (Chatbot.localStorage
            (Chatbot.insertMessage Codec.stringify Chatbot.CHATBOT_CONFIG
               (Chatbot.initialState ∅)
               {| Chatbot.role := Chatbot.user; Chatbot.content := lit "hi";
                  Chatbot.timestamp := 1 |}))
       = Normal (loaded, Throw SyntaxError)
       /\ Chatbot.chatHistory loaded
          = Chatbot.chatHistory
              (Chatbot.insertMessage Codec.stringify Chatbot.CHATBOT_CONFIG
                 (Chatbot.initialState ∅)
                 {| Chatbot.role := Chatbot.user; Chatbot.content := lit "hi";
                    Chatbot.timestamp := 1 |}).
Proof.
  assert (Chatbot.mainChat Sample.chatPage = true \/ Chatbot.popupChat Sample.chatPage = true)
    as Helement by (left; reflexivity).
  split; [exact Helement|].
  apply (proj2 (ChatSessionFacts.pageLoad_restores_then_welcomes_or_throws
                  Codec.stringify Codec.parse Sample.chatPage (Chatbot.initialState ∅)
                  {| Chatbot.role := Chatbot.user; Chatbot.content := lit "hi";
                     Chatbot.timestamp := 1 |} 5 9
                  (fun history => codec_round_trip history)
                  (fun history => ltac:(discriminate)))
           Helement).
Defined.

(** Clearing the chat on the page with the chat element throws and
    leaves the history empty. *)
Lemma clear_chat_witness :
  (Chatbot.mainChat Sample.chatPage = true \/ Chatbot.popupChat Sample.chatPage = true)
  /\ snd (ChatSession.clearChatHistory Sample.stringify Chatbot.CHATBOT_CONFIG
            Sample.chatPage 5 9 (Chatbot.initialState ∅)) = Throw SyntaxError
  /\ Chatbot.chatHistory
       (fst (ChatSession.clearChatHistory Sample.stringify Chatbot.CHATBOT_CONFIG
               Sample.chatPage 5 9 (Chatbot.initialState ∅))) = [].
Proof.
  assert (Chatbot.mainChat Sample.chatPage = true \/ Chatbot.popupChat Sample.chatPage = true)
    as Helement by (left; reflexivity).
  split; [exact Helement|].
  destruct (proj2 (ChatSessionFacts.clearChatHistory_welcomes_or_throws
                     Sample.stringify Sample.chatPage 5 9 (Chatbot.initialState ∅))
              Helement) as (Hthrown & Hhistory & _).
  split; [exact Hthrown|exact Hhistory].
Defined.

(** The greeting typed into the sample session is sent on the page
    without a chat element, and throws on the page with one. *)
Lemma exchange_witness :
  trim (ChatSession.chatInput SampleMore.session) <> []
  /\ snd (ChatSession.sendMessage asciiLower Sample.stringify Sample.stringify
            Chatbot.CHATBOT_CONFIG ChatSession.CHATBOT_ANALYTICS Sample.barePage 1
            SampleMore.session)
     = Normal (Some (trim (ChatSession.chatInput SampleMore.session)))
  /\ ChatSession.sendMessage asciiLower Sample.stringify Sample.stringify
       Chatbot.CHATBOT_CONFIG ChatSession.CHATBOT_ANALYTICS Sample.chatPage 1
       SampleMore.session
     = (SampleMore.session, Throw SyntaxError).
Proof.
  assert (trim (ChatSession.chatInput SampleMore.session) <> []) as Htyped
    by (vm_compute; discriminate).
  split; [exact Htyped|]. split.
  - apply (proj1 (proj2 (ChatSessionFacts.exchange_stores_or_throws
                           asciiLower Sample.stringify Sample.stringify Sample.barePage
                           SampleMore.session 1 2))
             Htyped eq_refl eq_refl).
  - apply (proj2 (proj2 (ChatSessionFacts.exchange_stores_or_throws
                           asciiLower Sample.stringify Sample.stringify Sample.chatPage
                           SampleMore.session 1 2))
             Htyped (or_introl eq_refl)).
Defined.

(** Three recent messages decide the suggestions. *)
Lemma suggestions_witness :
  length (Sample.messages 3) = 3
  /\ ChatSession.suggestionsFor asciiLower (Sample.messages 7 ++ Sample.messages 3)
     = ChatSession.suggestionsFor asciiLower (Sample.messages 3).
Proof.
  split; [reflexivity|].
  apply (ChatSessionFacts.suggestions_depend_on_last_three asciiLower
           (Sample.messages 7) (Sample.messages 3)).
  reflexivity.
Defined.

(** With a codec for JSON, the stored image history is read back. *)
Lemma generation_history_reload_witness :
  exists loaded,
    ImageGenerator.new_ValleyImageGenerator Codec.parse Sample.parse
      ImageGenerator.IMAGE_GENERATOR_CONFIG 9
      (ImageGenerator.localStorage
         (ImageGenerator.addToHistory Codec.stringify ImageGenerator.IMAGE_GENERATOR_CONFIG
            5 (lit "cat") (lit "https://image.pollinations.ai/prompt/cat")
            Sample.generator)) = Normal loaded
    /\ ImageGenerator.generationHistory loaded
       = ImageGenerator.generationHistory
           (ImageGenerator.addToHistory Codec.stringify
              ImageGenerator.IMAGE_GENERATOR_CONFIG
              5 (lit "cat") (lit "https://image.pollinations.ai/prompt/cat")
              Sample.generator).
Proof.
  apply (GenerationHistoryFacts.generation_history_survives_reload
           Codec.stringify Codec.parse Sample.parse).
  - intros history. apply codec_round_trip.
  - intros history. discriminate.
Defined.

(** Clearing the image history leaves the other keys alone. *)
Lemma clear_history_witness :
  lit "valleybot_chat_history" <> ImageGenerator.historyKey
  /\ ImageGenerator.localStorage (ImageGeneratorMore.clearGenerationHistory Sample.generator)
     !! lit "valleybot_chat_history"
     = ImageGenerator.localStorage Sample.generator !! lit "valleybot_chat_history".
Proof.
  assert (lit "valleybot_chat_history" <> ImageGenerator.historyKey) as Hkey
    by (vm_compute; discriminate).
  split; [exact Hkey|].
  apply (proj1 (proj2 (proj2 (GenerationHistoryFacts.clearGenerationHistory_clears
                                (@Sample.parse _) (@Sample.parse _)
                                ImageGenerator.IMAGE_GENERATOR_CONFIG 0 Sample.generator)))).
  exact Hkey.
Defined.

(** Five bytes give ten hexadecimal digits. *)
Lemma csrf_token_witness :
  Forall (fun b => (b < 256)%N) [0; 15; 16; 255; 171]%N
  /\ length (SecurityMore.generateCsrfToken [0; 15; 16; 255; 171]%N) = 2 * 5.
Proof.
  assert (Forall (fun b => (b < 256)%N) [0; 15; 16; 255; 171]%N) as Hbytes
    by (repeat constructor).
  split; [exact Hbytes|].
  apply (proj1 (SecurityMoreFacts.generateCsrfToken_hex [0; 15; 16; 255; 171]%N Hbytes)).
Defined.

(** With ten activities logged, the click after the end of a block
    blocks again. *)
Lemma blocks_recur_witness :
  Security.blockThreshold Security.SECURITY_CONFIG
  <= length (Security.suspiciousActivities SampleMore.flagged)
  /\ Security.isBlocked
       (SecurityMore.handle Sample.toISOString decimal Sample.addLocalSeconds Security.SECURITY_CONFIG
          SecurityMore.SECURITY_POLICY
          (SecurityMore.run Sample.toISOString decimal Sample.addLocalSeconds Security.SECURITY_CONFIG
             SecurityMore.SECURITY_POLICY SampleMore.flagged [SecurityMore.Unblock])
          (SecurityMore.Request 400000)) = true.
Proof.
  assert (Security.blockThreshold Security.SECURITY_CONFIG
          <= length (Security.suspiciousActivities SampleMore.flagged)) as Hlogged
    by (vm_compute; lia).
  split; [exact Hlogged|].
  apply (proj2 (SecurityMoreFacts.log_only_grows_so_blocks_recur
                  Sample.toISOString decimal Sample.addLocalSeconds Security.SECURITY_CONFIG
                  SecurityMore.SECURITY_POLICY SampleMore.flagged [SecurityMore.Unblock]
                  400000) Hlogged).
  vm_compute. discriminate.
Defined.

(** The angle bracket of a tag does not come out of sanitizeInput. *)
Lemma sanitized_output_witness :
  In 60%N SecurityMore.escapedChars
  /\ ~ In 60%N (fst (SecurityMore.sanitizeInput SecurityMore.SECURITY_POLICY 0 (lit "<b>")
                       Sample.suspect)).
Proof.
  assert (In 60%N SecurityMore.escapedChars) as Hchar by (left; reflexivity).
  split; [exact Hchar|].
  apply (SecurityMoreFacts.sanitizeInput_output_is_escaped
           SecurityMore.SECURITY_POLICY 0 (lit "<b>") Sample.suspect 60%N Hchar).
Defined.

(** A text with an ampersand grows each time it is sanitized. *)
Lemma escaping_grows_witness :
  existsb SecurityMore.needsEscape (lit "R&B") = true
  /\ length (lit "R&B") < length (SecurityMore.escapeHtml (lit "R&B"))
  /\ length (SecurityMore.escapeHtml (lit "R&B"))
     < length (SecurityMore.escapeHtml (SecurityMore.escapeHtml (lit "R&B"))).
Proof.
  assert (existsb SecurityMore.needsEscape (lit "R&B") = true) as Hspecial
    by (vm_compute; reflexivity).
  split; [exact Hspecial|].
  apply (proj2 (proj2 (SecurityMoreFacts.escapeHtml_single_pass (lit "R&B"))) Hspecial).
Defined.

(** An event handler typed into a field is replaced and logged once. *)
Lemma xss_input_witness :
  SecurityMore.anyMatches SecurityMore.xssPatterns (lit "onload=x") = true
  /\ SecurityMore.onInput Sample.toISOString decimal Sample.addLocalSeconds Security.SECURITY_CONFIG
       SecurityMore.SECURITY_POLICY 3 (lit "onload=x") Sample.suspect
     = (lit "[removed for security]",
        Security.logSuspiciousActivity 3 (lit "Potential XSS attack") (lit "onload=x")
          Sample.suspect).
Proof.
  assert (SecurityMore.anyMatches SecurityMore.xssPatterns (lit "onload=x") = true) as Hxss
    by (vm_compute; reflexivity).
  split; [exact Hxss|].
  apply (proj1 (SecurityMoreFacts.xss_input_is_logged_once
                  Sample.toISOString decimal Sample.addLocalSeconds Security.SECURITY_CONFIG 3 (lit "onload=x")
                  Sample.suspect Hxss)).
Defined.

(** The same statement in upper and in lower case. *)
Lemma ignore_case_witness :
  asciiLower (lit "UNION SELECT") = asciiLower (lit "union select")
  /\ SecurityMore.detectSqlInjection (lit "UNION SELECT")
     = SecurityMore.detectSqlInjection (lit "union select").
Proof.
  assert (asciiLower (lit "UNION SELECT") = asciiLower (lit "union select")) as Hsame
    by (vm_compute; reflexivity).
  split; [exact Hsame|].
  apply (proj1 (SecurityMoreFacts.detectors_ignore_case
                  (lit "UNION SELECT") (lit "union select") Hsame)).
Defined.

(** The classic injection, typed into a field, is not seen by the
    patterns that begin with a quote. *)
Lemma typed_quotes_witness :
  SecurityMore.xss_enabled SecurityMore.SECURITY_POLICY = true
  /\ SecurityMore.sanitizeInputs SecurityMore.SECURITY_POLICY = true
  /\ SecurityMore.anyMatches (take 9 SecurityMore.sqlPatterns)
       (fst (SecurityMore.onInput Sample.toISOString decimal Sample.addLocalSeconds Security.SECURITY_CONFIG
               SecurityMore.SECURITY_POLICY 3 (lit "x' OR '1'='1") Sample.suspect))
     = false.
Proof.
  split; [reflexivity|]. split; [reflexivity|].
  apply (proj2 (proj2 (SecurityMoreFacts.typed_quotes_never_reach_monitor
                         Sample.toISOString decimal Sample.addLocalSeconds Security.SECURITY_CONFIG
                         SecurityMore.SECURITY_POLICY 3 (lit "x' OR '1'='1")
                         Sample.suspect eq_refl eq_refl))).
Defined.

(** An accepted address has the three parts. *)
Lemma email_shape_witness :
  SecurityMore.validateEmail (lit "booking@valleytainment.com") = true
  /\ exists name domain tld,
       lit "booking@valleytainment.com" = name ++ lit "@" ++ domain ++ lit "." ++ tld
       /\ name <> []
       /\ forallb (fun x => RegExp.inSet x SecurityMore.localPart) name = true
       /\ domain <> []
       /\ forallb (fun x => RegExp.inSet x SecurityMore.domainPart) domain = true
       /\ 2 <= length tld
       /\ forallb (fun x => RegExp.inSet x SecurityMore.letters) tld = true.
Proof.
  assert (SecurityMore.validateEmail (lit "booking@valleytainment.com") = true) as Hvalid
    by (vm_compute; reflexivity).
  split; [exact Hvalid|].
  apply (proj1 (SecurityMoreFacts.validateEmail_shape (lit "booking@valleytainment.com"))
           Hvalid).
Defined.

(** An accepted address is left as it is by the escaping. *)
Lemma email_unaffected_witness :
  SecurityMore.validateEmail (lit "booking@valleytainment.com") = true
  /\ SecurityMore.escapeHtml (lit "booking@valleytainment.com")
     = lit "booking@valleytainment.com".
Proof.
  assert (SecurityMore.validateEmail (lit "booking@valleytainment.com") = true) as Hvalid
    by (vm_compute; reflexivity).
  split; [exact Hvalid|].
  apply (proj2 (SecurityMoreFacts.validateEmail_unaffected_by_escaping
                  (lit "booking@valleytainment.com")) Hvalid).
Defined.

(** A click on the sample page of the script ends with the flag down. *)
Lemma legacy_click_witness :
  trim (LegacyGenerator.promptInput SampleMore.controls) <> []
  /\ LegacyGenerator.isGenerating
       (LegacyGenerator.generateImage Sample.stringify LegacyGenerator.apiConfig 2 7
          SampleMore.controls SampleMore.page) = false.
Proof.
  assert (trim (LegacyGenerator.promptInput SampleMore.controls) <> []) as Hprompt
    by (vm_compute; discriminate).
  split; [exact Hprompt|].
  destruct (LegacyFacts.legacy_click_adds_image Sample.stringify 2 7 SampleMore.controls
              SampleMore.page Hprompt)
    as (imageUrl & _ & _ & _ & Hready & _).
  - reflexivity.
  - vm_compute. lia.
  - exact Hready.
Defined.

(** The third time [constructor] is asked, its count is two. *)
Lemma question_counts_witness :
  (∅ : gmap jsstring Count) !! lit "constructor" = None
  /\ Nat.iter 3 (ChatSession.countQuestion (lit "constructor")) ∅ !! lit "constructor"
     = (if bool_decide (lit "constructor" = lit "__proto__") then None
        else if bool_decide (lit "constructor" ∈ inheritedNames)
             then Some (Num (N.of_nat 2))
             else Some (Num (N.of_nat 3))).
Proof.
  assert ((∅ : gmap jsstring Count) !! lit "constructor" = None) as Hfresh
    by apply lookup_empty.
  split; [exact Hfresh|].
  apply (proj1 (ChatSessionFacts.question_counts (lit "constructor") ∅ 2 Hfresh)).
Defined.

End MoreExamples.
